(** * OpenProdoc MCP server: a shallow embedding of [MCP/openprodoc_mcp.py]

    The server exposes the OpenProdoc REST API as a set of tools.  Every tool
    validates its input, sends one HTTP request (two for a document update),
    and renders the answer as a string.  This development embeds the shared
    helpers of the module (error formatting, attribute extraction, report
    rendering, truncation) and the tools built on them, and checks the
    properties that the specification states about them.

    Conventions of the embedding:
    - a Python value that comes out of a JSON body is a [pyval]; a [dict] is an
      association list read with the first binding of a key (a Python [dict]
      holds one binding per key); JSON numbers are integers here;
    - a Python [str] is a Rocq [string], one [ascii] per character;
    - a Python exception is a value of [exn]; a function that may raise returns
      a [result];
    - the module globals [_auth_token] and [_base_url], together with the log
      of the requests handed to the HTTP client, form the [world] that the
      tools thread through;
    - calls to [logger] are left out, except where evaluating their argument
      can raise (the [len(_auth_token)] of [_get_auth_headers] and of
      [openprodoc_login], and the [json.dumps] of the request body in
      [_make_api_request]). *)

From Stdlib Require Import String Ascii List ZArith Lia Bool DecimalString.
Import ListNotations.
Local Open Scope string_scope.

(** ** Python values *)

#[warnings="-register-all"]
Inductive pyval : Type :=
| PNone
| PBool (b : bool)
| PInt (n : Z)
| PStr (s : string)
| PBytes (b : string)
| PList (l : list pyval)
| PDict (d : list (string * pyval)).

(** The answer of the remote service as [httpx] presents it: the status line,
    the [content-type] header when there is one, what [response.json()]
    gives (the parsed value, or the message of the decoding error), and the
    raw content. *)
Record http_response : Type := mk_response {
  status_code : Z;
  content_type : option string;
  response_json : pyval + string;
  content : string
}.

(** ** Exceptions and results *)

Inductive exn : Type :=
| HTTPStatusError (response : http_response)
| TimeoutException (msg : string)
| ValueError (msg : string)
| FileNotFoundError (msg : string)
| OtherException (type_name : string) (msg : string).

Inductive result (A : Type) : Type :=
| Ok (a : A)
| Raise (e : exn).

Arguments Ok {A} a.
Arguments Raise {A} e.

Definition rbind {A B : Type} (m : result A) (k : A -> result B) : result B :=
  match m with
  | Ok a => k a
  | Raise e => Raise e
  end.

Declare Scope result_scope.
Delimit Scope result_scope with result.
Notation "x <- m ;; k" := (rbind m (fun x => k))
  (at level 61, m at next level, right associativity) : result_scope.

(** ** Strings the way Python handles them *)

Module PyString.

Definition LF : string := String "010"%char EmptyString.

(** [s.split(c)] for a one-character separator [c]. *)
Fixpoint split (c : ascii) (s : string) : list string :=
  match s with
  | EmptyString => [EmptyString]
  | String a rest =>
      if Ascii.eqb a c then EmptyString :: split c rest
      else match split c rest with
           | h :: t => String a h :: t
           | [] => [String a EmptyString]
           end
  end.

(** [sep.join(parts)]. *)
Definition join (sep : string) (parts : list string) : string :=
  String.concat sep parts.

(** [sub in s]. *)
Definition contains (sub s : string) : bool :=
  match index 0 sub s with
  | Some _ => true
  | None => false
  end.

(** [s.endswith(suffix)]: [s] itself or one of its tails is [suffix]. *)
Fixpoint endswith (s suffix : string) : bool :=
  String.eqb s suffix
  || match s with
     | EmptyString => false
     | String _ rest => endswith rest suffix
     end.

(** [str(n)] for an [int]. *)
Definition of_int (n : Z) : string :=
  NilZero.string_of_int (Z.to_int n).

Definition of_nat (n : nat) : string :=
  of_int (Z.of_nat n).

End PyString.

(** ** Built-in operations on values *)

Module Py.

Definition type_name (v : pyval) : string :=
  match v with
  | PNone => "NoneType"
  | PBool _ => "bool"
  | PInt _ => "int"
  | PStr _ => "str"
  | PBytes _ => "bytes"
  | PList _ => "list"
  | PDict _ => "dict"
  end.

(** The interpreter's own errors, with the messages of CPython 3.12. *)
Definition TypeError (msg : string) : exn := OtherException "TypeError" msg.
Definition AttributeError (msg : string) : exn := OtherException "AttributeError" msg.
Definition KeyError (msg : string) : exn := OtherException "KeyError" msg.

Definition no_attribute (v : pyval) (attr : string) : exn :=
  AttributeError ("'" ++ type_name v ++ "' object has no attribute '" ++ attr ++ "'").

Definition not_iterable (v : pyval) : exn :=
  TypeError ("'" ++ type_name v ++ "' object is not iterable").

Definition not_subscriptable (v : pyval) : exn :=
  TypeError ("'" ++ type_name v ++ "' object is not subscriptable").

(** [bool(v)]. *)
Definition truthy (v : pyval) : bool :=
  match v with
  | PNone => false
  | PBool b => b
  | PInt n => negb (n =? 0)%Z
  | PStr s => negb (String.eqb s "")
  | PBytes b => negb (String.eqb b "")
  | PList l => match l with [] => false | _ => true end
  | PDict d => match d with [] => false | _ => true end
  end.

(** [v == s] for a [str] [s]. *)
Definition eq_str (v : pyval) (s : string) : bool :=
  match v with
  | PStr t => String.eqb t s
  | _ => false
  end.

Fixpoint lookup (d : list (string * pyval)) (k : string) : option pyval :=
  match d with
  | [] => None
  | (k', v) :: rest => if String.eqb k' k then Some v else lookup rest k
  end.

(** [k in d] and [d.get(k, dflt)] for a [dict] [d]. *)
Definition has_key (d : list (string * pyval)) (k : string) : bool :=
  match lookup d k with Some _ => true | None => false end.

Definition dict_get (d : list (string * pyval)) (k : string) (dflt : pyval) : pyval :=
  match lookup d k with Some v => v | None => dflt end.

(** [v.get(k, dflt)], an [AttributeError] unless [v] is a [dict]. *)
Definition get (v : pyval) (k : string) (dflt : pyval) : result pyval :=
  match v with
  | PDict d => Ok (dict_get d k dflt)
  | _ => Raise (no_attribute v "get")
  end.

(** [k in v]. *)
Definition contains (v : pyval) (k : string) : result bool :=
  match v with
  | PDict d => Ok (has_key d k)
  | PList l => Ok (existsb (fun x => eq_str x k) l)
  | PStr s => Ok (PyString.contains k s)
  | PBytes _ => Raise (TypeError "a bytes-like object is required, not 'str'")
  | _ => Raise (TypeError ("argument of type '" ++ type_name v ++ "' is not iterable"))
  end.

Definition chars (s : string) : list string :=
  map (fun c => String c EmptyString) (list_ascii_of_string s).

(** The elements that [for x in v] goes through. *)
Definition iter (v : pyval) : result (list pyval) :=
  match v with
  | PList l => Ok l
  | PDict d => Ok (map (fun kv => PStr (fst kv)) d)
  | PStr s => Ok (map PStr (chars s))
  | PBytes b => Ok (map (fun c => PInt (Z.of_nat (nat_of_ascii c))) (list_ascii_of_string b))
  | _ => Raise (not_iterable v)
  end.

(** [v[0]]. *)
Definition index0 (v : pyval) : result pyval :=
  match v with
  | PList (x :: _) => Ok x
  | PList [] => Raise (OtherException "IndexError" "list index out of range")
  | PStr (String c _) => Ok (PStr (String c EmptyString))
  | PStr EmptyString => Raise (OtherException "IndexError" "string index out of range")
  | PBytes (String c _) => Ok (PInt (Z.of_nat (nat_of_ascii c)))
  | PBytes EmptyString => Raise (OtherException "IndexError" "index out of range")
  | PDict _ => Raise (KeyError "0")
  | _ => Raise (not_subscriptable v)
  end.

(** [len(v)]. *)
Definition len (v : pyval) : result nat :=
  match v with
  | PList l => Ok (List.length l)
  | PDict d => Ok (List.length d)
  | PStr s => Ok (String.length s)
  | PBytes b => Ok (String.length b)
  | _ => Raise (TypeError ("object of type '" ++ type_name v ++ "' has no len()"))
  end.

End Py.

(** ** What the module takes from its surroundings

    The parts of the Python runtime and of the outside world that the module
    calls and that are not modelled further: [repr] of the values whose [str]
    is their [repr], the two uses of [json.dumps], [os.path.basename], reading
    a local file, and the remote service behind the HTTP client (which may
    answer differently depending on the requests made before). *)

Record request : Type := mk_request {
  req_method : string;
  req_url : string;
  req_headers : list (string * string);
  req_json : option pyval;
  req_params : option (list (string * string));
  req_files : option (list (string * (string * string)));
  req_data : option (list (string * string))
}.

Inductive http_outcome : Type :=
| Responded (r : http_response)
| Failed (e : exn).

Record environment : Type := mk_environment {
  py_repr : pyval -> string;
  json_dumps_indent2 : pyval -> string;
  json_dumps : pyval -> string;
  os_path_basename : string -> string;
  read_file : string -> result string;
  remote : list request -> request -> http_outcome
}.

(** ** Module globals *)

Definition CHARACTER_LIMIT : Z := 25000.
Definition DEFAULT_PAGINATION_LIMIT : Z := 200.

Record world : Type := mk_world {
  _auth_token : pyval;
  _base_url : string;
  _default_username : option string;
  _default_password : option string;
  sent : list request
}.

Definition set_auth_token (t : pyval) (w : world) : world :=
  mk_world t (_base_url w) (_default_username w) (_default_password w) (sent w).

Definition set_base_url (u : string) (w : world) : world :=
  mk_world (_auth_token w) u (_default_username w) (_default_password w) (sent w).

Definition record_request (r : request) (w : world) : world :=
  mk_world (_auth_token w) (_base_url w) (_default_username w) (_default_password w)
           (sent w ++ [r]).

(** A computation that reads and writes the globals and may raise. *)
Definition M (A : Type) : Type := world -> result A * world.

Definition ret {A : Type} (a : A) : M A := fun w => (Ok a, w).

Definition raise {A : Type} (e : exn) : M A := fun w => (Raise e, w).

Definition bind {A B : Type} (m : M A) (k : A -> M B) : M B :=
  fun w =>
    match m w with
    | (Ok a, w') => k a w'
    | (Raise e, w') => (Raise e, w')
    end.

Definition lift {A : Type} (r : result A) : M A := fun w => (r, w).

Definition get_world : M world := fun w => (Ok w, w).

Definition modify (f : world -> world) : M unit := fun w => (Ok tt, f w).

(** [try: body  except Exception as e: handler(e)] *)
Definition try_except {A : Type} (body : M A) (handler : exn -> M A) : M A :=
  fun w =>
    match body w with
    | (Ok a, w') => (Ok a, w')
    | (Raise e, w') => handler e w'
    end.

Declare Scope world_scope.
Delimit Scope world_scope with world.
Notation "x <~ m ;; k" := (bind m (fun x => k))
  (at level 61, m at next level, right associativity) : world_scope.
Notation "m ;;; k" := (bind m (fun _ => k))
  (at level 61, right associativity) : world_scope.

(** A tool body inside [try: ... except Exception as e: ...]: whatever the
    body raises is turned into the string that the handler gives. *)
Definition catching (body : M string) (handler : exn -> world -> string * world)
  : world -> string * world :=
  fun w =>
    match body w with
    | (Ok s, w') => (s, w')
    | (Raise e, w') => handler e w'
    end.

(** ** Input models

    A tool receives its parameters after pydantic has built the model: every
    [str] is stripped and the constraints of the fields hold.  An
    [Optional[str]] field is an [option string]; Python reads it as false when
    it is [None] or empty. *)

Inductive ResponseFormat : Type := MARKDOWN | JSON.

(** [ConfigDict(str_strip_whitespace=True)]: pydantic removes the white space
    at both ends of every [str] field before the validators of the field run.
    The white space is that of Unicode; among the characters of a string here
    these are the tab to the carriage return, the space, NEL and the
    no-break space. *)
Module Pydantic.
Definition is_whitespace (c : ascii) : bool :=
  let n := nat_of_ascii c in
  ((9 <=? n) && (n <=? 13) || (n =? 32) || (n =? 133) || (n =? 160))%nat.

Fixpoint lstrip (s : string) : string :=
  match s with
  | String c rest => if is_whitespace c then lstrip rest else s
  | EmptyString => EmptyString
  end.

Fixpoint rstrip (s : string) : string :=
  match s with
  | String c rest =>
      match rstrip rest with
      | EmptyString => if is_whitespace c then EmptyString else String c EmptyString
      | kept => String c kept
      end
  | EmptyString => EmptyString
  end.

Definition str_strip_whitespace (s : string) : string := rstrip (lstrip s).

Definition strip_optional (o : option string) : option string :=
  option_map str_strip_whitespace o.

(** The error of a bound [Field(ge=n)] that does not hold. *)
Definition greater_than_equal (n : Z) : exn :=
  ValueError ("Input should be greater than or equal to " ++ PyString.of_int n).
End Pydantic.

Definition is_set (o : option string) : bool :=
  match o with
  | Some s => negb (String.eqb s "")
  | None => false
  end.

(** [a or b] on optional strings. *)
Definition or_else (a b : option string) : option string :=
  if is_set a then a else b.

(** What an f-string puts in place of an optional string. *)
Definition opt_str (o : option string) : string :=
  match o with
  | Some s => s
  | None => "None"
  end.

Module LoginInput.
Record t : Type := mk {
  username : option string;
  password : option string;
  base_url : option string
}.
End LoginInput.

Module CreateFolderInput.
Record t : Type := mk {
  name : string;
  folder_type : string;
  parent_id : option string;
  parent_path : option string;
  acl : string;
  attributes : option (list pyval);
  response_format : ResponseFormat
}.
End CreateFolderInput.

(** The five folder models that take [folder_id] or [folder_path] each carry
    the same field validator on [folder_path].  pydantic runs it when the input
    supplies [folder_path] (a field left out takes its default unvalidated),
    with the already validated [folder_id] in [info.data]; [model_validate]
    takes the supplied [folder_path] as [Some v] and a missing one as [None],
    strips every string before it is validated and stored, and checks the
    bounds of [initial] and [final].  Its error is the first one in the order
    of the fields, as the validator raised it; pydantic reports it inside its
    [ValidationError]. *)

Module GetFolderInput.
Record t : Type := mk {
  folder_id : option string;
  folder_path : option string;
  response_format : ResponseFormat
}.

Definition validate_identifiers (data_folder_id v : option string) : result (option string) :=
  if negb (is_set data_folder_id) && negb (is_set v)
  then Raise (ValueError "Either folder_id or folder_path must be provided")
  else Ok v.

Definition model_validate (id : option string) (path : option (option string))
    (fmt : ResponseFormat) : result t :=
  let folder_id := Pydantic.strip_optional id in
  match path with
  | None => Ok (mk folder_id None fmt)
  | Some v =>
      match validate_identifiers folder_id (Pydantic.strip_optional v) with
      | Ok v' => Ok (mk folder_id v' fmt)
      | Raise e => Raise e
      end
  end.
End GetFolderInput.

Module UpdateFolderInput.
Record t : Type := mk {
  folder_id : option string;
  folder_path : option string;
  name : option string;
  acl : option string;
  attributes : option (list pyval);
  response_format : ResponseFormat
}.

Definition validate_identifiers (data_folder_id v : option string) : result (option string) :=
  if negb (is_set data_folder_id) && negb (is_set v)
  then Raise (ValueError "Either folder_id or folder_path must be provided")
  else Ok v.

Definition model_validate (id : option string) (path : option (option string))
    (name acl : option string) (attributes : option (list pyval))
    (fmt : ResponseFormat) : result t :=
  let folder_id := Pydantic.strip_optional id in
  let name := Pydantic.strip_optional name in
  let acl := Pydantic.strip_optional acl in
  match path with
  | None => Ok (mk folder_id None name acl attributes fmt)
  | Some v =>
      match validate_identifiers folder_id (Pydantic.strip_optional v) with
      | Ok v' => Ok (mk folder_id v' name acl attributes fmt)
      | Raise e => Raise e
      end
  end.
End UpdateFolderInput.

Module DeleteFolderInput.
Record t : Type := mk {
  folder_id : option string;
  folder_path : option string
}.

Definition validate_identifiers (data_folder_id v : option string) : result (option string) :=
  if negb (is_set data_folder_id) && negb (is_set v)
  then Raise (ValueError "Either folder_id or folder_path must be provided")
  else Ok v.

Definition model_validate (id : option string) (path : option (option string)) : result t :=
  let folder_id := Pydantic.strip_optional id in
  match path with
  | None => Ok (mk folder_id None)
  | Some v =>
      match validate_identifiers folder_id (Pydantic.strip_optional v) with
      | Ok v' => Ok (mk folder_id v')
      | Raise e => Raise e
      end
  end.
End DeleteFolderInput.

Module ListSubfoldersInput.
Record t : Type := mk {
  folder_id : option string;
  folder_path : option string;
  initial : Z;
  final : Z;
  response_format : ResponseFormat
}.

Definition validate_identifiers (data_folder_id v : option string) : result (option string) :=
  if negb (is_set data_folder_id) && negb (is_set v)
  then Raise (ValueError "Either folder_id or folder_path must be provided")
  else Ok v.

Definition model_validate (id : option string) (path : option (option string))
    (initial final : Z) (fmt : ResponseFormat) : result t :=
  let folder_id := Pydantic.strip_optional id in
  match
    match path with
    | None => Ok None
    | Some v => validate_identifiers folder_id (Pydantic.strip_optional v)
    end
  with
  | Ok folder_path =>
      if (initial <? 0)%Z then Raise (Pydantic.greater_than_equal 0)
      else if (final <? 1)%Z then Raise (Pydantic.greater_than_equal 1)
      else Ok (mk folder_id folder_path initial final fmt)
  | Raise e => Raise e
  end.
End ListSubfoldersInput.

Module ListDocumentsInput.
Record t : Type := mk {
  folder_id : option string;
  folder_path : option string;
  initial : Z;
  final : Z;
  response_format : ResponseFormat
}.

Definition validate_identifiers (data_folder_id v : option string) : result (option string) :=
  if negb (is_set data_folder_id) && negb (is_set v)
  then Raise (ValueError "Either folder_id or folder_path must be provided")
  else Ok v.

Definition model_validate (id : option string) (path : option (option string))
    (initial final : Z) (fmt : ResponseFormat) : result t :=
  let folder_id := Pydantic.strip_optional id in
  match
    match path with
    | None => Ok None
    | Some v => validate_identifiers folder_id (Pydantic.strip_optional v)
    end
  with
  | Ok folder_path =>
      if (initial <? 0)%Z then Raise (Pydantic.greater_than_equal 0)
      else if (final <? 1)%Z then Raise (Pydantic.greater_than_equal 1)
      else Ok (mk folder_id folder_path initial final fmt)
  | Raise e => Raise e
  end.
End ListDocumentsInput.

Module SearchInput.
Record t : Type := mk {
  query : string;
  initial : Z;
  final : Z;
  response_format : ResponseFormat
}.
End SearchInput.

Module DeleteDocumentInput.
Record t : Type := mk {
  document_id : string
}.
End DeleteDocumentInput.

Module UpdateDocumentInput.
Record t : Type := mk {
  document_id : string;
  file_path : option string;
  title : option string;
  document_type : option string;
  parent_folder_id : option string;
  acl : option string;
  version_label : option string;
  doc_date : option string;
  author : option string;
  pd_date : option string;
  attributes : option (list pyval);
  response_format : ResponseFormat
}.
End UpdateDocumentInput.

Module UpdateTermInput.
Record t : Type := mk {
  term_id : string;
  name : option string;
  description : option string;
  language : option string;
  scope_note : option string;
  response_format : ResponseFormat
}.
End UpdateTermInput.

Module GetDocumentInput.
Record t : Type := mk {
  document_id : string;
  response_format : ResponseFormat
}.
End GetDocumentInput.

Module UploadDocumentInput.
Record t : Type := mk {
  file_path : string;
  title : string;
  document_type : string;
  parent_folder_id : string;
  acl : string;
  version_label : string;
  doc_date : string;
  attributes : option (list pyval);
  response_format : ResponseFormat
}.
End UploadDocumentInput.

Module CreateTermInput.
Record t : Type := mk {
  name : string;
  description : string;
  language : string;
  scope_note : option string;
  parent_id : option string;
  response_format : ResponseFormat
}.
End CreateTermInput.

Module GetTermInput.
Record t : Type := mk {
  term_id : string;
  response_format : ResponseFormat
}.
End GetTermInput.

Module DeleteTermInput.
Record t : Type := mk {
  term_id : string
}.
End DeleteTermInput.

Module ListSubtermsInput.
Record t : Type := mk {
  parent_term_id : string;
  initial : Z;
  final : Z;
  response_format : ResponseFormat
}.
End ListSubtermsInput.

(** ** Shared utility functions *)

Section Server.

Variable env : environment.

Local Open Scope world_scope.

(** [str(v)], which is also what an f-string puts in place of [{v}]. *)
Definition py_str (v : pyval) : string :=
  match v with
  | PStr s => s
  | PNone => "None"
  | PBool true => "True"
  | PBool false => "False"
  | PInt n => PyString.of_int n
  | _ => py_repr env v
  end.

(** [sep.join(v)]: [v] is gone through as by [for], and every element has to
    be a [str]. *)
Fixpoint join_strs (i : nat) (xs : list pyval) : result (list string) :=
  match xs with
  | [] => Ok []
  | PStr s :: rest =>
      match join_strs (S i) rest with
      | Ok ss => Ok (s :: ss)
      | Raise e => Raise e
      end
  | x :: _ =>
      Raise (Py.TypeError ("sequence item " ++ PyString.of_nat i
                           ++ ": expected str instance, " ++ Py.type_name x ++ " found"))
  end.

Definition py_join (sep : string) (v : pyval) : result string :=
  match Py.iter v with
  | Ok xs =>
      match join_strs 0 xs with
      | Ok ss => Ok (PyString.join sep ss)
      | Raise e => Raise e
      end
  | Raise _ => Raise (Py.TypeError "can only join an iterable")
  end.

Fixpoint has_bytes (v : pyval) : bool :=
  match v with
  | PBytes _ => true
  | PList l => existsb has_bytes l
  | PDict d => existsb (fun kv => has_bytes (snd kv)) d
  | _ => false
  end.

(** [json.dumps(v, indent=2)]: fails on [bytes]. *)
Definition dumps_indent2 (v : pyval) : result string :=
  if has_bytes v
  then Raise (Py.TypeError "Object of type bytes is not JSON serializable")
  else Ok (json_dumps_indent2 env v).

Definition set_header (k v : string) (headers : list (string * string))
  : list (string * string) :=
  if existsb (fun kv => String.eqb (fst kv) k) headers
  then map (fun kv => if String.eqb (fst kv) k then (k, v) else kv) headers
  else headers ++ [(k, v)].

Definition _get_auth_headers : M (list (string * string)) :=
  w <~ get_world ;;
  if negb (Py.truthy (_auth_token w))
  then raise (ValueError "Not authenticated. Please login first using openprodoc_login.")
  else
    _ <~ lift (Py.len (_auth_token w)) ;;
    ret [("Authorization", "Bearer " ++ py_str (_auth_token w));
         ("Accept", "application/json")].

(** [response.raise_for_status()]. *)
Definition raise_for_status (r : http_response) : result unit :=
  if ((200 <=? status_code r) && (status_code r <=? 299))%Z
  then Ok tt
  else Raise (HTTPStatusError r).

(** [response.json()]. *)
Definition json_of_response (r : http_response) : result pyval :=
  match response_json r with
  | inl v => Ok v
  | inr msg => Raise (ValueError msg)
  end.

(** The call of the HTTP client: the request is logged in [sent], then the
    remote service answers or the client raises. *)
Definition client_request (req : request) : M http_response :=
  fun w =>
    match remote env (sent w) req with
    | Responded r => (Ok r, record_request req w)
    | Failed e => (Raise e, record_request req w)
    end.

(** [if json_data: logger.debug(f"... {json.dumps(json_data, indent=2)}")]: the
    body is serialised for the log before anything is handed to the client,
    so a body that holds [bytes] raises here and no request is made. *)
Definition debug_json_data (json_data : option pyval) : result unit :=
  match json_data with
  | Some v =>
      if Py.truthy v
      then (_ <- dumps_indent2 v ;; Ok tt)%result
      else Ok tt
  | None => Ok tt
  end.

Definition _make_api_request
    (endpoint method : string)
    (headers : option (list (string * string)))
    (json_data : option pyval)
    (params : option (list (string * string)))
    (files : option (list (string * (string * string))))
    (data : option (list (string * string))) : M pyval :=
  w <~ get_world ;;
  let url := _base_url w ++ "/" ++ endpoint in
  let request_headers :=
    match headers with
    | Some (h :: t) => h :: t
    | _ => []
    end in
  _ <~ lift (debug_json_data json_data) ;;
  response <~ client_request
    (mk_request method url request_headers json_data params files data) ;;
  _ <~ lift (raise_for_status response) ;;
  if negb (PyString.contains "application/json"
             (match content_type response with Some c => c | None => "" end))
  then ret (PDict [("binary_content", PBytes (content response))])
  else lift (json_of_response response).

(** The body of an error answer, when it parses and is a [dict]. *)
Definition error_dict (r : http_response) : option (list (string * pyval)) :=
  match response_json r with
  | inl (PDict d) => Some d
  | _ => None
  end.

Definition _handle_api_error (e : exn) : string :=
  match e with
  | HTTPStatusError response =>
      let code := status_code response in
      if (code =? 401)%Z then
        "Error: Unauthorized. Your session may have expired. Please login again using openprodoc_login."
      else if (code =? 404)%Z then
        "Error: Resource not found. Please check the ID or path is correct."
      else if (code =? 403)%Z then
        "Error: Permission denied. You don't have access to this resource."
      else if (code =? 406)%Z then
        match error_dict response with
        | Some error_data =>
            if Py.eq_str (Py.dict_get error_data "Res" PNone) "KO"
            then "Error: " ++ py_str (Py.dict_get error_data "Msg" (PStr "Not Acceptable"))
            else "Error: Request not acceptable. Check your input data for validation errors or duplicate entries."
        | None =>
            "Error: Request not acceptable. Check your input data for validation errors or duplicate entries."
        end
      else if (code =? 429)%Z then
        "Error: Rate limit exceeded. Please wait before making more requests."
      else if (code =? 500)%Z then
        match error_dict response with
        | Some error_data =>
            if Py.eq_str (Py.dict_get error_data "Res" PNone) "KO"
            then "Error: Internal server error - "
                 ++ py_str (Py.dict_get error_data "Msg" (PStr "Internal server error"))
            else if Py.has_key error_data "Msg"
            then "Error: Internal server error - " ++ py_str (Py.dict_get error_data "Msg" PNone)
            else "Error: Internal server error. This may be due to invalid query syntax or missing WHERE clause in search queries."
        | None =>
            "Error: Internal server error. This may be due to invalid query syntax or missing WHERE clause in search queries."
        end
      else "Error: API request failed with status " ++ PyString.of_int code
  | TimeoutException _ =>
      "Error: Request timed out. The server may be slow or unreachable. Please try again."
  | ValueError msg => "Error: " ++ msg
  | FileNotFoundError msg =>
      "Error: Unexpected error occurred: FileNotFoundError: " ++ msg
  | OtherException type_name msg =>
      "Error: Unexpected error occurred: " ++ type_name ++ ": " ++ msg
  end.

(** The loop of [_extract_attr_value] over the entries of [Attrs]. *)
Fixpoint scan_attrs (attrs : list pyval) (attr_name default : string) : result pyval :=
  match attrs with
  | [] => Ok (PStr default)
  | attr :: rest =>
      match Py.get attr "Name" PNone with
      | Raise e => Raise e
      | Ok name =>
          if Py.eq_str name attr_name then
            match Py.get attr "Values" (PList []) with
            | Raise e => Raise e
            | Ok values =>
                if Py.truthy values then Py.index0 values else Ok (PStr default)
            end
          else scan_attrs rest attr_name default
      end
  end.

Definition _extract_attr_value (item : pyval) (attr_name default : string) : result pyval :=
  (present <- Py.contains item attr_name ;;
   if present then
     v <- Py.get item attr_name (PStr default) ;;
     Ok (PStr (py_str v))
   else
     attrs <- Py.get item "Attrs" (PList []) ;;
     elems <- Py.iter attrs ;;
     scan_attrs elems attr_name default)%result.

(** One line of the [Custom Attributes] section of a single-record report. *)
Definition custom_attr_line (attr : pyval) : result string :=
  (attr_name <- Py.get attr "Name" (PStr "Unknown") ;;
   attr_type <- Py.get attr "Type" (PStr "Unknown") ;;
   values <- Py.get attr "Values" (PList []) ;;
   attr_values <- py_join ", " values ;;
   Ok ("- **" ++ py_str attr_name ++ "** (" ++ py_str attr_type ++ "): " ++ attr_values))%result.

Fixpoint mapM {A B : Type} (f : A -> result B) (xs : list A) : result (list B) :=
  match xs with
  | [] => Ok []
  | x :: rest =>
      match f x with
      | Raise e => Raise e
      | Ok y =>
          match mapM f rest with
          | Raise e => Raise e
          | Ok ys => Ok (y :: ys)
          end
      end
  end.

(** The [Custom Attributes] section that the single-record reports end with. *)
Definition custom_attr_lines (record : pyval) : result (list string) :=
  (list_attr <- Py.get record "ListAttr" (PList []) ;;
   if Py.truthy list_attr then
     attrs <- Py.iter list_attr ;;
     attr_lines <- mapM custom_attr_line attrs ;;
     Ok ("" :: "## Custom Attributes" :: attr_lines)
   else Ok [])%result.

Definition _format_folder_markdown (folder : pyval) : result string :=
  (name <- _extract_attr_value folder "Title" "Unknown" ;;
   folder_id <- _extract_attr_value folder "PDId" "N/A" ;;
   folder_type <- _extract_attr_value folder "FolderType" "N/A" ;;
   acl <- _extract_attr_value folder "ACL" "N/A" ;;
   parent_id <- _extract_attr_value folder "ParentId" "N/A" ;;
   created <- _extract_attr_value folder "PDDate" "N/A" ;;
   author <- _extract_attr_value folder "PDAutor" "N/A" ;;
   custom <- custom_attr_lines folder ;;
   Ok (PyString.join PyString.LF
         (List.app
          ["# Folder: " ++ py_str name;
           "";
           "- **ID**: " ++ py_str folder_id;
           "- **Type**: " ++ py_str folder_type;
           "- **ACL**: " ++ py_str acl;
           "- **Parent ID**: " ++ py_str parent_id;
           "- **Created**: " ++ py_str created;
           "- **Author**: " ++ py_str author] custom)))%result.

(** The lines that the folder listing adds for one folder. *)
Definition folder_item_lines (folder : pyval) : result (list string) :=
  (name <- _extract_attr_value folder "Title" "Unknown" ;;
   folder_id <- _extract_attr_value folder "PDId" "N/A" ;;
   folder_type <- _extract_attr_value folder "FolderType" "N/A" ;;
   created <- _extract_attr_value folder "PDDate" "N/A" ;;
   author <- _extract_attr_value folder "PDAutor" "N/A" ;;
   list_attr <- Py.get folder "ListAttr" (PList []) ;;
   attr_line <- (if Py.truthy list_attr then
                   n <- Py.len list_attr ;;
                   Ok ["- **Attributes**: " ++ PyString.of_nat n ++ " custom attributes"]
                 else Ok []) ;;
   Ok (List.app
         ["## " ++ py_str name ++ " (" ++ py_str folder_id ++ ")";
          "- **Type**: " ++ py_str folder_type;
          "- **Created**: " ++ py_str created;
          "- **Author**: " ++ py_str author]
         (List.app attr_line [""])))%result.

(** The header lines of a listing: the title, the count line, a blank line. *)
Definition list_header (title noun : string) (shown : nat) (total : option Z) : list string :=
  [title;
   match total with
   | Some t => PyString.LF ++ "Total: " ++ PyString.of_int t ++ " " ++ noun
               ++ " (showing " ++ PyString.of_nat shown ++ ")"
   | None => PyString.LF ++ "Showing " ++ PyString.of_nat shown ++ " " ++ noun
   end;
   ""].

Definition _format_folders_list_markdown (folders : list pyval) (total : option Z)
  : result string :=
  match folders with
  | [] => Ok "No folders found."
  | _ =>
      (items <- mapM folder_item_lines folders ;;
       Ok (PyString.join PyString.LF
             (List.app (list_header "# Folders" "folders" (List.length folders) total)
                       (List.concat items))))%result
  end.

(** The lines that the document listing adds for one document. *)
Definition document_item_lines (doc : pyval) : result (list string) :=
  (title <- _extract_attr_value doc "Title" "Unknown" ;;
   doc_id <- _extract_attr_value doc "PDId" "N/A" ;;
   doc_type <- _extract_attr_value doc "DocType" "N/A" ;;
   version <- _extract_attr_value doc "Version" "N/A" ;;
   created <- _extract_attr_value doc "PDDate" "N/A" ;;
   author <- _extract_attr_value doc "PDAutor" "N/A" ;;
   list_attr <- Py.get doc "ListAttr" (PList []) ;;
   attr_line <- (if Py.truthy list_attr then
                   n <- Py.len list_attr ;;
                   Ok ["- **Attributes**: " ++ PyString.of_nat n ++ " custom attributes"]
                 else Ok []) ;;
   Ok (List.app
         ["## " ++ py_str title ++ " (" ++ py_str doc_id ++ ")";
          "- **Type**: " ++ py_str doc_type;
          "- **Version**: " ++ py_str version;
          "- **Created**: " ++ py_str created;
          "- **Author**: " ++ py_str author]
         (List.app attr_line [""])))%result.

Definition _format_documents_list_markdown (documents : list pyval) (total : option Z)
  : result string :=
  match documents with
  | [] => Ok "No documents found."
  | _ =>
      (items <- mapM document_item_lines documents ;;
       Ok (PyString.join PyString.LF
             (List.app (list_header "# Documents" "documents" (List.length documents) total)
                       (List.concat items))))%result
  end.

(** The lines that the term listing adds for one term. *)
Definition term_item_lines (term : pyval) : result (list string) :=
  (name <- _extract_attr_value term "Name" "Unknown" ;;
   term_id <- _extract_attr_value term "Id" "N/A" ;;
   description <- _extract_attr_value term "Desc" "N/A" ;;
   language <- _extract_attr_value term "Lang" "N/A" ;;
   Ok ["## " ++ py_str name ++ " (" ++ py_str term_id ++ ")";
       "- **Description**: " ++ py_str description;
       "- **Language**: " ++ py_str language;
       ""])%result.

Definition _format_terms_list_markdown (terms : list pyval) (total : option Z)
  : result string :=
  match terms with
  | [] => Ok "No terms found."
  | _ =>
      (items <- mapM term_item_lines terms ;;
       Ok (PyString.join PyString.LF
             (List.app (list_header "# Thesaurus Terms" "terms" (List.length terms) total)
                       (List.concat items))))%result
  end.

(** The notice that [_check_truncation] appends. *)
Definition truncation_msg (data : list pyval) (item_type : string) : string :=
  let truncated_count := Nat.max 1 (List.length data / 2) in
  PyString.LF ++ PyString.LF ++ "---" ++ PyString.LF
  ++ "**TRUNCATED**: Response too large. "
  ++ "Showing approximately " ++ PyString.of_nat truncated_count
  ++ " of " ++ PyString.of_nat (List.length data) ++ " " ++ item_type ++ ". "
  ++ "Use pagination parameters (initial/final) or add filters to see more results.".

Definition _check_truncation (result : string) (data : list pyval) (item_type : string)
  : string :=
  if (Z.of_nat (String.length result) >? CHARACTER_LIMIT)%Z then
    let result_lines := PyString.split "010"%char result in
    let estimated_lines := (List.length result_lines / 2)%nat in
    let truncated_result := PyString.join PyString.LF (firstn estimated_lines result_lines) in
    truncated_result ++ truncation_msg data item_type
  else result.

(** [msg.split("=")[1] if "=" in msg else fallback], the way every tool reads
    the identifier out of the [Msg] of a successful answer. *)
Definition id_from_msg (msg : pyval) (fallback : string) : result string :=
  (present <- Py.contains msg "=" ;;
   if present then
     match msg with
     | PStr s =>
         match nth_error (PyString.split "="%char s) 1 with
         | Some part => Ok part
         | None => Raise (OtherException "IndexError" "list index out of range")
         end
     | _ => Raise (Py.no_attribute msg "split")
     end
   else Ok fallback)%result.

(** [json.dumps(v)], used for the [Metadata] form field. *)
Definition dumps (v : pyval) : result string :=
  if has_bytes v
  then Raise (Py.TypeError "Object of type bytes is not JSON serializable")
  else Ok (json_dumps env v).

(** What most tools do with an exception: answer its formatted message. *)
Definition report_error (e : exn) (w : world) : string * world :=
  (_handle_api_error e, w).

(** ** Authentication tools *)

Definition openprodoc_login (params : LoginInput.t) : world -> string * world :=
  catching
    (w <~ get_world ;;
     let username := or_else (LoginInput.username params) (_default_username w) in
     let password := or_else (LoginInput.password params) (_default_password w) in
     let base_url :=
       if is_set (LoginInput.base_url params)
       then opt_str (LoginInput.base_url params)
       else _base_url w in
     if negb (is_set username) || negb (is_set password) then
       ret "Error: Username and password are required. Provide them as parameters or set OPENPRODOC_USERNAME and OPENPRODOC_PASSWORD environment variables."
     else
       modify (set_base_url base_url) ;;;
       w1 <~ get_world ;;
       response <~ client_request
         (mk_request "PUT" (_base_url w1 ++ "/session")
            [("Content-Type", "application/json"); ("Accept", "application/json")]
            (Some (PDict [("Name", PStr (opt_str username));
                          ("Password", PStr (opt_str password))]))
            None None None) ;;
       _ <~ lift (raise_for_status response) ;;
       data <~ lift (json_of_response response) ;;
       res <~ lift (Py.get data "Res" PNone) ;;
       has_token <~ lift (Py.contains data "Token") ;;
       if Py.eq_str res "OK" && has_token then
         token <~ lift (Py.get data "Token" PNone) ;;
         modify (set_auth_token token) ;;;
         _ <~ lift (Py.len token) ;;
         ret ("Successfully logged in to OpenProdoc as " ++ opt_str username
              ++ ". Token is valid for 24 hours.")
       else
         msg <~ lift (Py.get data "Msg" (PStr "Unknown error")) ;;
         ret ("Error: Login failed. " ++ py_str msg))
    report_error.

Definition openprodoc_logout : world -> string * world :=
  catching
    (w <~ get_world ;;
     if negb (Py.truthy (_auth_token w)) then
       ret "Error: Not authenticated. No active session to close."
     else
       headers <~ _get_auth_headers ;;
       data <~ _make_api_request "session" "DELETE" (Some headers) None None None None ;;
       modify (set_auth_token PNone) ;;;
       res <~ lift (Py.get data "Res" PNone) ;;
       if Py.eq_str res "OK" then
         ret "Successfully logged out from OpenProdoc."
       else
         msg <~ lift (Py.get data "Msg" (PStr "Unknown")) ;;
         ret ("Session closed (with message: " ++ py_str msg ++ ")"))
    (fun e w => (_handle_api_error e, set_auth_token PNone w)).

(** ** Folder tools *)

(** An endpoint, or the answer that the tool returns at once. *)
Inductive endpoint_choice : Type :=
| Endpoint (endpoint : string)
| Refused (answer : string).

(** [path if path.endswith('/') else f"{path}/"] *)
Definition with_trailing_slash (path : string) : string :=
  if PyString.endswith path "/" then path else path ++ "/".

Definition openprodoc_create_folder (params : CreateFolderInput.t) : world -> string * world :=
  catching
    (let list_attr :=
       match CreateFolderInput.attributes params with
       | Some (a :: rest) => a :: rest
       | _ => []
       end in
     let parent :=
       if is_set (CreateFolderInput.parent_id params) then
         [("Idparent", PStr (opt_str (CreateFolderInput.parent_id params)));
          ("PathParent", PStr "")]
       else if is_set (CreateFolderInput.parent_path params) then
         [("PathParent", PStr (opt_str (CreateFolderInput.parent_path params)));
          ("Idparent", PStr "")]
       else
         [("Idparent", PStr "RootFolder"); ("PathParent", PStr "")] in
     let body :=
       PDict (List.app
                [("Id", PStr "");
                 ("Name", PStr (CreateFolderInput.name params));
                 ("ACL", PStr (CreateFolderInput.acl params));
                 ("Type", PStr (CreateFolderInput.folder_type params));
                 ("ListAttr", PList list_attr)]
                parent) in
     headers <~ _get_auth_headers ;;
     let headers := set_header "Content-Type" "application/json" headers in
     data <~ _make_api_request "folders" "POST" (Some headers) (Some body) None None None ;;
     res <~ lift (Py.get data "Res" PNone) ;;
     if Py.eq_str res "OK" then
       msg <~ lift (Py.get data "Msg" (PStr "")) ;;
       folder_id <~ lift (id_from_msg msg "Unknown") ;;
       match CreateFolderInput.response_format params with
       | MARKDOWN =>
           ret (PyString.join PyString.LF
                  (List.app
                     ["# Folder Created Successfully";
                      "";
                      "- **Folder ID**: " ++ folder_id;
                      "- **Name**: " ++ CreateFolderInput.name params;
                      "- **Type**: " ++ CreateFolderInput.folder_type params]
                     (if is_set (CreateFolderInput.parent_id params) then
                        ["- **Parent ID**: " ++ opt_str (CreateFolderInput.parent_id params)]
                      else if is_set (CreateFolderInput.parent_path params) then
                        ["- **Parent Path**: " ++ opt_str (CreateFolderInput.parent_path params)]
                      else [])))
       | JSON =>
           lift (dumps_indent2
                   (PDict [("status", PStr "success");
                           ("folder_id", PStr folder_id);
                           ("name", PStr (CreateFolderInput.name params));
                           ("type", PStr (CreateFolderInput.folder_type params))]))
       end
     else
       msg <~ lift (Py.get data "Msg" (PStr "Unknown error")) ;;
       ret ("Error: " ++ py_str msg))
    report_error.

(** The block [# Determine endpoint based on identifier] of
    [openprodoc_get_folder]. *)
Definition get_folder_endpoint (params : GetFolderInput.t) : endpoint_choice :=
  if is_set (GetFolderInput.folder_id params) then
    Endpoint ("folders/ById/" ++ opt_str (GetFolderInput.folder_id params))
  else if is_set (GetFolderInput.folder_path params) then
    let path := with_trailing_slash (opt_str (GetFolderInput.folder_path params)) in
    Endpoint ("folders/ByPath" ++ path)
  else Refused "Error: Either folder_id or folder_path must be provided".

Definition openprodoc_get_folder (params : GetFolderInput.t) : world -> string * world :=
  catching
    (match get_folder_endpoint params with
     | Refused answer => ret answer
     | Endpoint endpoint =>
         headers <~ _get_auth_headers ;;
         data <~ _make_api_request endpoint "GET" (Some headers) None None None None ;;
         match GetFolderInput.response_format params with
         | MARKDOWN => lift (_format_folder_markdown data)
         | JSON => lift (dumps_indent2 data)
         end
     end)
    report_error.

(** A field of a partial update: the entry of the request body and the name
    reported in [updated_fields], when the caller supplied the field. *)
Definition supplied {A : Type} (field : option A) (key : string) (inj : A -> pyval)
    (label : string) : list (string * pyval) * list string :=
  match field with
  | Some v => ([(key, inj v)], [label])
  | None => ([], [])
  end.

(** The request body and the list [updated_fields] of [openprodoc_update_folder]. *)
Definition update_folder_body (params : UpdateFolderInput.t)
  : list (string * pyval) * list string :=
  let n := supplied (UpdateFolderInput.name params) "Name" PStr "name" in
  let a := supplied (UpdateFolderInput.acl params) "ACL" PStr "acl" in
  let l := supplied (UpdateFolderInput.attributes params) "ListAttr" PList "attributes" in
  (List.app (fst n) (List.app (fst a) (fst l)),
   List.app (snd n) (List.app (snd a) (snd l))).

Definition update_folder_endpoint (params : UpdateFolderInput.t) : endpoint_choice :=
  if is_set (UpdateFolderInput.folder_id params) then
    Endpoint ("folders/ById/" ++ opt_str (UpdateFolderInput.folder_id params))
  else if is_set (UpdateFolderInput.folder_path params) then
    let path := with_trailing_slash (opt_str (UpdateFolderInput.folder_path params)) in
    Endpoint ("folders/ByPath" ++ path)
  else Refused "Error: Either folder_id or folder_path must be provided".

Definition openprodoc_update_folder (params : UpdateFolderInput.t) : world -> string * world :=
  catching
    (let (body, updated_fields) := update_folder_body params in
     match body with
     | [] => ret "Error: No fields to update. Provide at least one of: name, acl, or attributes."
     | _ =>
         match update_folder_endpoint params with
         | Refused answer => ret answer
         | Endpoint endpoint =>
             headers <~ _get_auth_headers ;;
             let headers := set_header "Content-Type" "application/json" headers in
             data <~ _make_api_request endpoint "PUT" (Some headers) (Some (PDict body))
                       None None None ;;
             res <~ lift (Py.get data "Res" PNone) ;;
             if Py.eq_str res "OK" then
               msg <~ lift (Py.get data "Msg" (PStr "")) ;;
               folder_id <~ lift (id_from_msg msg "Unknown") ;;
               match UpdateFolderInput.response_format params with
               | MARKDOWN =>
                   ret (PyString.join PyString.LF
                          ["# Folder Updated Successfully";
                           "";
                           "- **Folder ID**: " ++ folder_id;
                           "- **Updated Fields**: " ++ PyString.join ", " updated_fields])
               | JSON =>
                   lift (dumps_indent2
                           (PDict [("status", PStr "success");
                                   ("folder_id", PStr folder_id);
                                   ("updated_fields", PList (map PStr updated_fields))]))
               end
             else
               msg <~ lift (Py.get data "Msg" (PStr "Unknown error")) ;;
               ret ("Error: " ++ py_str msg)
         end
     end)
    report_error.

(** The endpoint of [openprodoc_delete_folder] together with [identifier]. *)
Definition delete_folder_endpoint (params : DeleteFolderInput.t)
  : endpoint_choice * string :=
  if is_set (DeleteFolderInput.folder_id params) then
    (Endpoint ("folders/ById/" ++ opt_str (DeleteFolderInput.folder_id params)),
     opt_str (DeleteFolderInput.folder_id params))
  else if is_set (DeleteFolderInput.folder_path params) then
    let path := with_trailing_slash (opt_str (DeleteFolderInput.folder_path params)) in
    (Endpoint ("folders/ByPath" ++ path), opt_str (DeleteFolderInput.folder_path params))
  else (Refused "Error: Either folder_id or folder_path must be provided", "").

Definition openprodoc_delete_folder (params : DeleteFolderInput.t) : world -> string * world :=
  catching
    (match delete_folder_endpoint params with
     | (Refused answer, _) => ret answer
     | (Endpoint endpoint, identifier) =>
         headers <~ _get_auth_headers ;;
         data <~ _make_api_request endpoint "DELETE" (Some headers) None None None None ;;
         res <~ lift (Py.get data "Res" PNone) ;;
         if Py.eq_str res "OK" then
           msg <~ lift (Py.get data "Msg" (PStr "")) ;;
           folder_id <~ lift (id_from_msg msg identifier) ;;
           ret ("Successfully deleted folder: " ++ folder_id)
         else
           msg <~ lift (Py.get data "Msg" (PStr "Unknown error")) ;;
           ret ("Error: " ++ py_str msg)
     end)
    report_error.

(** [data if isinstance(data, list) else []] *)
Definition as_list (data : pyval) : list pyval :=
  match data with
  | PList l => l
  | _ => []
  end.

Definition pagination_params (initial final : Z) : list (string * string) :=
  [("Initial", PyString.of_int initial); ("Final", PyString.of_int final)].

Definition list_subfolders_endpoint (params : ListSubfoldersInput.t) : endpoint_choice :=
  if is_set (ListSubfoldersInput.folder_id params) then
    Endpoint ("folders/SubFoldersById/" ++ opt_str (ListSubfoldersInput.folder_id params))
  else if is_set (ListSubfoldersInput.folder_path params) then
    let path := opt_str (ListSubfoldersInput.folder_path params) in
    Endpoint ("folders/SubFoldersByPath" ++ path)
  else Refused "Error: Either folder_id or folder_path must be provided".

Definition openprodoc_list_subfolders (params : ListSubfoldersInput.t)
  : world -> string * world :=
  catching
    (match list_subfolders_endpoint params with
     | Refused answer => ret answer
     | Endpoint endpoint =>
         headers <~ _get_auth_headers ;;
         let query_params :=
           pagination_params (ListSubfoldersInput.initial params)
                             (ListSubfoldersInput.final params) in
         data <~ _make_api_request endpoint "GET" (Some headers) None (Some query_params)
                   None None ;;
         let folders := as_list data in
         match ListSubfoldersInput.response_format params with
         | MARKDOWN =>
             result <~ lift (_format_folders_list_markdown folders None) ;;
             ret (_check_truncation result folders "folders")
         | JSON =>
             lift (dumps_indent2
                     (PDict [("count", PInt (Z.of_nat (List.length folders)));
                             ("initial", PInt (ListSubfoldersInput.initial params));
                             ("final", PInt (ListSubfoldersInput.final params));
                             ("folders", PList folders)]))
         end
     end)
    report_error.

Definition list_documents_endpoint (params : ListDocumentsInput.t) : endpoint_choice :=
  if is_set (ListDocumentsInput.folder_id params) then
    Endpoint ("folders/ContDocsById/" ++ opt_str (ListDocumentsInput.folder_id params))
  else if is_set (ListDocumentsInput.folder_path params) then
    let path := opt_str (ListDocumentsInput.folder_path params) in
    Endpoint ("folders/ContDocsByPath" ++ path)
  else Refused "Error: Either folder_id or folder_path must be provided".

Definition openprodoc_list_documents_in_folder (params : ListDocumentsInput.t)
  : world -> string * world :=
  catching
    (match list_documents_endpoint params with
     | Refused answer => ret answer
     | Endpoint endpoint =>
         headers <~ _get_auth_headers ;;
         let query_params :=
           pagination_params (ListDocumentsInput.initial params)
                             (ListDocumentsInput.final params) in
         data <~ _make_api_request endpoint "GET" (Some headers) None (Some query_params)
                   None None ;;
         let documents := as_list data in
         match ListDocumentsInput.response_format params with
         | MARKDOWN =>
             result <~ lift (_format_documents_list_markdown documents None) ;;
             ret (_check_truncation result documents "documents")
         | JSON =>
             lift (dumps_indent2
                     (PDict [("count", PInt (Z.of_nat (List.length documents)));
                             ("initial", PInt (ListDocumentsInput.initial params));
                             ("final", PInt (ListDocumentsInput.final params));
                             ("documents", PList documents)]))
         end
     end)
    report_error.

Definition openprodoc_search_folders (params : SearchInput.t) : world -> string * world :=
  catching
    (let body :=
       PDict [("Query", PStr (SearchInput.query params));
              ("Initial", PStr (PyString.of_int (SearchInput.initial params)));
              ("Final", PStr (PyString.of_int (SearchInput.final params)))] in
     headers <~ _get_auth_headers ;;
     let headers := set_header "Content-Type" "application/json" headers in
     data <~ _make_api_request "folders/Search" "POST" (Some headers) (Some body)
               None None None ;;
     let folders := as_list data in
     match folders with
     | [] => ret "No folders found matching your query."
     | _ =>
         match SearchInput.response_format params with
         | MARKDOWN =>
             result <~ lift (_format_folders_list_markdown folders None) ;;
             ret (_check_truncation result folders "folders")
         | JSON =>
             lift (dumps_indent2
                     (PDict [("count", PInt (Z.of_nat (List.length folders)));
                             ("query", PStr (SearchInput.query params));
                             ("initial", PInt (SearchInput.initial params));
                             ("final", PInt (SearchInput.final params));
                             ("folders", PList folders)]))
         end
     end)
    report_error.

(** ** Document tools *)

Definition openprodoc_delete_document (params : DeleteDocumentInput.t)
  : world -> string * world :=
  catching
    (headers <~ _get_auth_headers ;;
     data <~ _make_api_request
               ("documents/ById/" ++ DeleteDocumentInput.document_id params)
               "DELETE" (Some headers) None None None None ;;
     res <~ lift (Py.get data "Res" PNone) ;;
     if Py.eq_str res "OK" then
       msg <~ lift (Py.get data "Msg" (PStr "")) ;;
       doc_id <~ lift (id_from_msg msg (DeleteDocumentInput.document_id params)) ;;
       ret ("Successfully deleted document: " ++ doc_id)
     else
       msg <~ lift (Py.get data "Msg" (PStr "Unknown error")) ;;
       ret ("Error: " ++ py_str msg))
    report_error.

(** The helper answers [None] for whatever goes wrong. *)
Definition _get_document_metadata_raw (document_id : string) : M pyval :=
  try_except
    (headers <~ _get_auth_headers ;;
     data <~ _make_api_request ("documents/ById/" ++ document_id) "GET" (Some headers)
               None None None None ;;
     ret data)
    (fun _ => ret PNone).

(** A field of the full metadata object of a document update: the value of the
    caller when there is one, else the value that the stored document has. *)
Definition overridden {A : Type} (field : option A) (inj : A -> pyval) (existing : pyval)
  : pyval :=
  match field with
  | Some v => inj v
  | None => existing
  end.

Definition named {A : Type} (field : option A) (label : string) : list string :=
  match field with
  | Some _ => [label]
  | None => []
  end.

(** The list [updated_fields] of [openprodoc_update_document] before the
    [binary] entry is added. *)
Definition update_document_fields (params : UpdateDocumentInput.t) : list string :=
  List.concat
    [named (UpdateDocumentInput.title params) "title";
     named (UpdateDocumentInput.document_type params) "document_type";
     named (UpdateDocumentInput.parent_folder_id params) "parent_folder_id";
     named (UpdateDocumentInput.acl params) "acl";
     named (UpdateDocumentInput.version_label params) "version_label";
     named (UpdateDocumentInput.doc_date params) "doc_date";
     named (UpdateDocumentInput.author params) "author";
     named (UpdateDocumentInput.pd_date params) "pd_date";
     named (UpdateDocumentInput.attributes params) "attributes"].

(** Steps 2 and 3 of [openprodoc_update_document]: the stored values, then the
    values of the caller over them. *)
Definition update_document_metadata (params : UpdateDocumentInput.t) (existing_doc : pyval)
  : result pyval :=
  (title <- Py.get existing_doc "Title" (PStr "") ;;
   acl <- Py.get existing_doc "ACL" (PStr "Public") ;;
   idparent <- Py.get existing_doc "ParentId" (PStr "") ;;
   type <- Py.get existing_doc "Type" (PStr "") ;;
   verlabel <- Py.get existing_doc "VerLabel" (PStr "1.0") ;;
   docdate <- Py.get existing_doc "DocDate" (PStr "") ;;
   pddate <- Py.get existing_doc "PDDate" (PStr "") ;;
   pdauthor <- Py.get existing_doc "PDAuthor" (PStr "") ;;
   listattr <- Py.get existing_doc "ListAttr" (PList []) ;;
   Ok (PDict
         [("Title", overridden (UpdateDocumentInput.title params) PStr title);
          ("ACL", overridden (UpdateDocumentInput.acl params) PStr acl);
          ("Idparent", overridden (UpdateDocumentInput.parent_folder_id params) PStr idparent);
          ("Type", overridden (UpdateDocumentInput.document_type params) PStr type);
          ("VerLabel", overridden (UpdateDocumentInput.version_label params) PStr verlabel);
          ("DocDate", overridden (UpdateDocumentInput.doc_date params) PStr docdate);
          ("PDDate", overridden (UpdateDocumentInput.pd_date params) PStr pddate);
          ("PDAuthor", overridden (UpdateDocumentInput.author params) PStr pdauthor);
          ("ListAttr", overridden (UpdateDocumentInput.attributes params) PList listattr)]))%result.

Definition openprodoc_update_document (params : UpdateDocumentInput.t)
  : world -> string * world :=
  catching
    (existing_doc <~ _get_document_metadata_raw (UpdateDocumentInput.document_id params) ;;
     if negb (Py.truthy existing_doc) then
       ret "Error: Could not retrieve existing document metadata. Document may not exist."
     else
       metadata <~ lift (update_document_metadata params existing_doc) ;;
       let updated_fields := update_document_fields params in
       let endpoint := "documents/ById/" ++ UpdateDocumentInput.document_id params in
       match updated_fields, is_set (UpdateDocumentInput.file_path params) with
       | [], false =>
           ret "Error: No fields to update. Provide at least one of: file_path, title, document_type, parent_folder_id, acl, version_label, doc_date, author, pd_date, or attributes."
       | _, has_file =>
           headers <~ _get_auth_headers ;;
           sent_fields <~
             (if has_file then
                let file_path := opt_str (UpdateDocumentInput.file_path params) in
                file_content <~ lift (read_file env file_path) ;;
                let filename := os_path_basename env file_path in
                metadata_json <~ lift (dumps metadata) ;;
                data <~ _make_api_request endpoint "PUT" (Some headers) None None
                          (Some [("Binary", (filename, file_content))])
                          (Some [("Metadata", metadata_json)]) ;;
                ret (data, List.app updated_fields ["binary"])
              else
                let headers := set_header "Content-Type" "application/json" headers in
                metadata_json <~ lift (dumps metadata) ;;
                data <~ _make_api_request endpoint "PUT" (Some headers) None None None
                          (Some [("Metadata", metadata_json)]) ;;
                ret (data, updated_fields)) ;;
           let (data, updated_fields) := sent_fields in
           res <~ lift (Py.get data "Res" PNone) ;;
           if Py.eq_str res "OK" then
             msg <~ lift (Py.get data "Msg" (PStr "")) ;;
             doc_id <~ lift (id_from_msg msg (UpdateDocumentInput.document_id params)) ;;
             match UpdateDocumentInput.response_format params with
             | MARKDOWN =>
                 ret (PyString.join PyString.LF
                        ["# Document Updated Successfully";
                         "";
                         "- **Document ID**: " ++ doc_id;
                         "- **Updated Fields**: " ++ PyString.join ", " updated_fields])
             | JSON =>
                 lift (dumps_indent2
                         (PDict [("status", PStr "success");
                                 ("document_id", PStr doc_id);
                                 ("updated_fields", PList (map PStr updated_fields))]))
             end
           else
             msg <~ lift (Py.get data "Msg" (PStr "Unknown error")) ;;
             ret ("Error: " ++ py_str msg)
       end)
    (fun e w =>
       match e with
       | FileNotFoundError _ =>
           ("Error: File not found at path: " ++ opt_str (UpdateDocumentInput.file_path params), w)
       | _ => (_handle_api_error e, w)
       end).

Definition openprodoc_search_documents (params : SearchInput.t) : world -> string * world :=
  catching
    (let body :=
       PDict [("Query", PStr (SearchInput.query params));
              ("Initial", PStr (PyString.of_int (SearchInput.initial params)));
              ("Final", PStr (PyString.of_int (SearchInput.final params)))] in
     headers <~ _get_auth_headers ;;
     let headers := set_header "Content-Type" "application/json" headers in
     data <~ _make_api_request "documents/Search" "POST" (Some headers) (Some body)
               None None None ;;
     let documents := as_list data in
     match documents with
     | [] => ret "No documents found matching your query."
     | _ =>
         match SearchInput.response_format params with
         | MARKDOWN =>
             result <~ lift (_format_documents_list_markdown documents None) ;;
             ret (_check_truncation result documents "documents")
         | JSON =>
             lift (dumps_indent2
                     (PDict [("count", PInt (Z.of_nat (List.length documents)));
                             ("query", PStr (SearchInput.query params));
                             ("initial", PInt (SearchInput.initial params));
                             ("final", PInt (SearchInput.final params));
                             ("documents", PList documents)]))
         end
     end)
    report_error.

(** ** Thesaurus tools *)

Definition update_term_body (params : UpdateTermInput.t)
  : list (string * pyval) * list string :=
  let n := supplied (UpdateTermInput.name params) "Name" PStr "name" in
  let d := supplied (UpdateTermInput.description params) "Descrip" PStr "description" in
  let l := supplied (UpdateTermInput.language params) "Lang" PStr "language" in
  let s := supplied (UpdateTermInput.scope_note params) "SCN" PStr "scope_note" in
  (List.app (fst n) (List.app (fst d) (List.app (fst l) (fst s))),
   List.app (snd n) (List.app (snd d) (List.app (snd l) (snd s)))).

Definition openprodoc_update_term (params : UpdateTermInput.t) : world -> string * world :=
  catching
    (let (body, updated_fields) := update_term_body params in
     match body with
     | [] => ret "Error: No fields to update. Provide at least one of: name, description, language, or scope_note."
     | _ =>
         headers <~ _get_auth_headers ;;
         let headers := set_header "Content-Type" "application/json" headers in
         data <~ _make_api_request ("thesauri/ById/" ++ UpdateTermInput.term_id params)
                   "PUT" (Some headers) (Some (PDict body)) None None None ;;
         res <~ lift (Py.get data "Res" PNone) ;;
         if Py.eq_str res "OK" then
           msg <~ lift (Py.get data "Msg" (PStr "")) ;;
           term_id <~ lift (id_from_msg msg (UpdateTermInput.term_id params)) ;;
           match UpdateTermInput.response_format params with
           | MARKDOWN =>
               ret (PyString.join PyString.LF
                      ["# Thesaurus Term Updated Successfully";
                       "";
                       "- **Term ID**: " ++ term_id;
                       "- **Updated Fields**: " ++ PyString.join ", " updated_fields])
           | JSON =>
               lift (dumps_indent2
                       (PDict [("status", PStr "success");
                               ("term_id", PStr term_id);
                               ("updated_fields", PList (map PStr updated_fields))]))
           end
         else
           msg <~ lift (Py.get data "Msg" (PStr "Unknown error")) ;;
           ret ("Error: " ++ py_str msg)
     end)
    report_error.

Definition openprodoc_search_terms (params : SearchInput.t) : world -> string * world :=
  catching
    (let body :=
       PDict [("Query", PStr (SearchInput.query params));
              ("Initial", PStr (PyString.of_int (SearchInput.initial params)));
              ("Final", PStr (PyString.of_int (SearchInput.final params)))] in
     headers <~ _get_auth_headers ;;
     let headers := set_header "Content-Type" "application/json" headers in
     data <~ _make_api_request "thesauri/Search" "POST" (Some headers) (Some body)
               None None None ;;
     let terms := as_list data in
     match terms with
     | [] => ret "No terms found matching your query."
     | _ =>
         match SearchInput.response_format params with
         | MARKDOWN =>
             result <~ lift (_format_terms_list_markdown terms None) ;;
             ret (_check_truncation result terms "terms")
         | JSON =>
             lift (dumps_indent2
                     (PDict [("count", PInt (Z.of_nat (List.length terms)));
                             ("query", PStr (SearchInput.query params));
                             ("initial", PInt (SearchInput.initial params));
                             ("final", PInt (SearchInput.final params));
                             ("terms", PList terms)]))
         end
     end)
    report_error.

(** ** The remaining formatters and tools *)

Definition _format_document_markdown (doc : pyval) : result string :=
  (title <- _extract_attr_value doc "Title" "Unknown" ;;
   doc_id <- _extract_attr_value doc "PDId" "N/A" ;;
   doc_type <- _extract_attr_value doc "DocType" "N/A" ;;
   acl <- _extract_attr_value doc "ACL" "N/A" ;;
   parent_id <- _extract_attr_value doc "ParentId" "N/A" ;;
   version <- _extract_attr_value doc "Version" "N/A" ;;
   doc_date <- _extract_attr_value doc "DocDate" "N/A" ;;
   created <- _extract_attr_value doc "PDDate" "N/A" ;;
   author <- _extract_attr_value doc "PDAutor" "N/A" ;;
   custom <- custom_attr_lines doc ;;
   Ok (PyString.join PyString.LF
         (List.app
          ["# Document: " ++ py_str title;
           "";
           "- **ID**: " ++ py_str doc_id;
           "- **Type**: " ++ py_str doc_type;
           "- **ACL**: " ++ py_str acl;
           "- **Parent Folder ID**: " ++ py_str parent_id;
           "- **Version**: " ++ py_str version;
           "- **Document Date**: " ++ py_str doc_date;
           "- **Created**: " ++ py_str created;
           "- **Author**: " ++ py_str author] custom)))%result.

Definition _format_term_markdown (term : pyval) : result string :=
  (name <- _extract_attr_value term "Name" "Unknown" ;;
   term_id <- _extract_attr_value term "Id" "N/A" ;;
   description <- _extract_attr_value term "Desc" "N/A" ;;
   language <- _extract_attr_value term "Lang" "N/A" ;;
   scope_note <- _extract_attr_value term "ScopeNote" "N/A" ;;
   parent_id <- _extract_attr_value term "ParentId" "N/A" ;;
   Ok (PyString.join PyString.LF
         ["# Term: " ++ py_str name;
          "";
          "- **ID**: " ++ py_str term_id;
          "- **Description**: " ++ py_str description;
          "- **Language**: " ++ py_str language;
          "- **Scope Note**: " ++ py_str scope_note;
          "- **Parent ID**: " ++ py_str parent_id]))%result.

Definition openprodoc_get_document_metadata (params : GetDocumentInput.t)
  : world -> string * world :=
  catching
    (headers <~ _get_auth_headers ;;
     data <~ _make_api_request ("documents/ById/" ++ GetDocumentInput.document_id params)
               "GET" (Some headers) None None None None ;;
     match GetDocumentInput.response_format params with
     | MARKDOWN => lift (_format_document_markdown data)
     | JSON => lift (dumps_indent2 data)
     end)
    report_error.

(** The characters that [str.strip()] removes, among the first 256. *)
Definition is_space (c : ascii) : bool :=
  let n := nat_of_ascii c in
  ((9 <=? n) && (n <=? 13) || (28 <=? n) && (n <=? 32) || (n =? 133) || (n =? 160))%nat.

Fixpoint all_space (s : string) : bool :=
  match s with
  | EmptyString => true
  | String c rest => is_space c && all_space rest
  end.

(** [not error_msg or error_msg.strip() == ""] *)
Definition is_blank (error_msg : pyval) : result bool :=
  if negb (Py.truthy error_msg) then Ok true
  else match error_msg with
       | PStr s => Ok (all_space s)
       | PBytes _ => Ok false
       | _ => Raise (Py.no_attribute error_msg "strip")
       end.

Definition openprodoc_upload_document (params : UploadDocumentInput.t)
  : world -> string * world :=
  catching
    (file_content <~ lift (read_file env (UploadDocumentInput.file_path params)) ;;
     let filename := os_path_basename env (UploadDocumentInput.file_path params) in
     let metadata :=
       PDict [("Title", PStr (UploadDocumentInput.title params));
              ("ACL", PStr (UploadDocumentInput.acl params));
              ("Idparent", PStr (UploadDocumentInput.parent_folder_id params));
              ("Type", PStr (UploadDocumentInput.document_type params));
              ("VerLabel", PStr (UploadDocumentInput.version_label params));
              ("DocDate", PStr (UploadDocumentInput.doc_date params));
              ("ListAttr", PList (match UploadDocumentInput.attributes params with
                                  | Some (a :: rest) => a :: rest
                                  | _ => []
                                  end))] in
     metadata_json <~ lift (dumps metadata) ;;
     headers <~ _get_auth_headers ;;
     data <~ _make_api_request "documents" "POST" (Some headers) None None
               (Some [("Binary", (filename, file_content))])
               (Some [("Metadata", metadata_json)]) ;;
     res <~ lift (Py.get data "Res" PNone) ;;
     if Py.eq_str res "OK" then
       msg <~ lift (Py.get data "Msg" (PStr "")) ;;
       doc_id <~ lift (id_from_msg msg "Unknown") ;;
       match UploadDocumentInput.response_format params with
       | MARKDOWN =>
           ret (PyString.join PyString.LF
                  ["# Document Uploaded Successfully";
                   "";
                   "- **Document ID**: " ++ doc_id;
                   "- **Title**: " ++ UploadDocumentInput.title params;
                   "- **Type**: " ++ UploadDocumentInput.document_type params;
                   "- **Version**: " ++ UploadDocumentInput.version_label params;
                   "- **Parent Folder**: " ++ UploadDocumentInput.parent_folder_id params])
       | JSON =>
           lift (dumps_indent2
                   (PDict [("status", PStr "success");
                           ("document_id", PStr doc_id);
                           ("title", PStr (UploadDocumentInput.title params));
                           ("type", PStr (UploadDocumentInput.document_type params));
                           ("version", PStr (UploadDocumentInput.version_label params))]))
       end
     else
       error_msg <~ lift (Py.get data "Msg" (PStr "Unknown error")) ;;
       blank <~ lift (is_blank error_msg) ;;
       if blank then
         ret "Error: API returned an error without details. This may indicate missing required fields (e.g., DocDate) or invalid data."
       else ret ("Error: " ++ py_str error_msg))
    (fun e w =>
       match e with
       | FileNotFoundError _ =>
           ("Error: File not found at path: " ++ UploadDocumentInput.file_path params, w)
       | _ => (_handle_api_error e, w)
       end).

Definition openprodoc_create_term (params : CreateTermInput.t) : world -> string * world :=
  catching
    (let body :=
       PDict (List.app
                [("Name", PStr (CreateTermInput.name params));
                 ("Descrip", PStr (CreateTermInput.description params));
                 ("Lang", PStr (CreateTermInput.language params))]
                (List.app
                   (if is_set (CreateTermInput.scope_note params)
                    then [("SCN", PStr (opt_str (CreateTermInput.scope_note params)))]
                    else [])
                   (if is_set (CreateTermInput.parent_id params)
                    then [("ParentId", PStr (opt_str (CreateTermInput.parent_id params)))]
                    else []))) in
     headers <~ _get_auth_headers ;;
     let headers := set_header "Content-Type" "application/json" headers in
     data <~ _make_api_request "thesauri" "POST" (Some headers) (Some body) None None None ;;
     res <~ lift (Py.get data "Res" PNone) ;;
     if Py.eq_str res "OK" then
       msg <~ lift (Py.get data "Msg" (PStr "")) ;;
       term_id <~ lift (id_from_msg msg "Unknown") ;;
       match CreateTermInput.response_format params with
       | MARKDOWN =>
           ret (PyString.join PyString.LF
                  (List.app
                     ["# Thesaurus Term Created Successfully";
                      "";
                      "- **Term ID**: " ++ term_id;
                      "- **Name**: " ++ CreateTermInput.name params;
                      "- **Language**: " ++ CreateTermInput.language params]
                     (if is_set (CreateTermInput.parent_id params)
                      then ["- **Parent ID**: " ++ opt_str (CreateTermInput.parent_id params)]
                      else [])))
       | JSON =>
           lift (dumps_indent2
                   (PDict [("status", PStr "success");
                           ("term_id", PStr term_id);
                           ("name", PStr (CreateTermInput.name params));
                           ("language", PStr (CreateTermInput.language params))]))
       end
     else
       msg <~ lift (Py.get data "Msg" (PStr "Unknown error")) ;;
       ret ("Error: " ++ py_str msg))
    report_error.

Definition openprodoc_get_term (params : GetTermInput.t) : world -> string * world :=
  catching
    (headers <~ _get_auth_headers ;;
     data <~ _make_api_request ("thesauri/ById/" ++ GetTermInput.term_id params)
               "GET" (Some headers) None None None None ;;
     match GetTermInput.response_format params with
     | MARKDOWN => lift (_format_term_markdown data)
     | JSON => lift (dumps_indent2 data)
     end)
    report_error.

Definition openprodoc_delete_term (params : DeleteTermInput.t) : world -> string * world :=
  catching
    (headers <~ _get_auth_headers ;;
     data <~ _make_api_request ("thesauri/ById/" ++ DeleteTermInput.term_id params)
               "DELETE" (Some headers) None None None None ;;
     res <~ lift (Py.get data "Res" PNone) ;;
     if Py.eq_str res "OK" then
       msg <~ lift (Py.get data "Msg" (PStr "")) ;;
       term_id <~ lift (id_from_msg msg (DeleteTermInput.term_id params)) ;;
       ret ("Successfully deleted thesaurus term: " ++ term_id)
     else
       msg <~ lift (Py.get data "Msg" (PStr "Unknown error")) ;;
       ret ("Error: " ++ py_str msg))
    report_error.

Definition openprodoc_list_subterms (params : ListSubtermsInput.t)
  : world -> string * world :=
  catching
    (headers <~ _get_auth_headers ;;
     let query_params :=
       pagination_params (ListSubtermsInput.initial params)
                         (ListSubtermsInput.final params) in
     data <~ _make_api_request
               ("thesauri/SubThesById/" ++ ListSubtermsInput.parent_term_id params)
               "GET" (Some headers) None (Some query_params) None None ;;
     let terms := as_list data in
     match ListSubtermsInput.response_format params with
     | MARKDOWN =>
         result <~ lift (_format_terms_list_markdown terms None) ;;
         ret (_check_truncation result terms "terms")
     | JSON =>
         lift (dumps_indent2
                 (PDict [("count", PInt (Z.of_nat (List.length terms)));
                         ("parent_term_id", PStr (ListSubtermsInput.parent_term_id params));
                         ("initial", PInt (ListSubtermsInput.initial params));
                         ("final", PInt (ListSubtermsInput.final params));
                         ("terms", PList terms)]))
     end)
    report_error.

End Server.

(** ** The attribute extraction as the specification words it *)

(** The entries of the [Attrs] array of a record. *)
Definition attrs_of (r : list (string * pyval)) : list pyval :=
  as_list (Py.dict_get r "Attrs" (PList [])).

(** The entries of the [ListAttr] array of a record. *)
Definition list_attr_of (r : list (string * pyval)) : list pyval :=
  as_list (Py.dict_get r "ListAttr" (PList [])).

(** An entry of the shape [{"Name": ..., "Type": ..., "Values": [...]}]. *)
Definition is_attr_entry (e : pyval) : bool :=
  match e with
  | PDict d =>
      match Py.dict_get d "Values" (PList []) with
      | PList _ => true
      | _ => false
      end
  | _ => false
  end.

Definition entry_named (f : string) (e : pyval) : bool :=
  match e with
  | PDict d => Py.eq_str (Py.dict_get d "Name" PNone) f
  | _ => false
  end.

(** The first element of the [Values] of an entry, or the default. *)
Definition first_value (e : pyval) (default : string) : pyval :=
  match e with
  | PDict d =>
      match Py.dict_get d "Values" (PList []) with
      | PList (v :: _) => v
      | _ => PStr default
      end
  | _ => PStr default
  end.

(** Flat value, else the entry named [f] among [entries], else the default. *)
Definition extract_from (env : environment) (entries : list pyval)
    (r : list (string * pyval)) (f default : string) : pyval :=
  match Py.lookup r f with
  | Some v => PStr (py_str env v)
  | None =>
      match find (entry_named f) entries with
      | Some e => first_value e default
      | None => PStr default
      end
  end.

(** The order of precedence with the entry looked for in [Attrs] only. *)
Definition extract_by_precedence (env : environment) (r : list (string * pyval))
    (f default : string) : pyval :=
  extract_from env (attrs_of r) r f default.

(** The order of precedence with the entry looked for in [Attrs] and, as the
    specification has it, in [ListAttr] alike. *)
Definition extract_attrs_or_list_attr (env : environment) (r : list (string * pyval))
    (f default : string) : pyval :=
  extract_from env (List.app (attrs_of r) (list_attr_of r)) r f default.

(** ** Sample surroundings, used to run the tools on concrete inputs *)

Definition sample_env (remote : list request -> request -> http_outcome) : environment :=
  mk_environment (fun _ => "") (fun _ => "") (fun _ => "") (fun p => p)
                 (fun p => Raise (FileNotFoundError p)) remote.

Definition json_answer (status : Z) (v : pyval) : http_outcome :=
  Responded (mk_response status (Some "application/json") (inl v) "").

(** A service that gives the same answer to every request. *)
Definition always (o : http_outcome) : list request -> request -> http_outcome :=
  fun _ _ => o.

Definition logged_in : world :=
  mk_world (PStr "abc123") "http://localhost:8080/ProdocWeb2/APIRest" None None [].

(** [sub] occurs in [s]. *)
Definition occurs_in (sub s : string) : Prop :=
  exists before after, s = before ++ sub ++ after.

Fixpoint replicate (n : nat) (c : ascii) : string :=
  match n with
  | O => EmptyString
  | S n' => String c (replicate n' c)
  end.

(** A listing of two folders, the first with a title of 25,000 characters. *)
Definition long_title : string := replicate (Z.to_nat 25000) "a"%char.

Definition two_folders : list pyval :=
  [PDict [("Title", PStr long_title)]; PDict [("Title", PStr "Reports")]].

Definition long_report_head : list string :=
  ["# Folders";
   "";
   "Showing 2 folders";
   "";
   "## " ++ long_title ++ " (N/A)";
   "- **Type**: N/A";
   "- **Created**: N/A"].

Definition long_report_tail : list string :=
  ["- **Author**: N/A";
   "";
   "## Reports (N/A)";
   "- **Type**: N/A";
   "- **Created**: N/A";
   "- **Author**: N/A";
   ""].

Definition long_report : string :=
  PyString.join PyString.LF (List.app long_report_head long_report_tail).

(** The login succeeds on this outcome of its request: a 2xx answer whose
    body is an object with [Res] equal to [OK] and a [Token]. *)
Definition login_granted (o : http_outcome) : bool :=
  match o with
  | Responded r =>
      ((200 <=? status_code r) && (status_code r <=? 299))%Z
      && match response_json r with
         | inl (PDict d) => Py.eq_str (Py.dict_get d "Res" PNone) "OK" && Py.has_key d "Token"
         | _ => false
         end
  | Failed _ => false
  end.

(** ** Definitions that the statements below use *)

Definition search_hit : list (string * pyval) :=
  [("Attrs", PList [PDict [("Name", PStr "PDId"); ("Type", PStr "String");
                           ("Values", PList [PStr "16cdeb939d9"])];
                    PDict [("Name", PStr "Title"); ("Type", PStr "String");
                           ("Values", PList [PStr "Some Title"])]])].

Definition fetched_folder : list (string * pyval) :=
  [("PDId", PStr "16cdeb939d9");
   ("ListAttr", PList [PDict [("Name", PStr "Teacher"); ("Type", PStr "String");
                              ("Values", PList [PStr "John Doe"])]])].

(** A computation that leaves the globals and the request log as they are. *)
Definition keeps_world {A : Type} (m : M A) : Prop :=
  forall w, snd (m w) = w.

(** The headers that [_make_api_request] hands to the client. *)
Definition request_headers_of (headers : option (list (string * string)))
  : list (string * string) :=
  match headers with
  | Some (h :: t) => h :: t
  | _ => []
  end.

Definition identifier_error : string :=
  "Error: Either folder_id or folder_path must be provided".

(** What the five copies of [validate_identifiers] compute. *)
Definition at_least_one (validate : option string -> option string -> result (option string))
  : Prop :=
  forall id v,
    validate id v
    = if is_set id || is_set v
      then Ok v
      else Raise (ValueError "Either folder_id or folder_path must be provided").

(** The requests that a tool has the client send, by their URL. *)
Definition urls (w : world) : list string := map req_url (sent w).

Definition stored_document : pyval :=
  PDict [("PDId", PStr "16c7fa8b456"); ("Title", PStr "Quarterly Report");
         ("Type", PStr "PD_DOCS"); ("ListAttr", PList [])].

Definition update_nothing : UpdateDocumentInput.t :=
  UpdateDocumentInput.mk "16c7fa8b456" None None None None None None None None None None
                         MARKDOWN.

(** [c] occurs in [s]. *)
Fixpoint has_char (c : ascii) (s : string) : bool :=
  match s with
  | EmptyString => false
  | String a rest => Ascii.eqb a c || has_char c rest
  end.

Definition new_folder : CreateFolderInput.t :=
  CreateFolderInput.mk "Projects" "PD_FOLDERS" None None "Public" None MARKDOWN.

(** ** The tool surface

    One constructor per registered tool, with the parameters it is called
    with.  ([openprodoc_download_document] is left out: it formats a
    floating-point size and writes a local file.) *)

Inductive invocation : Type :=
| Login (params : LoginInput.t)
| Logout
| CreateFolder (params : CreateFolderInput.t)
| GetFolder (params : GetFolderInput.t)
| UpdateFolder (params : UpdateFolderInput.t)
| DeleteFolder (params : DeleteFolderInput.t)
| ListSubfolders (params : ListSubfoldersInput.t)
| ListDocumentsInFolder (params : ListDocumentsInput.t)
| SearchFolders (params : SearchInput.t)
| GetDocumentMetadata (params : GetDocumentInput.t)
| DeleteDocument (params : DeleteDocumentInput.t)
| UploadDocument (params : UploadDocumentInput.t)
| UpdateDocument (params : UpdateDocumentInput.t)
| SearchDocuments (params : SearchInput.t)
| CreateTerm (params : CreateTermInput.t)
| GetTerm (params : GetTermInput.t)
| UpdateTerm (params : UpdateTermInput.t)
| DeleteTerm (params : DeleteTermInput.t)
| ListSubterms (params : ListSubtermsInput.t)
| SearchTerms (params : SearchInput.t).

Definition call (env : environment) (i : invocation) : world -> string * world :=
  match i with
  | Login params => openprodoc_login env params
  | Logout => openprodoc_logout env
  | CreateFolder params => openprodoc_create_folder env params
  | GetFolder params => openprodoc_get_folder env params
  | UpdateFolder params => openprodoc_update_folder env params
  | DeleteFolder params => openprodoc_delete_folder env params
  | ListSubfolders params => openprodoc_list_subfolders env params
  | ListDocumentsInFolder params => openprodoc_list_documents_in_folder env params
  | SearchFolders params => openprodoc_search_folders env params
  | GetDocumentMetadata params => openprodoc_get_document_metadata env params
  | DeleteDocument params => openprodoc_delete_document env params
  | UploadDocument params => openprodoc_upload_document env params
  | UpdateDocument params => openprodoc_update_document env params
  | SearchDocuments params => openprodoc_search_documents env params
  | CreateTerm params => openprodoc_create_term env params
  | GetTerm params => openprodoc_get_term env params
  | UpdateTerm params => openprodoc_update_term env params
  | DeleteTerm params => openprodoc_delete_term env params
  | ListSubterms params => openprodoc_list_subterms env params
  | SearchTerms params => openprodoc_search_terms env params
  end.

(** The two tools that are meant to change the session. *)
Definition is_session_tool (i : invocation) : bool :=
  match i with
  | Login _ | Logout => true
  | _ => false
  end.

Definition is_login (i : invocation) : bool :=
  match i with
  | Login _ => true
  | _ => false
  end.

(** The number of requests that a call may send. *)
Definition request_budget (i : invocation) : nat :=
  match i with
  | UpdateDocument _ => 2
  | _ => 1
  end.

(** The request log went from that of [w] to that of [w'] by at most [n]
    further requests. *)
Definition log_steps (n : nat) (w w' : world) : Prop :=
  exists reqs, sent w' = List.app (sent w) reqs /\ List.length reqs <= n.

(** The same, with the session and the configured defaults untouched. *)
Definition steps (n : nat) (w w' : world) : Prop :=
  _auth_token w' = _auth_token w
  /\ _base_url w' = _base_url w
  /\ _default_username w' = _default_username w
  /\ _default_password w' = _default_password w
  /\ log_steps n w w'.

Definition sends_at_most {A : Type} (n : nat) (m : M A) : Prop :=
  forall w, steps n w (snd (m w)).

Definition log_grows {A : Type} (n : nat) (m : M A) : Prop :=
  forall w, log_steps n w (snd (m w)).

(** [s.startswith(start)]. *)
Fixpoint startswith (s start : string) {struct start} : bool :=
  match start, s with
  | EmptyString, _ => true
  | String a start', String b s' => Ascii.eqb a b && startswith s' start'
  | String _ _, EmptyString => false
  end.

(** An answer that reports an error. *)
Definition is_error (answer : string) : bool := startswith answer "Error: ".

Definition not_authenticated : string :=
  "Error: Not authenticated. Please login first using openprodoc_login.".

(** ** Further definitions for the statements *)

Definition logged_out : world :=
  mk_world PNone "http://localhost:8080/ProdocWeb2/APIRest" None None [].

(** The base URL that a login works with: the one it is given, else the one
    in force. *)
Definition login_base_url (params : LoginInput.t) (w : world) : string :=
  if is_set (LoginInput.base_url params)
  then opt_str (LoginInput.base_url params)
  else _base_url w.

Definition login_request (base user pass : string) : request :=
  mk_request "PUT" (base ++ "/session")
    [("Content-Type", "application/json"); ("Accept", "application/json")]
    (Some (PDict [("Name", PStr user); ("Password", PStr pass)]))
    None None None.

Definition granting_service : list request -> request -> http_outcome :=
  always (json_answer 200 (PDict [("Res", PStr "OK"); ("Token", PStr "abc123")])).

(** The service answers 2xx with a JSON content type and a body that parses
    to [v]. *)
Definition replies_json (r : http_response) (v : pyval) : Prop :=
  raise_for_status r = Ok tt
  /\ PyString.contains "application/json"
       (match content_type r with Some c => c | None => "" end) = true
  /\ response_json r = inl v.

Definition auth_headers (token : string) : list (string * string) :=
  [("Authorization", "Bearer " ++ token); ("Accept", "application/json")].

(** The tools that change something at the service and read [Res] and [Msg]
    off its answer. *)
Definition is_mutation (i : invocation) : bool :=
  match i with
  | CreateFolder _ | UpdateFolder _ | DeleteFolder _ | DeleteDocument _
  | CreateTerm _ | UpdateTerm _ | DeleteTerm _ => true
  | _ => false
  end.

(** The metadata object of an upload. *)
Definition upload_metadata (params : UploadDocumentInput.t) : pyval :=
  PDict [("Title", PStr (UploadDocumentInput.title params));
         ("ACL", PStr (UploadDocumentInput.acl params));
         ("Idparent", PStr (UploadDocumentInput.parent_folder_id params));
         ("Type", PStr (UploadDocumentInput.document_type params));
         ("VerLabel", PStr (UploadDocumentInput.version_label params));
         ("DocDate", PStr (UploadDocumentInput.doc_date params));
         ("ListAttr", PList (match UploadDocumentInput.attributes params with
                             | Some (a :: rest) => a :: rest
                             | _ => []
                             end))].

Definition report_pdf : UploadDocumentInput.t :=
  UploadDocumentInput.mk "/tmp/report.pdf" "Quarterly Report" "PD_DOCS" "16ac20d9415"
                         "Public" "1.0" "2025-01-15" None MARKDOWN.

Definition disk_with_report (path : string) : result string :=
  if String.eqb path "/tmp/report.pdf" then Ok "%PDF-1.4" else Raise (FileNotFoundError path).

Definition env_with_report : environment :=
  mk_environment (fun _ => "") (fun _ => "") (fun _ => "{}") (fun _ => "report.pdf")
                 disk_with_report
                 (always (json_answer 200 (PDict [("Res", PStr "OK");
                                                  ("Msg", PStr "Creado=16c7fa8b456")]))).

Definition new_version : UpdateDocumentInput.t :=
  UpdateDocumentInput.mk "16c7fa8b456" (Some "/tmp/missing.pdf") None (Some "PD_DOCS")
                         None None (Some "2.0") None None None None MARKDOWN.

(** A record as the service returns it: an object whose [Attrs], when there,
    is an array of attribute entries and whose [ListAttr], when there, is an
    array. *)
Definition is_record (v : pyval) : bool :=
  match v with
  | PDict d =>
      match Py.dict_get d "Attrs" (PList []) with
      | PList entries => forallb is_attr_entry entries
      | _ => false
      end
      && match Py.dict_get d "ListAttr" (PList []) with
         | PList _ => true
         | _ => false
         end
  | _ => false
  end.

(** The exception that the transport raises on this outcome, if any. *)
Definition transport_error (o : http_outcome) : option exn :=
  match o with
  | Failed e => Some e
  | Responded r =>
      match raise_for_status r with
      | Ok _ => None
      | Raise e => Some e
      end
  end.

Definition is_file_not_found (e : exn) : bool :=
  match e with
  | FileNotFoundError _ => true
  | _ => false
  end.

Definition is_update_document (i : invocation) : bool :=
  match i with
  | UpdateDocument _ => true
  | _ => false
  end.

Definition not_serializable : string :=
  "Error: Unexpected error occurred: TypeError: Object of type bytes is not JSON serializable".

Definition folder_with_bytes : CreateFolderInput.t :=
  CreateFolderInput.mk "Projects" "PD_FOLDERS" None None "Public"
    (Some [PDict [("Name", PStr "Logo"); ("Type", PStr "String");
                  ("Values", PList [PBytes "GIF89a"])]])
    MARKDOWN.

(** A JSON body that the debug log of [_make_api_request] can serialise: it
    is absent or empty, or it holds no [bytes]. *)
Definition serialisable (json_data : option pyval) : bool :=
  match json_data with
  | Some v => negb (Py.truthy v && has_bytes v)
  | None => true
  end.

(** * Properties *)

(** ** Attribute extraction *)

Lemma scan_attrs_first_named (entries : list pyval) (f default : string) :
  forallb is_attr_entry entries = true ->
  scan_attrs entries f default
  = Ok (match find (entry_named f) entries with
        | Some e => first_value e default
        | None => PStr default
        end).
Proof.
  induction entries as [|e rest IH]; intros Hwf; simpl in *.
  - reflexivity.
  - apply andb_prop in Hwf. destruct Hwf as [He Hrest].
    destruct e as [| | | | |l|d]; try discriminate He.
    unfold is_attr_entry in He.
    cbn [scan_attrs find entry_named Py.get].
    destruct (Py.eq_str (Py.dict_get d "Name" PNone) f); unfold first_value.
    + destruct (Py.dict_get d "Values" (PList [])) as [| | | | |vs|]; try discriminate He.
      destruct vs; reflexivity.
    + apply IH. exact Hrest.
Qed.

(** C1 (amended): on a record whose [Attrs] array holds well-formed entries,
    the extraction gives the string form of the direct value of the key when
    the key is present, else the first element of the [Values] of the first
    [Attrs] entry with that name (the default when [Values] is empty), else
    the default.  The [ListAttr] array plays no part. *)
Theorem extract_attr_value_precedence
    (env : environment) (r : list (string * pyval)) (f default : string) :
  forallb is_attr_entry (attrs_of r) = true ->
  Py.dict_get r "Attrs" (PList []) = PList (attrs_of r) ->
  _extract_attr_value env (PDict r) f default
  = Ok (extract_by_precedence env r f default).
Proof.
  intros Hwf Hattrs.
  unfold _extract_attr_value, extract_by_precedence, extract_from.
  cbn [Py.contains Py.get rbind]. unfold Py.has_key, Py.dict_get at 1.
  destruct (Py.lookup r f) as [v|] eqn:Hf.
  - reflexivity.
  - rewrite Hattrs. cbn [Py.iter rbind].
    apply scan_attrs_first_named. exact Hwf.
Qed.

Lemma extract_attr_value_precedence_witness :
  _extract_attr_value (sample_env (always (Failed (TimeoutException ""))))
    (PDict search_hit) "Title" "N/A" = Ok (PStr "Some Title").
Proof.
  apply (extract_attr_value_precedence
           (sample_env (always (Failed (TimeoutException "")))) search_hit "Title" "N/A");
    reflexivity.
Defined.

(** The flat value wins whatever the arrays of the record hold. *)
Lemma extract_attr_value_flat
    (env : environment) (r : list (string * pyval)) (f default : string) (v : pyval) :
  Py.lookup r f = Some v ->
  _extract_attr_value env (PDict r) f default = Ok (PStr (py_str env v)).
Proof.
  intros Hf. unfold _extract_attr_value. cbn [Py.contains Py.get rbind].
  unfold Py.has_key, Py.dict_get. rewrite Hf. reflexivity.
Qed.

(** Setting the [ListAttr] of a record changes nothing for any other field. *)
Lemma extract_attr_value_ignores_ListAttr
    (env : environment) (r : list (string * pyval)) (f default : string) (l : pyval) :
  f <> "ListAttr" ->
  _extract_attr_value env (PDict (("ListAttr", l) :: r)) f default
  = _extract_attr_value env (PDict r) f default.
Proof.
  intros Hf. unfold _extract_attr_value. cbn [Py.contains Py.get rbind].
  unfold Py.has_key, Py.dict_get. cbn [Py.lookup].
  destruct (String.eqb_spec "ListAttr" f) as [E|_]; [congruence|].
  reflexivity.
Qed.

(** C1 (as stated, refuted): an entry of [ListAttr] is not found.  The folder
    below has no [Teacher] key and no [Attrs]; its [ListAttr] holds an entry
    named [Teacher], and the extraction answers the default. *)
Lemma extract_attr_value_skips_ListAttr :
  _extract_attr_value (sample_env (always (Failed (TimeoutException ""))))
    (PDict fetched_folder) "Teacher" "N/A" = Ok (PStr "N/A")
  /\ extract_attrs_or_list_attr (sample_env (always (Failed (TimeoutException ""))))
       fetched_folder "Teacher" "N/A" = PStr "John Doe".
Proof.
  split; reflexivity.
Qed.

(** ** Truncation *)

Lemma length_append (s t : string) :
  String.length (s ++ t) = String.length s + String.length t.
Proof.
  induction s as [|a s IH]; simpl; [reflexivity | now rewrite IH].
Qed.

Lemma append_assoc (s t u : string) : (s ++ t) ++ u = s ++ t ++ u.
Proof.
  induction s as [|a s IH]; simpl; [reflexivity | now rewrite IH].
Qed.

Lemma split_not_nil (c : ascii) (s : string) : PyString.split c s <> [].
Proof.
  destruct s as [|a s]; simpl; [discriminate|].
  destruct (Ascii.eqb a c); [discriminate|].
  destruct (PyString.split c s); discriminate.
Qed.

(** Joining the parts of a split gives the string back. *)
Lemma join_split (c : ascii) (s : string) :
  PyString.join (String c EmptyString) (PyString.split c s) = s.
Proof.
  unfold PyString.join.
  induction s as [|a s IH]; simpl; [reflexivity|].
  destruct (Ascii.eqb_spec a c) as [->|Hne].
  - pose proof (split_not_nil c s) as Hnil.
    destruct (PyString.split c s) as [|h t]; [contradiction|].
    simpl in *. now rewrite IH.
  - pose proof (split_not_nil c s) as Hnil.
    destruct (PyString.split c s) as [|h t]; [contradiction|].
    destruct t as [|h' t]; simpl in *; now rewrite <- IH.
Qed.

(** Joining fewer lines never gives a longer string. *)
Lemma length_join_firstn (sep : string) (k : nat) (parts : list string) :
  String.length (PyString.join sep (firstn k parts))
  <= String.length (PyString.join sep parts).
Proof.
  unfold PyString.join. revert k.
  induction parts as [|x rest IH]; intros k.
  - rewrite firstn_nil. apply le_n.
  - destruct k as [|k]; [simpl; lia|].
    specialize (IH k). cbn [firstn].
    destruct rest as [|y rest]; [rewrite firstn_nil; apply le_n|].
    destruct (firstn k (y :: rest)) as [|z kept] eqn:Hk.
    + cbn [String.concat]. rewrite length_append. lia.
    + change (String.concat sep (x :: z :: kept))
        with (x ++ sep ++ String.concat sep (z :: kept)).
      change (String.concat sep (x :: y :: rest))
        with (x ++ sep ++ String.concat sep (y :: rest)).
      rewrite !length_append. lia.
Qed.

(** A report within the budget comes back unchanged. *)
Lemma check_truncation_within_budget (result : string) (data : list pyval) (item_type : string) :
  (Z.of_nat (String.length result) <= CHARACTER_LIMIT)%Z ->
  _check_truncation result data item_type = result.
Proof.
  intros H. unfold _check_truncation.
  destruct (Z.gtb_spec (Z.of_nat (String.length result)) CHARACTER_LIMIT); [lia | reflexivity].
Qed.

Lemma truncation_msg_has_notice (data : list pyval) (item_type : string) :
  exists after,
    truncation_msg data item_type
    = (PyString.LF ++ PyString.LF ++ "---" ++ PyString.LF ++ "**") ++ "TRUNCATED" ++ after.
Proof.
  eexists. unfold truncation_msg. cbn [PyString.LF append]. reflexivity.
Qed.

(** A report over the budget comes back as a prefix of its lines, no longer
    than the report, followed by the notice; the notice names [TRUNCATED]. *)
Lemma check_truncation_over_budget (result : string) (data : list pyval) (item_type : string) :
  (Z.of_nat (String.length result) > CHARACTER_LIMIT)%Z ->
  exists kept,
    _check_truncation result data item_type = kept ++ truncation_msg data item_type
    /\ String.length kept <= String.length result
    /\ occurs_in "TRUNCATED" (_check_truncation result data item_type).
Proof.
  intros H. unfold _check_truncation.
  destruct (Z.gtb_spec (Z.of_nat (String.length result)) CHARACTER_LIMIT) as [_|Hle]; [|lia].
  eexists. split; [reflexivity|]. split.
  - eapply Nat.le_trans; [apply length_join_firstn|].
    change PyString.LF with (String "010"%char EmptyString).
    rewrite join_split. apply le_n.
  - destruct (truncation_msg_has_notice data item_type) as [after Hmsg].
    rewrite Hmsg. unfold occurs_in.
    eexists. exists after.
    rewrite <- !append_assoc. reflexivity.
Qed.

(** C2 (the code at the failing input): the listing of [two_folders] renders to
    [long_report], 25,164 characters and so over the budget; the truncation
    keeps the first seven of its fourteen lines, which hold the long title,
    and appends the notice, and what comes back has 25,230 characters: 66 more
    than the report it was meant to shorten. *)
Theorem check_truncation_lengthens_long_report (env : environment) :
  _format_folders_list_markdown env two_folders None = Ok long_report
  /\ Z.of_nat (String.length long_report) = 25164%Z
  /\ _check_truncation long_report two_folders "folders"
     = PyString.join PyString.LF long_report_head ++ truncation_msg two_folders "folders"
  /\ Z.of_nat (String.length (_check_truncation long_report two_folders "folders")) = 25230%Z.
Proof.
  split; [|split; [|split]].
  - assert (H : match _format_folders_list_markdown env two_folders None with
                | Ok report => String.eqb report long_report
                | Raise _ => false
                end = true) by (vm_compute; reflexivity).
    destruct (_format_folders_list_markdown env two_folders None) as [report|e];
      [|discriminate H].
    apply String.eqb_eq in H. now subst report.
  - vm_compute; reflexivity.
  - apply String.eqb_eq. vm_compute; reflexivity.
  - vm_compute; reflexivity.
Qed.

(** ** The world through a tool *)

Lemma keeps_ret {A : Type} (a : A) : keeps_world (ret a).
Proof. intros w. reflexivity. Qed.

Lemma keeps_lift {A : Type} (r : result A) : keeps_world (lift r).
Proof. intros w. reflexivity. Qed.

Lemma keeps_bind {A B : Type} (m : M A) (k : A -> M B) :
  keeps_world m -> (forall a, keeps_world (k a)) -> keeps_world (bind m k).
Proof.
  intros Hm Hk w. unfold bind. specialize (Hm w).
  destruct (m w) as [[a|e] w']; simpl in *; subst w'; [apply Hk | reflexivity].
Qed.

(** Goes through the branches of a tail made of [ret], [lift] and [bind]. *)
Ltac keeps :=
  repeat first
    [ apply keeps_ret
    | apply keeps_lift
    | apply keeps_bind; [|intros]
    | match goal with
      | |- keeps_world (match ?x with _ => _ end) => destruct x
      end ].

Lemma snd_bind_keeps {A B : Type} (m : M A) (k : A -> M B) (w : world) :
  (forall a, keeps_world (k a)) -> snd (bind m k w) = snd (m w).
Proof.
  intros Hk. unfold bind.
  destruct (m w) as [[a|e] w']; simpl; [apply Hk | reflexivity].
Qed.

Lemma snd_catching_report (env : environment) (body : M string) (w : world) :
  snd (catching body (report_error env) w) = snd (body w).
Proof.
  unfold catching, report_error. destruct (body w) as [[s|e] w']; reflexivity.
Qed.

Lemma is_set_some (s : string) : s <> "" -> is_set (Some s) = true.
Proof.
  intros H. simpl. destruct (String.eqb_spec s ""); [contradiction | reflexivity].
Qed.

(** With a token in the session the headers are built and nothing changes. *)
Lemma get_auth_headers_ok (env : environment) (w : world) (token : string) :
  _auth_token w = PStr token -> token <> "" ->
  _get_auth_headers env w
  = (Ok [("Authorization", "Bearer " ++ token); ("Accept", "application/json")], w).
Proof.
  intros Htok Hne. unfold _get_auth_headers, bind, get_world, lift, ret.
  rewrite Htok. cbn [Py.truthy Py.len py_str].
  destruct (String.eqb_spec token ""); [contradiction | reflexivity].
Qed.

Lemma debug_json_data_ok (env : environment) (json_data : option pyval) :
  serialisable json_data = true -> debug_json_data env json_data = Ok tt.
Proof.
  unfold serialisable, debug_json_data, dumps_indent2.
  destruct json_data as [v|]; [|reflexivity].
  destruct (Py.truthy v); [|reflexivity].
  destruct (has_bytes v); [discriminate | reflexivity].
Qed.

Lemma debug_json_data_raises (env : environment) (json_data : option pyval) :
  serialisable json_data = false ->
  debug_json_data env json_data
  = Raise (Py.TypeError "Object of type bytes is not JSON serializable").
Proof.
  unfold serialisable, debug_json_data, dumps_indent2.
  destruct json_data as [v|]; [|discriminate].
  destruct (Py.truthy v); [|discriminate].
  destruct (has_bytes v); [reflexivity | discriminate].
Qed.

(** A body that holds [bytes] stops [_make_api_request] in its debug log:
    it raises the [TypeError] of [json.dumps] and nothing is sent. *)
Lemma make_api_request_unserialisable (env : environment) (endpoint method : string)
    headers json_data params files data (w : world) :
  serialisable json_data = false ->
  _make_api_request env endpoint method headers json_data params files data w
  = (Raise (Py.TypeError "Object of type bytes is not JSON serializable"), w).
Proof.
  intros H. unfold _make_api_request, bind, get_world, lift.
  now rewrite (debug_json_data_raises env json_data H).
Qed.

(** Whatever the service answers, [_make_api_request] with a body that its
    debug log can serialise logs exactly its one request, addressed to the
    base URL followed by the endpoint. *)
Lemma make_api_request_world (env : environment) (endpoint method : string)
    headers json_data params files data (w : world) :
  serialisable json_data = true ->
  snd (_make_api_request env endpoint method headers json_data params files data w)
  = record_request
      (mk_request method (_base_url w ++ "/" ++ endpoint) (request_headers_of headers)
                  json_data params files data) w.
Proof.
  intros Hjson.
  unfold _make_api_request, bind, get_world, client_request, lift, ret, request_headers_of.
  rewrite (debug_json_data_ok env json_data Hjson).
  destruct (remote env (sent w) _) as [r|e]; [|reflexivity].
  destruct (raise_for_status r); [|reflexivity].
  destruct (negb _); [reflexivity|].
  destruct (json_of_response r); reflexivity.
Qed.

(** An answer outside 2xx makes [_make_api_request] raise it. *)
Lemma make_api_request_http_error (env : environment) (endpoint method : string)
    headers json_data params files data (w : world) (r : http_response) :
  remote env (sent w)
    (mk_request method (_base_url w ++ "/" ++ endpoint) (request_headers_of headers)
                json_data params files data) = Responded r ->
  raise_for_status r = Raise (HTTPStatusError r) ->
  serialisable json_data = true ->
  _make_api_request env endpoint method headers json_data params files data w
  = (Raise (HTTPStatusError r),
     record_request
       (mk_request method (_base_url w ++ "/" ++ endpoint) (request_headers_of headers)
                   json_data params files data) w).
Proof.
  intros Hremote Hstatus Hjson.
  unfold _make_api_request, bind, get_world, client_request, lift, request_headers_of in *.
  rewrite (debug_json_data_ok env json_data Hjson), Hremote, Hstatus. reflexivity.
Qed.

(** A tool whose body gets the headers, sends one request and then only
    renders: with a token in the session, its whole effect on the world is the
    one logged request. *)
Lemma one_request_world (env : environment) (endpoint method : string)
    (amend : list (string * string) -> list (string * string))
    json_data params (tail : pyval -> M string) (w : world) (token : string) :
  _auth_token w = PStr token -> token <> "" ->
  (forall data, keeps_world (tail data)) ->
  serialisable json_data = true ->
  snd (bind (_get_auth_headers env)
         (fun headers =>
            bind (_make_api_request env endpoint method (Some (amend headers))
                    json_data params None None) tail) w)
  = record_request
      (mk_request method (_base_url w ++ "/" ++ endpoint)
         (request_headers_of
            (Some (amend [("Authorization", "Bearer " ++ token);
                          ("Accept", "application/json")])))
         json_data params None None) w.
Proof.
  intros Htok Hne Htail Hjson. unfold bind at 1.
  rewrite (get_auth_headers_ok env w token Htok Hne).
  rewrite snd_bind_keeps by exact Htail.
  now apply make_api_request_world.
Qed.

(** ** Identifier resolution of the folder tools *)

Lemma validators_at_least_one :
  at_least_one GetFolderInput.validate_identifiers
  /\ at_least_one UpdateFolderInput.validate_identifiers
  /\ at_least_one DeleteFolderInput.validate_identifiers
  /\ at_least_one ListSubfoldersInput.validate_identifiers
  /\ at_least_one ListDocumentsInput.validate_identifiers.
Proof.
  repeat split; intros id v;
    unfold GetFolderInput.validate_identifiers, UpdateFolderInput.validate_identifiers,
      DeleteFolderInput.validate_identifiers, ListSubfoldersInput.validate_identifiers,
      ListDocumentsInput.validate_identifiers;
    destruct (is_set id), (is_set v); reflexivity.
Qed.

Lemma urls_record_request (r : request) (w : world) :
  urls (record_request r w) = List.app (urls w) [req_url r].
Proof.
  unfold urls. simpl. now rewrite map_app.
Qed.

(** C3 (amended): at least one of the id and the path has to be supplied.  The
    validator of each of the five folder models raises the [ValueError] exactly
    when both are unset and accepts every other input, the one with both set
    included; and a tool that is handed a model with both unset answers an
    error and sends no request. *)
Theorem identifiers_at_least_one (env : environment) (id path : option string) :
  (at_least_one GetFolderInput.validate_identifiers
   /\ at_least_one UpdateFolderInput.validate_identifiers
   /\ at_least_one DeleteFolderInput.validate_identifiers
   /\ at_least_one ListSubfoldersInput.validate_identifiers
   /\ at_least_one ListDocumentsInput.validate_identifiers)
  /\ (is_set id = false -> is_set path = false ->
      (forall fmt w,
          openprodoc_get_folder env (GetFolderInput.mk id path fmt) w
          = (identifier_error, w))
      /\ (forall name acl attributes fmt w,
             let params := UpdateFolderInput.mk id path name acl attributes fmt in
             openprodoc_update_folder env params w
             = (match fst (update_folder_body params) with
                | [] => "Error: No fields to update. Provide at least one of: name, acl, or attributes."
                | _ => identifier_error
                end, w))
      /\ (forall w,
             openprodoc_delete_folder env (DeleteFolderInput.mk id path) w
             = (identifier_error, w))
      /\ (forall initial final fmt w,
             openprodoc_list_subfolders env
               (ListSubfoldersInput.mk id path initial final fmt) w
             = (identifier_error, w))
      /\ (forall initial final fmt w,
             openprodoc_list_documents_in_folder env
               (ListDocumentsInput.mk id path initial final fmt) w
             = (identifier_error, w))).
Proof.
  split; [exact validators_at_least_one|].
  intros Hid Hpath. repeat split; intros.
  - unfold openprodoc_get_folder, get_folder_endpoint. simpl.
    rewrite Hid, Hpath. reflexivity.
  - unfold openprodoc_update_folder, update_folder_endpoint. subst params.
    destruct (update_folder_body _) as [body fields]. simpl.
    destruct body; [reflexivity|]. rewrite Hid, Hpath. reflexivity.
  - unfold openprodoc_delete_folder, delete_folder_endpoint. simpl.
    rewrite Hid, Hpath. reflexivity.
  - unfold openprodoc_list_subfolders, list_subfolders_endpoint. simpl.
    rewrite Hid, Hpath. reflexivity.
  - unfold openprodoc_list_documents_in_folder, list_documents_endpoint. simpl.
    rewrite Hid, Hpath. reflexivity.
Qed.

Lemma identifiers_at_least_one_witness :
  openprodoc_get_folder (sample_env (always (Failed (TimeoutException ""))))
    (GetFolderInput.mk None (Some "") MARKDOWN) logged_in
  = (identifier_error, logged_in).
Proof.
  apply (proj2 (identifiers_at_least_one
                  (sample_env (always (Failed (TimeoutException "")))) None (Some "")));
    reflexivity.
Defined.

(** C3 (as stated, refuted): an input with both the id and the path set does
    not yield a validation error.  Each of the five validators returns the
    path, the model is built, and [openprodoc_get_folder] goes on to fetch and
    render the folder. *)
Lemma both_identifiers_pass_validation :
  GetFolderInput.validate_identifiers (Some "16cdeb939d9") (Some "/Projects")
  = Ok (Some "/Projects")
  /\ UpdateFolderInput.validate_identifiers (Some "16cdeb939d9") (Some "/Projects")
     = Ok (Some "/Projects")
  /\ DeleteFolderInput.validate_identifiers (Some "16cdeb939d9") (Some "/Projects")
     = Ok (Some "/Projects")
  /\ ListSubfoldersInput.validate_identifiers (Some "16cdeb939d9") (Some "/Projects")
     = Ok (Some "/Projects")
  /\ ListDocumentsInput.validate_identifiers (Some "16cdeb939d9") (Some "/Projects")
     = Ok (Some "/Projects")
  /\ GetFolderInput.model_validate (Some "16cdeb939d9") (Some (Some "/Projects")) JSON
     = Ok (GetFolderInput.mk (Some "16cdeb939d9") (Some "/Projects") JSON)
  /\ fst (openprodoc_get_folder
            (sample_env (always (json_answer 200 (PDict [("Title", PStr "Projects")]))))
            (GetFolderInput.mk (Some "16cdeb939d9") (Some "/Projects") JSON) logged_in)
     <> identifier_error.
Proof.
  repeat split; try reflexivity. vm_compute. discriminate.
Qed.

(** The one request of each folder tool, once the endpoint is chosen. *)

Lemma sent_record_request (r : request) (w : world) :
  sent (record_request r w) = List.app (sent w) [r].
Proof. reflexivity. Qed.


Lemma update_folder_request (env : environment) (params : UpdateFolderInput.t)
    (endpoint token : string) (w : world) :
  fst (update_folder_body params) <> [] ->
  has_bytes (PDict (fst (update_folder_body params))) = false ->
  update_folder_endpoint params = Endpoint endpoint ->
  _auth_token w = PStr token -> token <> "" ->
  snd (openprodoc_update_folder env params w)
  = record_request
      (mk_request "PUT" (_base_url w ++ "/" ++ endpoint)
                  (set_header "Content-Type" "application/json" (auth_headers token))
                  (Some (PDict (fst (update_folder_body params)))) None None None) w.
Proof.
  intros Hbody Hbytes He Htok Hne. unfold openprodoc_update_folder.
  rewrite snd_catching_report, He.
  destruct (update_folder_body params) as [body fields]. cbn [fst] in *.
  destruct body as [|b body]; [contradiction|].
  rewrite (one_request_world env endpoint "PUT"
             (set_header "Content-Type" "application/json")
             (Some (PDict (b :: body))) None _ w token Htok Hne).
  - reflexivity.
  - intros; keeps.
  - unfold serialisable. now rewrite Hbytes.
Qed.







(** ** Path normalisation *)

Lemma endswith_refl (s : string) : PyString.endswith s s = true.
Proof.
  destruct s; simpl; [reflexivity|]. rewrite Ascii.eqb_refl, String.eqb_refl. reflexivity.
Qed.

Lemma endswith_append (prefix s suffix : string) :
  PyString.endswith s suffix = true -> PyString.endswith (prefix ++ s) suffix = true.
Proof.
  intros H. induction prefix as [|a prefix IH]; [exact H|].
  cbn [append PyString.endswith]. rewrite IH. apply orb_true_r.
Qed.

(** The path that [get], [update] and [delete] put in the endpoint ends with
    the separator. *)
Lemma with_trailing_slash_ends (path : string) :
  PyString.endswith (with_trailing_slash path) "/" = true.
Proof.
  unfold with_trailing_slash.
  destruct (PyString.endswith path "/") eqn:H; [exact H|].
  apply endswith_append, endswith_refl.
Qed.

(** With no id and a path, the endpoints of get, update and delete folder end
    with the separator, whether the path did or not. *)
Lemma normalised_by_path_endpoints (id : option string) (path : string) :
  is_set id = false -> path <> "" ->
  (forall fmt, exists endpoint,
      get_folder_endpoint (GetFolderInput.mk id (Some path) fmt) = Endpoint endpoint
      /\ PyString.endswith endpoint "/" = true)
  /\ (forall name acl attributes fmt, exists endpoint,
      update_folder_endpoint (UpdateFolderInput.mk id (Some path) name acl attributes fmt)
      = Endpoint endpoint
      /\ PyString.endswith endpoint "/" = true)
  /\ (exists endpoint,
      fst (delete_folder_endpoint (DeleteFolderInput.mk id (Some path))) = Endpoint endpoint
      /\ PyString.endswith endpoint "/" = true).
Proof.
  intros Hid Hpath. pose proof (is_set_some path Hpath) as Sp.
  repeat split; intros; eexists;
    unfold get_folder_endpoint, update_folder_endpoint, delete_folder_endpoint;
    cbn [GetFolderInput.folder_id GetFolderInput.folder_path
         UpdateFolderInput.folder_id UpdateFolderInput.folder_path
         DeleteFolderInput.folder_id DeleteFolderInput.folder_path];
    rewrite Hid, Sp; (split; [reflexivity|]);
    apply endswith_append, with_trailing_slash_ends.
Qed.

(** C5 (the code at the failing input): listing the subfolders, or the
    documents, of the folder at [/Projects] sends the request to an endpoint
    that ends in [Projects], with no separator appended, whereas
    [openprodoc_get_folder] on the same path appends it. *)
Theorem list_by_path_keeps_path_as_given :
  urls (snd (openprodoc_list_subfolders
               (sample_env (always (json_answer 200 (PList []))))
               (ListSubfoldersInput.mk None (Some "/Projects") 0 200 MARKDOWN) logged_in))
  = ["http://localhost:8080/ProdocWeb2/APIRest/folders/SubFoldersByPath/Projects"]
  /\ urls (snd (openprodoc_list_documents_in_folder
                  (sample_env (always (json_answer 200 (PList []))))
                  (ListDocumentsInput.mk None (Some "/Projects") 0 200 MARKDOWN) logged_in))
     = ["http://localhost:8080/ProdocWeb2/APIRest/folders/ContDocsByPath/Projects"]
  /\ PyString.endswith "folders/SubFoldersByPath/Projects" "/" = false
  /\ PyString.endswith "folders/ContDocsByPath/Projects" "/" = false
  /\ urls (snd (openprodoc_get_folder
                  (sample_env (always (json_answer 200 (PDict []))))
                  (GetFolderInput.mk None (Some "/Projects") MARKDOWN) logged_in))
     = ["http://localhost:8080/ProdocWeb2/APIRest/folders/ByPath/Projects/"].
Proof.
  repeat split; vm_compute; reflexivity.
Qed.

(** ** Updates without fields *)

(** C4 (amended): a folder update and a term update that supply none of their
    optional fields answer the validation error and leave the world as it
    was: nothing is sent, whatever the identifiers, the session and the
    service are. *)
Theorem update_without_fields_sends_nothing (env : environment) :
  (forall id path fmt w,
      openprodoc_update_folder env (UpdateFolderInput.mk id path None None None fmt) w
      = ("Error: No fields to update. Provide at least one of: name, acl, or attributes.", w))
  /\ (forall term_id fmt w,
         openprodoc_update_term env (UpdateTermInput.mk term_id None None None None fmt) w
         = ("Error: No fields to update. Provide at least one of: name, description, language, or scope_note.", w)).
Proof.
  split; intros; reflexivity.
Qed.

(** C4 (as stated, refuted): a document update that supplies no field at all
    has already fetched the stored metadata when it answers the validation
    error, so one request has gone out. *)
Lemma update_document_without_fields_sends_request :
  fst (openprodoc_update_document (sample_env (always (json_answer 200 stored_document)))
         update_nothing logged_in)
  = "Error: No fields to update. Provide at least one of: file_path, title, document_type, parent_folder_id, acl, version_label, doc_date, author, pd_date, or attributes."
  /\ update_document_fields update_nothing = []
  /\ sent (snd (openprodoc_update_document
                  (sample_env (always (json_answer 200 stored_document)))
                  update_nothing logged_in))
     = [mk_request "GET"
          "http://localhost:8080/ProdocWeb2/APIRest/documents/ById/16c7fa8b456"
          [("Authorization", "Bearer abc123"); ("Accept", "application/json")]
          None None None None].
Proof.
  repeat split; vm_compute; reflexivity.
Qed.

(** ** The identifier in a success message *)

Lemma contains_char (c : ascii) (s : string) :
  PyString.contains (String c EmptyString) s = has_char c s.
Proof.
  unfold PyString.contains.
  induction s as [|a s IH]; [reflexivity|].
  cbn [index has_char prefix].
  destruct (ascii_dec c a) as [->|Hne].
  - rewrite Ascii.eqb_refl. destruct s; reflexivity.
  - assert (Ascii.eqb a c = false) as -> by (apply Ascii.eqb_neq; congruence).
    cbn [orb]. rewrite <- IH.
    destruct (index 0 (String c EmptyString) s); reflexivity.
Qed.

Lemma split_without (c : ascii) (s : string) :
  has_char c s = false -> PyString.split c s = [s].
Proof.
  induction s as [|a s IH]; [reflexivity|].
  cbn [has_char PyString.split]. intros H. apply orb_false_elim in H as [Ha Hs].
  rewrite Ha, (IH Hs). reflexivity.
Qed.

Lemma split_at_first (c : ascii) (label rest : string) :
  has_char c label = false ->
  PyString.split c (label ++ String c rest) = label :: PyString.split c rest.
Proof.
  induction label as [|a label IH]; intros H.
  - cbn [append PyString.split]. now rewrite Ascii.eqb_refl.
  - cbn [has_char] in H. apply orb_false_elim in H as [Ha Hl].
    cbn [append PyString.split]. rewrite Ha, (IH Hl). reflexivity.
Qed.

Lemma has_char_append (c : ascii) (s t : string) :
  has_char c (s ++ t) = has_char c s || has_char c t.
Proof.
  induction s as [|a s IH]; [reflexivity|].
  cbn [append has_char]. rewrite IH. apply orb_assoc.
Qed.

(** A message without [=] gives the fallback. *)
Lemma id_from_msg_fallback (msg fallback : string) :
  has_char "="%char msg = false ->
  id_from_msg (PStr msg) fallback = Ok fallback.
Proof.
  intros H. unfold id_from_msg. cbn [Py.contains rbind].
  now rewrite contains_char, H.
Qed.

(** On [<label>=<id>] with an id free of [=], the identifier is the whole of
    what follows the first [=]. *)
Lemma id_from_msg_plain_id (label id fallback : string) :
  has_char "="%char label = false ->
  has_char "="%char id = false ->
  id_from_msg (PStr (label ++ "=" ++ id)) fallback = Ok id.
Proof.
  intros Hl Hi. unfold id_from_msg. cbn [Py.contains rbind].
  rewrite contains_char, has_char_append. cbn [append has_char].
  rewrite Ascii.eqb_refl, orb_true_r.
  rewrite (split_at_first "="%char label id Hl), (split_without _ _ Hi).
  reflexivity.
Qed.

(** With a further [=] in what follows the first, the identifier stops at it. *)
Lemma id_from_msg_cut_id (label id more fallback : string) :
  has_char "="%char label = false ->
  has_char "="%char id = false ->
  id_from_msg (PStr (label ++ "=" ++ id ++ "=" ++ more)) fallback = Ok id.
Proof.
  intros Hl Hi. unfold id_from_msg. cbn [Py.contains rbind].
  rewrite contains_char, has_char_append. cbn [append has_char].
  rewrite Ascii.eqb_refl, orb_true_r.
  rewrite (split_at_first "="%char label _ Hl).
  rewrite (split_at_first "="%char id more Hi).
  reflexivity.
Qed.

(** C6 (the code at the failing input): on the success message
    [Creado=ab=cd], whose part after the first [=] is [ab=cd], the identifier
    read out is [ab], and that is the folder id that [openprodoc_create_folder]
    and the document id that [openprodoc_delete_document] report. *)
Theorem id_with_separator_is_cut :
  id_from_msg (PStr "Creado=ab=cd") "Unknown" = Ok "ab"
  /\ fst (openprodoc_create_folder
            (sample_env (always (json_answer 200
               (PDict [("Res", PStr "OK"); ("Msg", PStr "Creado=ab=cd")]))))
            new_folder logged_in)
     = PyString.join PyString.LF
         ["# Folder Created Successfully"; "";
          "- **Folder ID**: ab"; "- **Name**: Projects"; "- **Type**: PD_FOLDERS"]
  /\ fst (openprodoc_delete_document
            (sample_env (always (json_answer 200
               (PDict [("Res", PStr "OK"); ("Msg", PStr "Borrado=ab=cd")]))))
            (DeleteDocumentInput.mk "ab=cd") logged_in)
     = "Successfully deleted document: ab".
Proof.
  repeat split; vm_compute; reflexivity.
Qed.

(** ** Error answers *)

(** A tool that gets the headers and sends its request answers the formatted
    HTTP error when the service replies outside 2xx. *)
Lemma one_request_http_error (env : environment) (endpoint method : string)
    (amend : list (string * string) -> list (string * string))
    json_data params (tail : pyval -> M string) (w : world) (token : string)
    (r : http_response) :
  _auth_token w = PStr token -> token <> "" ->
  (forall req, remote env (sent w) req = Responded r) ->
  raise_for_status r = Raise (HTTPStatusError r) ->
  serialisable json_data = true ->
  fst (catching
         (bind (_get_auth_headers env)
            (fun headers =>
               bind (_make_api_request env endpoint method (Some (amend headers))
                       json_data params None None) tail))
         (report_error env) w)
  = _handle_api_error env (HTTPStatusError r).
Proof.
  intros Htok Hne Hremote Hstatus Hjson.
  unfold catching. unfold bind at 1.
  rewrite (get_auth_headers_ok env w token Htok Hne). cbv beta iota.
  unfold bind at 1.
  erewrite make_api_request_http_error; [| apply Hremote | exact Hstatus | exact Hjson].
  reflexivity.
Qed.

(** C7: a search (of documents, and of folders or terms alike) that receives
    an HTTP 500 answer whose body is [{"Res": "KO", "Msg": "Empty_conditions"}]
    returns exactly [Error: Internal server error - Empty_conditions]. *)
Theorem search_reports_empty_conditions
    (env : environment) (params : SearchInput.t) (w : world) (token : string)
    (r : http_response) :
  _auth_token w = PStr token -> token <> "" ->
  status_code r = 500%Z ->
  response_json r = inl (PDict [("Res", PStr "KO"); ("Msg", PStr "Empty_conditions")]) ->
  (forall req, remote env (sent w) req = Responded r) ->
  fst (openprodoc_search_documents env params w)
  = "Error: Internal server error - Empty_conditions"
  /\ fst (openprodoc_search_folders env params w)
     = "Error: Internal server error - Empty_conditions"
  /\ fst (openprodoc_search_terms env params w)
     = "Error: Internal server error - Empty_conditions".
Proof.
  intros Htok Hne Hstatus Hjson Hremote.
  assert (raise_for_status r = Raise (HTTPStatusError r)) as Hraise
    by (unfold raise_for_status; rewrite Hstatus; reflexivity).
  assert (_handle_api_error env (HTTPStatusError r)
          = "Error: Internal server error - Empty_conditions") as Hmsg
    by (unfold _handle_api_error, error_dict; rewrite Hstatus, Hjson; reflexivity).
  rewrite <- Hmsg.
  split; [|split].
  - apply (one_request_http_error env "documents/Search" "POST"
             (set_header "Content-Type" "application/json")) with (token := token);
      first [assumption | reflexivity].
  - apply (one_request_http_error env "folders/Search" "POST"
             (set_header "Content-Type" "application/json")) with (token := token);
      first [assumption | reflexivity].
  - apply (one_request_http_error env "thesauri/Search" "POST"
             (set_header "Content-Type" "application/json")) with (token := token);
      first [assumption | reflexivity].
Qed.

Lemma search_reports_empty_conditions_witness :
  fst (openprodoc_search_documents
         (sample_env (always (json_answer 500
            (PDict [("Res", PStr "KO"); ("Msg", PStr "Empty_conditions")]))))
         (SearchInput.mk "Select * from PD_DOCS" 0 100 MARKDOWN) logged_in)
  = "Error: Internal server error - Empty_conditions".
Proof.
  refine (proj1 (search_reports_empty_conditions
            (sample_env (always (json_answer 500
               (PDict [("Res", PStr "KO"); ("Msg", PStr "Empty_conditions")]))))
            (SearchInput.mk "Select * from PD_DOCS" 0 100 MARKDOWN) logged_in "abc123"
            (mk_response 500 (Some "application/json")
               (inl (PDict [("Res", PStr "KO"); ("Msg", PStr "Empty_conditions")])) "")
            _ _ _ _ _));
    first [discriminate | reflexivity].
Defined.

(** ** Session state *)

(** C8: a logout made while a token is stored leaves no token behind, whether
    the remote logout succeeds, reports a failure, or the request raises. *)
Theorem logout_clears_token (env : environment) (w : world) :
  Py.truthy (_auth_token w) = true ->
  _auth_token (snd (openprodoc_logout env w)) = PNone.
Proof.
  intros Htok. unfold openprodoc_logout, catching.
  unfold bind at 1. unfold get_world. rewrite Htok. cbn [negb].
  unfold bind at 1.
  destruct (_get_auth_headers env w) as [[headers|e] w1]; [|reflexivity].
  unfold bind at 1.
  destruct (_make_api_request env "session" "DELETE" (Some headers) None None None None w1)
    as [[data|e] w2]; [|reflexivity].
  unfold bind at 1. unfold modify.
  unfold bind at 1. unfold lift.
  destruct (Py.get data "Res" PNone) as [res|e]; [|reflexivity].
  destruct (Py.eq_str res "OK"); [reflexivity|].
  unfold bind.
  destruct (Py.get data "Msg" (PStr "Unknown")) as [msg|e]; reflexivity.
Qed.

Lemma logout_clears_token_witness :
  _auth_token (snd (openprodoc_logout
                      (sample_env (always (Failed (TimeoutException "timed out"))))
                      logged_in))
  = PNone.
Proof.
  apply (logout_clears_token
           (sample_env (always (Failed (TimeoutException "timed out")))) logged_in).
  reflexivity.
Defined.

(** C10: a login that names a base URL and fails, because the request raises
    or because the answer is not a 2xx object with [Res] equal to [OK] and a
    [Token], leaves the stored token as it was and has the base URL replaced
    by the one that was named.  The replacement comes before the request: the
    one request of the failed login is the [PUT] on [/session] under the new
    base URL, and whatever [_make_api_request] is asked to send afterwards
    goes to the new base URL too. *)
Theorem failed_login_keeps_token_and_moves_base_url
    (env : environment) (params : LoginInput.t) (w : world) (base : string) :
  LoginInput.base_url params = Some base -> base <> "" ->
  is_set (or_else (LoginInput.username params) (_default_username w)) = true ->
  is_set (or_else (LoginInput.password params) (_default_password w)) = true ->
  (forall req, login_granted (remote env (sent w) req) = false) ->
  _auth_token (snd (openprodoc_login env params w)) = _auth_token w
  /\ _base_url (snd (openprodoc_login env params w)) = base
  /\ sent (snd (openprodoc_login env params w))
     = List.app (sent w)
         [login_request base
            (opt_str (or_else (LoginInput.username params) (_default_username w)))
            (opt_str (or_else (LoginInput.password params) (_default_password w)))]
  /\ (forall endpoint method headers json_data query files data,
         serialisable json_data = true ->
         sent (snd (_make_api_request env endpoint method headers json_data query files data
                      (snd (openprodoc_login env params w))))
         = List.app (sent (snd (openprodoc_login env params w)))
             [mk_request method (base ++ "/" ++ endpoint) (request_headers_of headers)
                json_data query files data]).
Proof.
  intros Hbase Hne Huser Hpass Hfail.
  assert (snd (openprodoc_login env params w)
          = record_request
              (login_request base
                 (opt_str (or_else (LoginInput.username params) (_default_username w)))
                 (opt_str (or_else (LoginInput.password params) (_default_password w))))
              (set_base_url base w)) as ->.
  2: { repeat split. intros. now rewrite make_api_request_world. }
  unfold login_request.
  unfold openprodoc_login, catching, bind, get_world, modify, client_request, lift, ret.
  rewrite Huser, Hpass, Hbase, (is_set_some base Hne).
  cbn [negb orb opt_str sent set_base_url _base_url].
  match goal with
  | |- context [remote env (sent w) ?req] =>
      specialize (Hfail req); destruct (remote env (sent w) req) as [r|e]
  end; [|reflexivity].
  unfold login_granted in Hfail. unfold raise_for_status.
  destruct ((200 <=? status_code r)%Z && (status_code r <=? 299)%Z); [|reflexivity].
  cbn [andb] in Hfail. unfold json_of_response.
  destruct (response_json r) as [data|msg]; [|reflexivity].
  destruct data as [| | | | | |d]; try reflexivity.
  cbn [Py.get Py.contains]. rewrite Hfail. reflexivity.
Qed.

Lemma failed_login_keeps_token_and_moves_base_url_witness :
  _auth_token (snd (openprodoc_login
                      (sample_env (always (json_answer 200
                         (PDict [("Res", PStr "KO"); ("Msg", PStr "Wrong password")]))))
                      (LoginInput.mk (Some "root") (Some "secret") (Some "http://other/api"))
                      logged_in))
  = PStr "abc123"
  /\ _base_url (snd (openprodoc_login
                      (sample_env (always (json_answer 200
                         (PDict [("Res", PStr "KO"); ("Msg", PStr "Wrong password")]))))
                      (LoginInput.mk (Some "root") (Some "secret") (Some "http://other/api"))
                      logged_in))
     = "http://other/api"
  /\ sent (snd (openprodoc_login
                  (sample_env (always (json_answer 200
                     (PDict [("Res", PStr "KO"); ("Msg", PStr "Wrong password")]))))
                  (LoginInput.mk (Some "root") (Some "secret") (Some "http://other/api"))
                  logged_in))
     = [login_request "http://other/api" "root" "secret"].
Proof.
  pose proof (failed_login_keeps_token_and_moves_base_url
                (sample_env (always (json_answer 200
                   (PDict [("Res", PStr "KO"); ("Msg", PStr "Wrong password")]))))
                (LoginInput.mk (Some "root") (Some "secret") (Some "http://other/api"))
                logged_in "http://other/api") as H.
  destruct H as (T & B & S & _); first [discriminate | reflexivity | idtac].
  split; [exact T | split; [exact B | exact S]].
Defined.

(** * Further properties of the module *)

(** ** Error answers *)

Lemma handle_api_error_starts (env : environment) (e : exn) :
  is_error (_handle_api_error env e) = true.
Proof.
  unfold _handle_api_error, is_error.
  destruct e as [r|msg|msg|msg|name msg]; try reflexivity.
  repeat match goal with
         | |- context [if ?c then _ else _] => destruct c
         | |- context [match ?x with Some _ => _ | None => _ end] => destruct x
         end; reflexivity.
Qed.

(** Whatever the exception, the formatted answer starts with [Error: ]. *)
Theorem handle_api_error_is_error (env : environment) (e : exn) :
  is_error (_handle_api_error env e) = true.
Proof.
  apply handle_api_error_starts.
Qed.

(** ** What a call does to the world *)

Lemma log_steps_refl (w : world) : log_steps 0 w w.
Proof. exists []. split; [now rewrite app_nil_r | apply le_n]. Qed.

Lemma log_steps_trans (a b : nat) (w w1 w2 : world) :
  log_steps a w w1 -> log_steps b w1 w2 -> log_steps (a + b) w w2.
Proof.
  intros (r1 & E1 & L1) (r2 & E2 & L2). exists (List.app r1 r2). split.
  - now rewrite E2, E1, app_assoc.
  - rewrite length_app. lia.
Qed.

Lemma log_steps_weaken (a b : nat) (w w' : world) :
  a <= b -> log_steps a w w' -> log_steps b w w'.
Proof. intros Hab (r & E & L). exists r. split; [exact E | lia]. Qed.

Lemma steps_refl (w : world) : steps 0 w w.
Proof. repeat split. apply log_steps_refl. Qed.

Lemma steps_trans (a b : nat) (w w1 w2 : world) :
  steps a w w1 -> steps b w1 w2 -> steps (a + b) w w2.
Proof.
  intros (T1 & B1 & U1 & P1 & L1) (T2 & B2 & U2 & P2 & L2).
  repeat split; try congruence. eapply log_steps_trans; eassumption.
Qed.

Lemma steps_weaken (a b : nat) (w w' : world) :
  a <= b -> steps a w w' -> steps b w w'.
Proof.
  intros Hab (T & B & U & P & L). repeat split; try assumption.
  eapply log_steps_weaken; eassumption.
Qed.

Lemma steps_record_request (r : request) (w : world) : steps 1 w (record_request r w).
Proof. repeat split. exists [r]. split; [reflexivity | apply le_n]. Qed.

Lemma sends_ret {A : Type} (a : A) : sends_at_most 0 (ret a).
Proof. intros w. apply steps_refl. Qed.

Lemma sends_lift {A : Type} (r : result A) : sends_at_most 0 (lift r).
Proof. intros w. apply steps_refl. Qed.

Lemma sends_raise {A : Type} (e : exn) : sends_at_most 0 (@raise A e).
Proof. intros w. apply steps_refl. Qed.

Lemma sends_get_world : sends_at_most 0 get_world.
Proof. intros w. apply steps_refl. Qed.

Lemma sends_bind {A B : Type} (a b : nat) (m : M A) (k : A -> M B) :
  sends_at_most a m -> (forall x, sends_at_most b (k x)) ->
  sends_at_most (a + b) (bind m k).
Proof.
  intros Hm Hk w. unfold bind. specialize (Hm w).
  destruct (m w) as [[x|e] w1]; simpl in *.
  - eapply steps_trans; [exact Hm | apply Hk].
  - eapply steps_weaken; [|exact Hm]. lia.
Qed.

Lemma sends_weaken {A : Type} (a b : nat) (m : M A) :
  a <= b -> sends_at_most a m -> sends_at_most b m.
Proof. intros Hab Hm w. eapply steps_weaken; [exact Hab | apply Hm]. Qed.

Lemma sends_try_except {A : Type} (a b : nat) (body : M A) (handler : exn -> M A) :
  sends_at_most a body -> (forall e, sends_at_most b (handler e)) ->
  sends_at_most (a + b) (try_except body handler).
Proof.
  intros Hm Hk w. unfold try_except. specialize (Hm w).
  destruct (body w) as [[x|e] w1]; simpl in *.
  - eapply steps_weaken; [|exact Hm]. lia.
  - eapply steps_trans; [exact Hm | apply Hk].
Qed.

Lemma sends_get_auth_headers (env : environment) : sends_at_most 0 (_get_auth_headers env).
Proof.
  intros w. unfold _get_auth_headers, bind, get_world, raise, lift, ret.
  destruct (negb (Py.truthy (_auth_token w))); [apply steps_refl|].
  destruct (Py.len (_auth_token w)); apply steps_refl.
Qed.

Lemma sends_make_api_request (env : environment) (endpoint method : string)
    headers json_data params files data :
  sends_at_most 1 (_make_api_request env endpoint method headers json_data params files data).
Proof.
  intros w. destruct (serialisable json_data) eqn:Hjson.
  - rewrite make_api_request_world by exact Hjson. apply steps_record_request.
  - rewrite make_api_request_unserialisable by exact Hjson.
    eapply steps_weaken; [|apply steps_refl]. lia.
Qed.

(** Goes through a computation that sends nothing. *)
Ltac sends_nothing :=
  repeat first
    [ apply sends_ret
    | apply sends_lift
    | apply sends_raise
    | apply sends_get_world
    | apply sends_get_auth_headers
    | apply (sends_bind 0 0); [|intros]
    | match goal with
      | |- sends_at_most _ (match ?x with _ => _ end) => destruct x
      | |- sends_at_most _ (let (_, _) := ?x in _) => destruct x
      end ].

(** Goes through a tool body that builds the headers, sends one request and
    renders the answer. *)
Ltac sends_one :=
  repeat match goal with
         | |- sends_at_most _ (match ?x with _ => _ end) => destruct x
         | |- sends_at_most _ (let (_, _) := ?x in _) => destruct x
         end;
  first
    [ apply sends_make_api_request
    | apply (sends_weaken 0 1); [lia | solve [sends_nothing]]
    | apply (sends_bind 0 1); [solve [sends_nothing] | intros; sends_one]
    | apply (sends_bind 1 0); [sends_one | intros; solve [sends_nothing]] ].

Lemma steps_catching_report (env : environment) (n : nat) (body : M string) (w : world) :
  sends_at_most n body -> steps n w (snd (catching body (report_error env) w)).
Proof.
  intros H. rewrite snd_catching_report. apply H.
Qed.

Lemma steps_catching (n : nat) (body : M string) (handler : exn -> world -> string * world)
    (w : world) :
  (forall e w', snd (handler e w') = w') ->
  sends_at_most n body -> steps n w (snd (catching body handler w)).
Proof.
  intros Hh H. unfold catching. specialize (H w).
  destruct (body w) as [[s|e] w']; simpl in *; [exact H | now rewrite Hh].
Qed.

Lemma sends_get_document_metadata_raw (env : environment) (document_id : string) :
  sends_at_most 1 (_get_document_metadata_raw env document_id).
Proof.
  unfold _get_document_metadata_raw.
  apply (sends_try_except 1 0); [sends_one | intros; apply sends_ret].
Qed.

Lemma tool_steps (env : environment) (i : invocation) (w : world) :
  is_session_tool i = false ->
  steps (request_budget i) w (snd (call env i w)).
Proof.
  intros Hi. destruct i as [p| |p|p|p|p|p|p|p|p|p|p|p|p|p|p|p|p|p|p];
    try discriminate Hi; clear Hi; cbn [call request_budget].
  - unfold openprodoc_create_folder. apply steps_catching_report. sends_one.
  - unfold openprodoc_get_folder. apply steps_catching_report. sends_one.
  - unfold openprodoc_update_folder. apply steps_catching_report. sends_one.
  - unfold openprodoc_delete_folder. apply steps_catching_report. sends_one.
  - unfold openprodoc_list_subfolders. apply steps_catching_report. sends_one.
  - unfold openprodoc_list_documents_in_folder. apply steps_catching_report. sends_one.
  - unfold openprodoc_search_folders. apply steps_catching_report. sends_one.
  - unfold openprodoc_get_document_metadata. apply steps_catching_report. sends_one.
  - unfold openprodoc_delete_document. apply steps_catching_report. sends_one.
  - unfold openprodoc_upload_document.
    apply steps_catching; [intros [] ?; reflexivity|]. sends_one.
  - unfold openprodoc_update_document.
    apply steps_catching; [intros [] ?; reflexivity|].
    apply (sends_bind 1 1); [apply sends_get_document_metadata_raw|].
    intros existing_doc. sends_one.
  - unfold openprodoc_search_documents. apply steps_catching_report. sends_one.
  - unfold openprodoc_create_term. apply steps_catching_report. sends_one.
  - unfold openprodoc_get_term. apply steps_catching_report. sends_one.
  - unfold openprodoc_update_term. apply steps_catching_report. sends_one.
  - unfold openprodoc_delete_term. apply steps_catching_report. sends_one.
  - unfold openprodoc_list_subterms. apply steps_catching_report. sends_one.
  - unfold openprodoc_search_terms. apply steps_catching_report. sends_one.
Qed.

(** Every tool but login and logout leaves the token, the base URL and the
    configured defaults as they were, and only adds to the log of requests. *)
Theorem tools_keep_session (env : environment) (i : invocation) (w : world) :
  is_session_tool i = false ->
  _auth_token (snd (call env i w)) = _auth_token w
  /\ _base_url (snd (call env i w)) = _base_url w
  /\ _default_username (snd (call env i w)) = _default_username w
  /\ _default_password (snd (call env i w)) = _default_password w
  /\ exists reqs, sent (snd (call env i w)) = List.app (sent w) reqs.
Proof.
  intros Hi. destruct (tool_steps env i w Hi) as (T & B & U & P & reqs & E & _).
  repeat split; try assumption. now exists reqs.
Qed.

Lemma tools_keep_session_witness :
  _auth_token (snd (call (sample_env (always (json_answer 401 PNone)))
                      (DeleteDocument (DeleteDocumentInput.mk "16c7fa8b456")) logged_in))
  = PStr "abc123".
Proof.
  apply (tools_keep_session (sample_env (always (json_answer 401 PNone)))
           (DeleteDocument (DeleteDocumentInput.mk "16c7fa8b456")) logged_in).
  reflexivity.
Defined.

Lemma log_of_sends {A : Type} (n : nat) (m : M A) : sends_at_most n m -> log_grows n m.
Proof. intros H w. apply H. Qed.

Lemma log_bind {A B : Type} (a b : nat) (m : M A) (k : A -> M B) :
  log_grows a m -> (forall x, log_grows b (k x)) -> log_grows (a + b) (bind m k).
Proof.
  intros Hm Hk w. unfold bind. specialize (Hm w).
  destruct (m w) as [[x|e] w1]; simpl in *.
  - eapply log_steps_trans; [exact Hm | apply Hk].
  - eapply log_steps_weaken; [|exact Hm]. lia.
Qed.

Lemma log_weaken {A : Type} (a b : nat) (m : M A) :
  a <= b -> log_grows a m -> log_grows b m.
Proof. intros Hab Hm w. eapply log_steps_weaken; [exact Hab | apply Hm]. Qed.

Lemma log_set_auth_token (t : pyval) : log_grows 0 (modify (set_auth_token t)).
Proof. intros w. exists []. split; [simpl; now rewrite app_nil_r | apply le_n]. Qed.

Lemma log_set_base_url (u : string) : log_grows 0 (modify (set_base_url u)).
Proof. intros w. exists []. split; [simpl; now rewrite app_nil_r | apply le_n]. Qed.

Lemma log_client_request (env : environment) (req : request) :
  log_grows 1 (client_request env req).
Proof.
  intros w. unfold client_request.
  destruct (remote env (sent w) req); exists [req]; split; reflexivity || apply le_n.
Qed.

(** Goes through a computation that may change the session and sends nothing. *)
Ltac log_nothing :=
  repeat first
    [ apply log_set_auth_token
    | apply log_set_base_url
    | apply log_of_sends; solve [sends_nothing]
    | apply (log_bind 0 0); [|intros]
    | match goal with
      | |- log_grows _ (match ?x with _ => _ end) => destruct x
      end ].

Ltac log_one :=
  repeat match goal with
         | |- log_grows _ (match ?x with _ => _ end) => destruct x
         end;
  first
    [ apply log_client_request
    | apply log_of_sends; apply sends_make_api_request
    | apply (log_weaken 0 1); [lia | solve [log_nothing]]
    | apply (log_bind 0 1); [solve [log_nothing] | intros; log_one]
    | apply (log_bind 1 0); [log_one | intros; solve [log_nothing]] ].

Lemma login_log (env : environment) (params : LoginInput.t) (w : world) :
  log_steps 1 w (snd (openprodoc_login env params w)).
Proof.
  unfold openprodoc_login. rewrite snd_catching_report.
  match goal with
  | |- log_steps 1 w (snd (?body w)) => enough (log_grows 1 body) as H by apply H
  end.
  log_one.
Qed.

Lemma logout_log (env : environment) (w : world) :
  log_steps 1 w (snd (openprodoc_logout env w)).
Proof.
  unfold openprodoc_logout, catching.
  match goal with
  | |- context [?body w] =>
      assert (log_grows 1 body) as H by log_one; specialize (H w);
      destruct (body w) as [[answer|e] w']
  end; exact H.
Qed.

(** No call sends more than one request, except a document update, which
    sends at most two; and no call removes anything from the log. *)
Theorem call_request_budget (env : environment) (i : invocation) (w : world) :
  exists reqs,
    sent (snd (call env i w)) = List.app (sent w) reqs
    /\ List.length reqs <= request_budget i.
Proof.
  destruct (is_session_tool i) eqn:Hi.
  - destruct i; try discriminate Hi; [apply login_log | apply logout_log].
  - apply (tool_steps env i w Hi).
Qed.

(** ** Calls without a token *)

Lemma get_auth_headers_missing (env : environment) (w : world) :
  Py.truthy (_auth_token w) = false ->
  _get_auth_headers env w
  = (Raise (ValueError "Not authenticated. Please login first using openprodoc_login."), w).
Proof.
  intros H. unfold _get_auth_headers, bind, get_world, raise. now rewrite H.
Qed.

Lemma headers_first_missing (env : environment) (k : list (string * string) -> M string)
    (w : world) :
  Py.truthy (_auth_token w) = false ->
  catching (bind (_get_auth_headers env) k) (report_error env) w = (not_authenticated, w).
Proof.
  intros H. unfold catching, bind. now rewrite (get_auth_headers_missing env w H).
Qed.

Lemma get_document_metadata_raw_missing (env : environment) (document_id : string)
    (w : world) :
  Py.truthy (_auth_token w) = false ->
  _get_document_metadata_raw env document_id w = (Ok PNone, w).
Proof.
  intros H. unfold _get_document_metadata_raw, try_except, bind.
  now rewrite (get_auth_headers_missing env w H).
Qed.

(** Takes a tool apart up to the point where it asks for the headers. *)
Ltac without_token H :=
  repeat match goal with
         | |- context [catching (match ?x with _ => _ end)] => destruct x
         | |- context [catching (let (_, _) := ?x in _)] => destruct x
         end;
  cbv zeta;
  first [ rewrite headers_first_missing by exact H; split; reflexivity
        | split; reflexivity ].

Lemma call_without_token (env : environment) (i : invocation) (w : world) :
  Py.truthy (_auth_token w) = false -> is_login i = false ->
  snd (call env i w) = w /\ is_error (fst (call env i w)) = true.
Proof.
  intros H Hi. destruct i as [p| |p|p|p|p|p|p|p|p|p|p|p|p|p|p|p|p|p|p];
    try discriminate Hi; clear Hi; cbn [call].
  - unfold openprodoc_logout, catching, bind, get_world. rewrite H. split; reflexivity.
  - unfold openprodoc_create_folder. without_token H.
  - unfold openprodoc_get_folder, get_folder_endpoint.
    destruct (is_set (GetFolderInput.folder_id p));
      [|destruct (is_set (GetFolderInput.folder_path p))]; without_token H.
  - unfold openprodoc_update_folder, update_folder_endpoint.
    destruct (update_folder_body p) as [[|field body] updated_fields];
      [split; reflexivity|].
    destruct (is_set (UpdateFolderInput.folder_id p));
      [|destruct (is_set (UpdateFolderInput.folder_path p))]; without_token H.
  - unfold openprodoc_delete_folder, delete_folder_endpoint.
    destruct (is_set (DeleteFolderInput.folder_id p));
      [|destruct (is_set (DeleteFolderInput.folder_path p))]; without_token H.
  - unfold openprodoc_list_subfolders, list_subfolders_endpoint.
    destruct (is_set (ListSubfoldersInput.folder_id p));
      [|destruct (is_set (ListSubfoldersInput.folder_path p))]; without_token H.
  - unfold openprodoc_list_documents_in_folder, list_documents_endpoint.
    destruct (is_set (ListDocumentsInput.folder_id p));
      [|destruct (is_set (ListDocumentsInput.folder_path p))]; without_token H.
  - unfold openprodoc_search_folders. without_token H.
  - unfold openprodoc_get_document_metadata. without_token H.
  - unfold openprodoc_delete_document. without_token H.
  - unfold openprodoc_upload_document, catching, bind, lift.
    destruct (read_file env (UploadDocumentInput.file_path p)) as [file_content|e].
    + destruct (dumps env _) as [metadata_json|e].
      * rewrite (get_auth_headers_missing env w H). split; reflexivity.
      * split; [destruct e; reflexivity|].
        destruct e; try reflexivity; apply handle_api_error_starts.
    + split; [destruct e; reflexivity|].
      destruct e; try reflexivity; apply handle_api_error_starts.
  - assert (openprodoc_update_document env p w
            = ("Error: Could not retrieve existing document metadata. Document may not exist.",
               w)) as ->; [|split; reflexivity].
    unfold openprodoc_update_document, catching. unfold bind at 1.
    now rewrite (get_document_metadata_raw_missing env _ w H).
  - unfold openprodoc_search_documents. without_token H.
  - unfold openprodoc_create_term. without_token H.
  - unfold openprodoc_get_term. without_token H.
  - unfold openprodoc_update_term. without_token H.
  - unfold openprodoc_delete_term. without_token H.
  - unfold openprodoc_list_subterms. without_token H.
  - unfold openprodoc_search_terms. without_token H.
Qed.

(** With no token in the session, every tool but login answers an error and
    leaves the world as it was: no request is sent. *)
Theorem without_token_nothing_is_sent (env : environment) (i : invocation) (w : world) :
  Py.truthy (_auth_token w) = false -> is_login i = false ->
  snd (call env i w) = w /\ is_error (fst (call env i w)) = true.
Proof.
  apply call_without_token.
Qed.

Lemma without_token_nothing_is_sent_witness :
  snd (call (sample_env (always (json_answer 200 (PList []))))
         (SearchDocuments (SearchInput.mk "Select * from PD_DOCS" 0 100 MARKDOWN))
         logged_out) = logged_out
  /\ is_error (fst (call (sample_env (always (json_answer 200 (PList []))))
                      (SearchDocuments (SearchInput.mk "Select * from PD_DOCS" 0 100 MARKDOWN))
                      logged_out)) = true.
Proof.
  apply (without_token_nothing_is_sent (sample_env (always (json_answer 200 (PList []))))
           (SearchDocuments (SearchInput.mk "Select * from PD_DOCS" 0 100 MARKDOWN))
           logged_out); reflexivity.
Defined.

(** ** Login and logout *)

Lemma login_granted_world (env : environment) (params : LoginInput.t) (w : world)
    (user pass token : string) (r : http_response) (d : list (string * pyval)) :
  or_else (LoginInput.username params) (_default_username w) = Some user -> user <> "" ->
  or_else (LoginInput.password params) (_default_password w) = Some pass -> pass <> "" ->
  (forall req, remote env (sent w) req = Responded r) ->
  raise_for_status r = Ok tt ->
  response_json r = inl (PDict d) ->
  Py.lookup d "Res" = Some (PStr "OK") ->
  Py.lookup d "Token" = Some (PStr token) ->
  openprodoc_login env params w
  = ("Successfully logged in to OpenProdoc as " ++ user ++ ". Token is valid for 24 hours.",
     mk_world (PStr token) (login_base_url params w)
              (_default_username w) (_default_password w)
              (List.app (sent w)
                 [login_request (login_base_url params w) user pass])).
Proof.
  intros Hu Hune Hp Hpne Hremote Hstatus Hjson Hres Htok.
  unfold openprodoc_login, catching, bind, get_world, modify, client_request, lift, ret.
  rewrite Hu, Hp, (is_set_some user Hune), (is_set_some pass Hpne).
  cbn [negb orb sent set_base_url _base_url opt_str].
  rewrite Hremote, Hstatus. unfold json_of_response. rewrite Hjson.
  cbn [Py.get Py.contains]. unfold Py.dict_get, Py.has_key. rewrite Hres, Htok.
  cbn [Py.eq_str]. rewrite String.eqb_refl. cbn [andb Py.len].
  reflexivity.
Qed.

(** A login whose request is answered 2xx with [Res] equal to [OK] and a
    string [Token] reports success under the user name, stores the token and
    the base URL it worked with, and has sent the one [PUT] on [/session] with
    the name and the password. *)
Theorem login_stores_token (env : environment) (params : LoginInput.t) (w : world)
    (user pass token : string) (r : http_response) (d : list (string * pyval)) :
  or_else (LoginInput.username params) (_default_username w) = Some user -> user <> "" ->
  or_else (LoginInput.password params) (_default_password w) = Some pass -> pass <> "" ->
  (forall req, remote env (sent w) req = Responded r) ->
  raise_for_status r = Ok tt ->
  response_json r = inl (PDict d) ->
  Py.lookup d "Res" = Some (PStr "OK") ->
  Py.lookup d "Token" = Some (PStr token) ->
  fst (openprodoc_login env params w)
  = "Successfully logged in to OpenProdoc as " ++ user ++ ". Token is valid for 24 hours."
  /\ _auth_token (snd (openprodoc_login env params w)) = PStr token
  /\ _base_url (snd (openprodoc_login env params w)) = login_base_url params w
  /\ sent (snd (openprodoc_login env params w))
     = List.app (sent w) [login_request (login_base_url params w) user pass].
Proof.
  intros Hu Hune Hp Hpne Hremote Hstatus Hjson Hres Htok.
  rewrite (login_granted_world env params w user pass token r d) by assumption.
  repeat split.
Qed.

Lemma login_stores_token_witness :
  fst (openprodoc_login (sample_env granting_service)
         (LoginInput.mk (Some "root") (Some "secret") None) logged_out)
  = "Successfully logged in to OpenProdoc as root. Token is valid for 24 hours."
  /\ _auth_token (snd (openprodoc_login (sample_env granting_service)
                         (LoginInput.mk (Some "root") (Some "secret") None) logged_out))
     = PStr "abc123".
Proof.
  pose proof (login_stores_token (sample_env granting_service)
                (LoginInput.mk (Some "root") (Some "secret") None) logged_out
                "root" "secret" "abc123"
                (mk_response 200 (Some "application/json")
                   (inl (PDict [("Res", PStr "OK"); ("Token", PStr "abc123")])) "")
                [("Res", PStr "OK"); ("Token", PStr "abc123")]) as H.
  destruct H as (A & T & _); first [discriminate | reflexivity | idtac].
  split; [exact A | exact T].
Defined.

(** Without a user name or without a password, after the configured defaults
    are taken into account, a login answers an error and changes nothing: the
    base URL it was given is not stored and no request is sent. *)
Theorem login_without_credentials (env : environment) (params : LoginInput.t) (w : world) :
  is_set (or_else (LoginInput.username params) (_default_username w))
  && is_set (or_else (LoginInput.password params) (_default_password w)) = false ->
  snd (openprodoc_login env params w) = w
  /\ is_error (fst (openprodoc_login env params w)) = true.
Proof.
  intros H.
  assert (openprodoc_login env params w
          = ("Error: Username and password are required. Provide them as parameters or set OPENPRODOC_USERNAME and OPENPRODOC_PASSWORD environment variables.",
             w)) as ->; [|split; reflexivity].
  unfold openprodoc_login, catching, bind, get_world, ret.
  destruct (is_set (or_else (LoginInput.username params) (_default_username w)));
    destruct (is_set (or_else (LoginInput.password params) (_default_password w)));
    try discriminate H; reflexivity.
Qed.

Lemma login_without_credentials_witness :
  snd (openprodoc_login (sample_env granting_service)
         (LoginInput.mk (Some "root") None (Some "http://other/api")) logged_out)
  = logged_out.
Proof.
  apply (login_without_credentials (sample_env granting_service)
           (LoginInput.mk (Some "root") None (Some "http://other/api")) logged_out).
  reflexivity.
Defined.

(** ** Answers of the service *)

Lemma make_api_request_json (env : environment) (endpoint method : string)
    headers json_data params files data (w : world) (r : http_response) (v : pyval) :
  (forall req, remote env (sent w) req = Responded r) ->
  replies_json r v ->
  serialisable json_data = true ->
  _make_api_request env endpoint method headers json_data params files data w
  = (Ok v,
     record_request
       (mk_request method (_base_url w ++ "/" ++ endpoint) (request_headers_of headers)
                   json_data params files data) w).
Proof.
  intros Hremote (Hstatus & Hct & Hjson) Hbody.
  unfold _make_api_request, bind, get_world, client_request, lift, ret, request_headers_of,
    json_of_response.
  rewrite (debug_json_data_ok env json_data Hbody), Hremote, Hstatus, Hct, Hjson.
  reflexivity.
Qed.

(** A tool that gets the headers, sends its one request and hands the parsed
    answer to its rendering. *)
Lemma one_request_json (env : environment) (endpoint method : string)
    (amend : list (string * string) -> list (string * string))
    json_data params (tail : pyval -> M string) (w : world) (token : string)
    (r : http_response) (v : pyval) :
  _auth_token w = PStr token -> token <> "" ->
  (forall req, remote env (sent w) req = Responded r) ->
  replies_json r v ->
  serialisable json_data = true ->
  catching
    (bind (_get_auth_headers env)
       (fun headers =>
          bind (_make_api_request env endpoint method (Some (amend headers))
                  json_data params None None) tail))
    (report_error env) w
  = catching (tail v) (report_error env)
      (record_request
         (mk_request method (_base_url w ++ "/" ++ endpoint)
            (request_headers_of (Some (amend (auth_headers token))))
            json_data params None None) w).
Proof.
  intros Htok Hne Hremote Hreply Hbody.
  unfold catching. unfold bind at 1.
  rewrite (get_auth_headers_ok env w token Htok Hne). cbv beta iota.
  unfold bind at 1.
  rewrite (make_api_request_json env endpoint method _ _ _ _ _ w r v Hremote Hreply Hbody).
  reflexivity.
Qed.

Lemma get_auth_headers_world (env : environment) (w : world) :
  snd (_get_auth_headers env w) = w.
Proof.
  unfold _get_auth_headers, bind, get_world, raise, lift, ret.
  destruct (negb (Py.truthy (_auth_token w))); [reflexivity|].
  destruct (Py.len (_auth_token w)); reflexivity.
Qed.

(** A tool whose body cannot be serialised for the debug log stops before
    its request: the world is as it was. *)
Lemma one_request_unserialisable (env : environment) (endpoint method : string)
    (amend : list (string * string) -> list (string * string))
    json_data params (tail : pyval -> M string) (w : world) :
  serialisable json_data = false ->
  snd (catching
         (bind (_get_auth_headers env)
            (fun headers =>
               bind (_make_api_request env endpoint method (Some (amend headers))
                       json_data params None None) tail))
         (report_error env) w)
  = w.
Proof.
  intros Hbody. rewrite snd_catching_report. unfold bind at 1.
  pose proof (get_auth_headers_world env w) as Hw.
  destruct (_get_auth_headers env w) as [[headers|e] w1]; cbn [snd] in Hw; subst w1;
    [|reflexivity].
  unfold bind. now rewrite (make_api_request_unserialisable env _ _ _ _ _ _ _ w Hbody).
Qed.

(** Splits on whether the body of the request of the goal can be serialised. *)
Ltac by_body :=
  match goal with
  | |- context [_make_api_request _ _ _ _ ?json_data _ _ _] =>
      let Hbody := fresh "Hbody" in
      destruct (serialisable json_data) eqn:Hbody
  end.

(** The rendering of an answer whose [Res] is not [OK]. *)
Lemma failure_tail (env : environment) (d : list (string * pyval))
    (ok : M string) (w : world) :
  Py.eq_str (Py.dict_get d "Res" PNone) "OK" = false ->
  catching
    (bind (lift (Py.get (PDict d) "Res" PNone))
       (fun res =>
          if Py.eq_str res "OK" then ok
          else bind (lift (Py.get (PDict d) "Msg" (PStr "Unknown error")))
                 (fun msg => ret ("Error: " ++ py_str env msg))))
    (report_error env) w
  = ("Error: " ++ py_str env (Py.dict_get d "Msg" (PStr "Unknown error")), w).
Proof.
  intros Hres. unfold catching, bind, lift, ret. cbn [Py.get]. now rewrite Hres.
Qed.

Lemma mutation_failure (env : environment) (i : invocation) (w : world) (token : string)
    (r : http_response) (d : list (string * pyval)) :
  is_mutation i = true ->
  _auth_token w = PStr token -> token <> "" ->
  (forall req, remote env (sent w) req = Responded r) ->
  replies_json r (PDict d) ->
  Py.eq_str (Py.dict_get d "Res" PNone) "OK" = false ->
  snd (call env i w) = w
  \/ fst (call env i w) = "Error: " ++ py_str env (Py.dict_get d "Msg" (PStr "Unknown error")).
Proof.
  intros Hi Htok Hne Hremote Hreply Hres.
  destruct i as [p| |p|p|p|p|p|p|p|p|p|p|p|p|p|p|p|p|p|p];
    try discriminate Hi; clear Hi; cbn [call].
  - unfold openprodoc_create_folder. cbv zeta. by_body.
    + right. erewrite one_request_json by eassumption. now rewrite failure_tail.
    + left. now apply one_request_unserialisable.
  - unfold openprodoc_update_folder, update_folder_endpoint.
    destruct (update_folder_body p) as [[|field body] updated_fields]; [left; reflexivity|].
    destruct (is_set (UpdateFolderInput.folder_id p));
      [|destruct (is_set (UpdateFolderInput.folder_path p)); [|left; reflexivity]];
      cbv zeta; by_body;
      first [ right; erewrite one_request_json by eassumption; now rewrite failure_tail
            | left; now apply one_request_unserialisable ].
  - unfold openprodoc_delete_folder, delete_folder_endpoint.
    destruct (is_set (DeleteFolderInput.folder_id p));
      [|destruct (is_set (DeleteFolderInput.folder_path p)); [|left; reflexivity]];
      right;
      erewrite (one_request_json env _ _ (fun h => h)) by first [eassumption | reflexivity];
      now rewrite failure_tail.
  - right. unfold openprodoc_delete_document.
    erewrite (one_request_json env _ _ (fun h => h)) by first [eassumption | reflexivity].
    now rewrite failure_tail.
  - unfold openprodoc_create_term. cbv zeta. by_body.
    + right. erewrite one_request_json by eassumption. now rewrite failure_tail.
    + left. now apply one_request_unserialisable.
  - unfold openprodoc_update_term.
    destruct (update_term_body p) as [[|field body] updated_fields]; [left; reflexivity|].
    cbv zeta. by_body.
    + right. erewrite one_request_json by eassumption. now rewrite failure_tail.
    + left. now apply one_request_unserialisable.
  - right. unfold openprodoc_delete_term.
    erewrite (one_request_json env _ _ (fun h => h)) by first [eassumption | reflexivity].
    now rewrite failure_tail.
Qed.

(** A logical failure: when a tool that creates, updates or deletes a
    folder, a document or a term has sent its request and the service answers
    2xx with a [Res] other than [OK], the tool answers [Error: ] followed by
    the [Msg] of the answer, [Unknown error] when there is none. *)
Theorem logical_failure_is_reported (env : environment) (i : invocation) (w : world)
    (token : string) (r : http_response) (d : list (string * pyval)) :
  is_mutation i = true ->
  _auth_token w = PStr token -> token <> "" ->
  (forall req, remote env (sent w) req = Responded r) ->
  replies_json r (PDict d) ->
  Py.eq_str (Py.dict_get d "Res" PNone) "OK" = false ->
  sent (snd (call env i w)) <> sent w ->
  fst (call env i w) = "Error: " ++ py_str env (Py.dict_get d "Msg" (PStr "Unknown error")).
Proof.
  intros Hi Htok Hne Hremote Hreply Hres Hsent.
  destruct (mutation_failure env i w token r d Hi Htok Hne Hremote Hreply Hres) as [E|E];
    [|exact E].
  rewrite E in Hsent. contradiction.
Qed.

Lemma logical_failure_is_reported_witness :
  fst (call (sample_env (always (json_answer 200
               (PDict [("Res", PStr "KO"); ("Msg", PStr "User_without_permissions")]))))
         (DeleteDocument (DeleteDocumentInput.mk "16c7fa8b456")) logged_in)
  = "Error: User_without_permissions".
Proof.
  refine (logical_failure_is_reported
            (sample_env (always (json_answer 200
               (PDict [("Res", PStr "KO"); ("Msg", PStr "User_without_permissions")]))))
            (DeleteDocument (DeleteDocumentInput.mk "16c7fa8b456")) logged_in "abc123"
            (mk_response 200 (Some "application/json")
               (inl (PDict [("Res", PStr "KO"); ("Msg", PStr "User_without_permissions")])) "")
            [("Res", PStr "KO"); ("Msg", PStr "User_without_permissions")]
            _ _ _ _ _ _ _);
    first [reflexivity | discriminate | (repeat split; reflexivity) | (vm_compute; discriminate)].
Defined.

(** A logout that reaches the service and gets a JSON object back clears the
    token, has sent one [DELETE] on [/session] under the old token, and
    answers success when [Res] is [OK], else that the session is closed with
    the message of the service. *)
Theorem logout_answers (env : environment) (w : world) (token : string)
    (r : http_response) (d : list (string * pyval)) :
  _auth_token w = PStr token -> token <> "" ->
  (forall req, remote env (sent w) req = Responded r) ->
  replies_json r (PDict d) ->
  openprodoc_logout env w
  = (if Py.eq_str (Py.dict_get d "Res" PNone) "OK"
     then "Successfully logged out from OpenProdoc."
     else "Session closed (with message: "
          ++ py_str env (Py.dict_get d "Msg" (PStr "Unknown")) ++ ")",
     mk_world PNone (_base_url w) (_default_username w) (_default_password w)
       (List.app (sent w)
          [mk_request "DELETE" (_base_url w ++ "/session") (auth_headers token)
             None None None None])).
Proof.
  intros Htok Hne Hremote Hreply.
  unfold openprodoc_logout, catching. unfold bind at 1. unfold get_world.
  rewrite Htok. cbn [Py.truthy].
  destruct (String.eqb_spec token "") as [E|_]; [contradiction|]. cbn [negb].
  unfold bind at 1. rewrite (get_auth_headers_ok env w token Htok Hne).
  unfold bind at 1.
  rewrite (make_api_request_json env "session" "DELETE" _ _ _ _ _ w r _ Hremote Hreply)
    by reflexivity.
  unfold bind, modify, lift, ret. cbn [Py.get].
  destruct (Py.eq_str (Py.dict_get d "Res" PNone) "OK"); reflexivity.
Qed.

Lemma logout_answers_witness :
  fst (openprodoc_logout
         (sample_env (always (json_answer 200
            (PDict [("Res", PStr "KO"); ("Msg", PStr "Session_not_found")]))))
         logged_in)
  = "Session closed (with message: Session_not_found)".
Proof.
  refine (f_equal fst
            (logout_answers
               (sample_env (always (json_answer 200
                  (PDict [("Res", PStr "KO"); ("Msg", PStr "Session_not_found")]))))
               logged_in "abc123"
               (mk_response 200 (Some "application/json")
                  (inl (PDict [("Res", PStr "KO"); ("Msg", PStr "Session_not_found")])) "")
               [("Res", PStr "KO"); ("Msg", PStr "Session_not_found")] _ _ _ _));
    first [reflexivity | discriminate | (repeat split; reflexivity)].
Defined.

(** Login and a later call compose: after a successful login the next tool
    (here the deletion of a document) sends its request to the base URL that
    the login stored, under the token that the login stored. *)
Theorem login_then_delete_document (env : environment) (params : LoginInput.t) (w : world)
    (user pass token : string) (r : http_response) (d : list (string * pyval))
    (doc : DeleteDocumentInput.t) :
  or_else (LoginInput.username params) (_default_username w) = Some user -> user <> "" ->
  or_else (LoginInput.password params) (_default_password w) = Some pass -> pass <> "" ->
  (forall req, remote env (sent w) req = Responded r) ->
  raise_for_status r = Ok tt ->
  response_json r = inl (PDict d) ->
  Py.lookup d "Res" = Some (PStr "OK") ->
  Py.lookup d "Token" = Some (PStr token) -> token <> "" ->
  sent (snd (openprodoc_delete_document env doc (snd (openprodoc_login env params w))))
  = List.app (sent w)
      [login_request (login_base_url params w) user pass;
       mk_request "DELETE"
         (login_base_url params w ++ "/documents/ById/" ++ DeleteDocumentInput.document_id doc)
         (auth_headers token) None None None None].
Proof.
  intros Hu Hune Hp Hpne Hremote Hstatus Hjson Hres Htok Htne.
  rewrite (login_granted_world env params w user pass token r d) by assumption.
  unfold openprodoc_delete_document. rewrite snd_catching_report.
  erewrite (one_request_world env _ "DELETE" (fun h => h) None None)
    by first [reflexivity | exact Htne | (intros; keeps)].
  cbn [snd record_request sent _auth_token _base_url _default_username _default_password
       request_headers_of].
  rewrite <- app_assoc. reflexivity.
Qed.

Lemma login_then_delete_document_witness :
  urls (snd (openprodoc_delete_document (sample_env granting_service)
               (DeleteDocumentInput.mk "16c7fa8b456")
               (snd (openprodoc_login (sample_env granting_service)
                       (LoginInput.mk (Some "root") (Some "secret") (Some "http://other/api"))
                       logged_out))))
  = ["http://other/api/session"; "http://other/api/documents/ById/16c7fa8b456"].
Proof.
  unfold urls.
  rewrite (login_then_delete_document (sample_env granting_service)
             (LoginInput.mk (Some "root") (Some "secret") (Some "http://other/api"))
             logged_out "root" "secret" "abc123"
             (mk_response 200 (Some "application/json")
                (inl (PDict [("Res", PStr "OK"); ("Token", PStr "abc123")])) "")
             [("Res", PStr "OK"); ("Token", PStr "abc123")]
             (DeleteDocumentInput.mk "16c7fa8b456"));
    first [reflexivity | discriminate].
Defined.

(** A search whose 2xx answer is not a JSON array, or is an empty one, is
    reported as a search that found nothing, whatever the answer says. *)
Theorem search_without_array_finds_nothing (env : environment) (params : SearchInput.t)
    (w : world) (token : string) (r : http_response) (v : pyval) :
  _auth_token w = PStr token -> token <> "" ->
  (forall req, remote env (sent w) req = Responded r) ->
  replies_json r v ->
  as_list v = [] ->
  fst (openprodoc_search_folders env params w) = "No folders found matching your query."
  /\ fst (openprodoc_search_documents env params w) = "No documents found matching your query."
  /\ fst (openprodoc_search_terms env params w) = "No terms found matching your query.".
Proof.
  intros Htok Hne Hremote Hreply Hlist.
  unfold openprodoc_search_folders, openprodoc_search_documents, openprodoc_search_terms.
  cbv zeta.
  rewrite !(one_request_json env _ _ _ _ _ _ w token r v Htok Hne Hremote Hreply)
    by reflexivity.
  rewrite Hlist. repeat split.
Qed.

Lemma search_without_array_finds_nothing_witness :
  fst (openprodoc_search_documents
         (sample_env (always (json_answer 200
            (PDict [("Res", PStr "KO"); ("Msg", PStr "Empty_conditions")]))))
         (SearchInput.mk "Select * from PD_DOCS" 0 100 JSON) logged_in)
  = "No documents found matching your query.".
Proof.
  refine (proj1 (proj2
            (search_without_array_finds_nothing
               (sample_env (always (json_answer 200
                  (PDict [("Res", PStr "KO"); ("Msg", PStr "Empty_conditions")]))))
               (SearchInput.mk "Select * from PD_DOCS" 0 100 JSON) logged_in "abc123"
               (mk_response 200 (Some "application/json")
                  (inl (PDict [("Res", PStr "KO"); ("Msg", PStr "Empty_conditions")])) "")
               (PDict [("Res", PStr "KO"); ("Msg", PStr "Empty_conditions")])
               _ _ _ _ _)));
    first [reflexivity | discriminate | (repeat split; reflexivity)].
Defined.

(** ** Uploads and document updates *)

(** An upload of a file that is not there answers the path it looked at and
    sends nothing, with or without a token: the file is read first. *)
Theorem upload_of_missing_file (env : environment) (params : UploadDocumentInput.t)
    (w : world) (msg : string) :
  read_file env (UploadDocumentInput.file_path params) = Raise (FileNotFoundError msg) ->
  openprodoc_upload_document env params w
  = ("Error: File not found at path: " ++ UploadDocumentInput.file_path params, w).
Proof.
  intros H. unfold openprodoc_upload_document, catching, bind, lift. now rewrite H.
Qed.

Lemma upload_of_missing_file_witness :
  openprodoc_upload_document (sample_env granting_service) report_pdf logged_in
  = ("Error: File not found at path: /tmp/report.pdf", logged_in).
Proof.
  apply (upload_of_missing_file (sample_env granting_service) report_pdf logged_in
           "/tmp/report.pdf").
  reflexivity.
Defined.

(** An upload that reads its file sends one multipart [POST] on [documents]:
    the file under [Binary] with its base name, the metadata as JSON under
    [Metadata] (the document date always among them), the token in the
    headers and no content type of its own. *)
Theorem upload_request (env : environment) (params : UploadDocumentInput.t)
    (w : world) (token file_content : string) :
  _auth_token w = PStr token -> token <> "" ->
  read_file env (UploadDocumentInput.file_path params) = Ok file_content ->
  has_bytes (upload_metadata params) = false ->
  sent (snd (openprodoc_upload_document env params w))
  = List.app (sent w)
      [mk_request "POST" (_base_url w ++ "/documents") (auth_headers token) None None
         (Some [("Binary",
                 (os_path_basename env (UploadDocumentInput.file_path params),
                  file_content))])
         (Some [("Metadata", json_dumps env (upload_metadata params))])]
  /\ Py.lookup (match upload_metadata params with PDict d => d | _ => [] end) "DocDate"
     = Some (PStr (UploadDocumentInput.doc_date params)).
Proof.
  intros Htok Hne Hread Hbytes. split; [|reflexivity].
  unfold openprodoc_upload_document.
  assert (forall body handler, (forall e w', snd (handler e w') = w') ->
            snd (catching body handler w) = snd (body w)) as Hcatch.
  { intros body handler Hh. unfold catching.
    destruct (body w) as [[s|e] w']; simpl; [reflexivity | apply Hh]. }
  rewrite Hcatch by (intros [] ?; reflexivity).
  unfold bind at 1. unfold lift at 1. rewrite Hread. cbv zeta.
  unfold bind at 1. unfold lift at 1. unfold dumps.
  fold (upload_metadata params). rewrite Hbytes.
  unfold bind at 1. rewrite (get_auth_headers_ok env w token Htok Hne).
  rewrite snd_bind_keeps by (intros; keeps).
  rewrite make_api_request_world by reflexivity. reflexivity.
Qed.

Lemma upload_request_witness :
  urls (snd (openprodoc_upload_document env_with_report report_pdf logged_in))
  = ["http://localhost:8080/ProdocWeb2/APIRest/documents"].
Proof.
  unfold urls.
  rewrite (proj1 (upload_request env_with_report report_pdf logged_in "abc123" "%PDF-1.4"
                    eq_refl ltac:(discriminate) eq_refl eq_refl)).
  reflexivity.
Defined.

(** A document update that names a file which is not there has fetched the
    stored metadata and stops there: it answers the path and sends no [PUT]. *)
Theorem update_document_of_missing_file (env : environment) (params : UpdateDocumentInput.t)
    (w : world) (token path msg : string) (r : http_response) (d : list (string * pyval)) :
  _auth_token w = PStr token -> token <> "" ->
  (forall req, remote env (sent w) req = Responded r) ->
  replies_json r (PDict d) -> d <> [] ->
  UpdateDocumentInput.file_path params = Some path -> path <> "" ->
  read_file env path = Raise (FileNotFoundError msg) ->
  openprodoc_update_document env params w
  = ("Error: File not found at path: " ++ path,
     record_request
       (mk_request "GET"
          (_base_url w ++ "/documents/ById/" ++ UpdateDocumentInput.document_id params)
          (auth_headers token) None None None None) w).
Proof.
  intros Htok Hne Hremote Hreply Hd Hpath Hpne Hread.
  unfold openprodoc_update_document, catching. unfold bind at 1.
  unfold _get_document_metadata_raw, try_except. unfold bind at 1.
  rewrite (get_auth_headers_ok env w token Htok Hne). unfold bind at 1.
  rewrite (make_api_request_json env _ "GET" _ _ _ _ _ w r _ Hremote Hreply)
    by reflexivity.
  cbv beta iota. unfold ret at 1. cbv beta iota.
  destruct d as [|kv d]; [contradiction|]. cbn [Py.truthy negb].
  unfold bind at 1. unfold lift at 1.
  unfold update_document_metadata. cbn [Py.get rbind]. cbv beta iota.
  rewrite Hpath, (is_set_some path Hpne). cbn [opt_str].
  destruct (update_document_fields params);
    unfold bind at 1; cbv beta;
    erewrite (get_auth_headers_ok env _ token) by first [exact Htok | exact Hne];
    cbv beta iota; unfold bind at 1; unfold bind at 1; unfold lift at 1;
    rewrite Hread; reflexivity.
Qed.

Lemma update_document_of_missing_file_witness :
  fst (openprodoc_update_document (sample_env (always (json_answer 200 stored_document)))
         new_version logged_in)
  = "Error: File not found at path: /tmp/missing.pdf".
Proof.
  refine (f_equal fst
            (update_document_of_missing_file
               (sample_env (always (json_answer 200 stored_document)))
               new_version logged_in "abc123" "/tmp/missing.pdf" "/tmp/missing.pdf"
               (mk_response 200 (Some "application/json") (inl stored_document) "")
               [("PDId", PStr "16c7fa8b456"); ("Title", PStr "Quarterly Report");
                ("Type", PStr "PD_DOCS"); ("ListAttr", PList [])]
               _ _ _ _ _ _ _ _));
    first [reflexivity | discriminate | (repeat split; reflexivity)].
Defined.

(** ** Request bodies *)

(** The parent of a new folder: the parent id when there is one, and then
    the parent path is not sent even if it was given; else the parent path;
    else the root folder.  The request is a [POST] on [folders] with a JSON
    content type; it is sent when the attributes hold no [bytes], which the
    debug log of the request could not serialise. *)
Theorem create_folder_parent (env : environment) (params : CreateFolderInput.t)
    (w : world) (token : string) :
  _auth_token w = PStr token -> token <> "" ->
  has_bytes (PList (match CreateFolderInput.attributes params with
                    | Some attributes => attributes
                    | None => []
                    end)) = false ->
  exists body,
    sent (snd (openprodoc_create_folder env params w))
    = List.app (sent w)
        [mk_request "POST" (_base_url w ++ "/folders")
           (set_header "Content-Type" "application/json" (auth_headers token))
           (Some (PDict body)) None None None]
    /\ (is_set (CreateFolderInput.parent_id params) = true ->
        Py.lookup body "Idparent" = Some (PStr (opt_str (CreateFolderInput.parent_id params)))
        /\ Py.lookup body "PathParent" = Some (PStr ""))
    /\ (is_set (CreateFolderInput.parent_id params) = false ->
        is_set (CreateFolderInput.parent_path params) = true ->
        Py.lookup body "Idparent" = Some (PStr "")
        /\ Py.lookup body "PathParent"
           = Some (PStr (opt_str (CreateFolderInput.parent_path params))))
    /\ (is_set (CreateFolderInput.parent_id params) = false ->
        is_set (CreateFolderInput.parent_path params) = false ->
        Py.lookup body "Idparent" = Some (PStr "RootFolder")
        /\ Py.lookup body "PathParent" = Some (PStr "")).
Proof.
  intros Htok Hne Hbytes. eexists. split.
  - unfold openprodoc_create_folder. cbv zeta. rewrite snd_catching_report.
    rewrite (one_request_world env "folders" "POST"
               (set_header "Content-Type" "application/json") _ None _ w token Htok Hne).
    + reflexivity.
    + intros; keeps.
    + unfold serialisable.
      destruct (CreateFolderInput.attributes params) as [[|a rest]|];
        destruct (is_set (CreateFolderInput.parent_id params));
        destruct (is_set (CreateFolderInput.parent_path params));
        cbn in *; rewrite ?Hbytes; reflexivity.
  - destruct (is_set (CreateFolderInput.parent_id params));
      destruct (is_set (CreateFolderInput.parent_path params));
      repeat split; intros; try discriminate; reflexivity.
Qed.

Lemma create_folder_parent_witness :
  exists body,
    sent (snd (openprodoc_create_folder (sample_env granting_service) new_folder logged_in))
    = [mk_request "POST" "http://localhost:8080/ProdocWeb2/APIRest/folders"
         [("Authorization", "Bearer abc123"); ("Accept", "application/json");
          ("Content-Type", "application/json")]
         (Some (PDict body)) None None None]
    /\ Py.lookup body "Idparent" = Some (PStr "RootFolder").
Proof.
  destruct (create_folder_parent (sample_env granting_service) new_folder logged_in "abc123"
              eq_refl ltac:(discriminate) eq_refl) as (body & Hsent & _ & _ & Hroot).
  exists body. split; [exact Hsent | apply Hroot; reflexivity].
Defined.

Lemma update_folder_body_keys (p : UpdateFolderInput.t) :
  NoDup (map fst (fst (update_folder_body p)))
  /\ forall key,
       Py.lookup (fst (update_folder_body p)) key
       = if String.eqb key "Name" then option_map PStr (UpdateFolderInput.name p)
         else if String.eqb key "ACL" then option_map PStr (UpdateFolderInput.acl p)
         else if String.eqb key "ListAttr"
              then option_map PList (UpdateFolderInput.attributes p)
              else None.
Proof.
  unfold update_folder_body, supplied.
  destruct (UpdateFolderInput.name p), (UpdateFolderInput.acl p),
    (UpdateFolderInput.attributes p); cbn [fst List.app map Py.lookup option_map];
    (split;
     [ repeat (apply NoDup_cons; [cbn [In]; intuition discriminate|]); apply NoDup_nil
     | intros key; rewrite ?(String.eqb_sym _ key);
       destruct (String.eqb_spec key "Name") as [->|_]; [reflexivity|];
       destruct (String.eqb_spec key "ACL") as [->|_]; [reflexivity|];
       destruct (String.eqb_spec key "ListAttr") as [->|_]; reflexivity ]).
Qed.

Lemma update_term_body_keys (p : UpdateTermInput.t) :
  NoDup (map fst (fst (update_term_body p)))
  /\ forall key,
       Py.lookup (fst (update_term_body p)) key
       = if String.eqb key "Name" then option_map PStr (UpdateTermInput.name p)
         else if String.eqb key "Descrip"
              then option_map PStr (UpdateTermInput.description p)
         else if String.eqb key "Lang" then option_map PStr (UpdateTermInput.language p)
         else if String.eqb key "SCN" then option_map PStr (UpdateTermInput.scope_note p)
         else None.
Proof.
  unfold update_term_body, supplied.
  destruct (UpdateTermInput.name p), (UpdateTermInput.description p),
    (UpdateTermInput.language p), (UpdateTermInput.scope_note p);
    cbn [fst List.app map Py.lookup option_map];
    (split;
     [ repeat (apply NoDup_cons; [cbn [In]; intuition discriminate|]); apply NoDup_nil
     | intros key; rewrite ?(String.eqb_sym _ key);
       destruct (String.eqb_spec key "Name") as [->|_]; [reflexivity|];
       destruct (String.eqb_spec key "Descrip") as [->|_]; [reflexivity|];
       destruct (String.eqb_spec key "Lang") as [->|_]; [reflexivity|];
       destruct (String.eqb_spec key "SCN") as [->|_]; reflexivity ]).
Qed.

Lemma update_term_body_strings (p : UpdateTermInput.t) :
  has_bytes (PDict (fst (update_term_body p))) = false.
Proof.
  unfold update_term_body, supplied.
  destruct (UpdateTermInput.name p), (UpdateTermInput.description p),
    (UpdateTermInput.language p), (UpdateTermInput.scope_note p); reflexivity.
Qed.

(** The request of a partial update.  A folder update that supplies a field
    and an identifier, and whose attributes hold no [bytes], and a term update
    that supplies a field, each send one [PUT] whose JSON body has exactly the
    keys of the fields that the caller supplied, each once and with the value
    supplied (an empty string included): a field left out is not in the body
    and no other key is. *)
Theorem partial_update_requests (env : environment) (w : world) (token : string) :
  _auth_token w = PStr token -> token <> "" ->
  (forall (p : UpdateFolderInput.t) (endpoint : string),
      (UpdateFolderInput.name p, UpdateFolderInput.acl p, UpdateFolderInput.attributes p)
      <> (None, None, None) ->
      update_folder_endpoint p = Endpoint endpoint ->
      has_bytes (PList (match UpdateFolderInput.attributes p with
                        | Some attributes => attributes
                        | None => []
                        end)) = false ->
      exists body,
        sent (snd (openprodoc_update_folder env p w))
        = List.app (sent w)
            [mk_request "PUT" (_base_url w ++ "/" ++ endpoint)
               (set_header "Content-Type" "application/json" (auth_headers token))
               (Some (PDict body)) None None None]
        /\ NoDup (map fst body)
        /\ forall key,
             Py.lookup body key
             = if String.eqb key "Name" then option_map PStr (UpdateFolderInput.name p)
               else if String.eqb key "ACL" then option_map PStr (UpdateFolderInput.acl p)
               else if String.eqb key "ListAttr"
                    then option_map PList (UpdateFolderInput.attributes p)
                    else None)
  /\ (forall p : UpdateTermInput.t,
         (UpdateTermInput.name p, UpdateTermInput.description p,
          UpdateTermInput.language p, UpdateTermInput.scope_note p)
         <> (None, None, None, None) ->
         exists body,
           sent (snd (openprodoc_update_term env p w))
           = List.app (sent w)
               [mk_request "PUT"
                  (_base_url w ++ "/thesauri/ById/" ++ UpdateTermInput.term_id p)
                  (set_header "Content-Type" "application/json" (auth_headers token))
                  (Some (PDict body)) None None None]
           /\ NoDup (map fst body)
           /\ forall key,
                Py.lookup body key
                = if String.eqb key "Name" then option_map PStr (UpdateTermInput.name p)
                  else if String.eqb key "Descrip"
                       then option_map PStr (UpdateTermInput.description p)
                  else if String.eqb key "Lang"
                       then option_map PStr (UpdateTermInput.language p)
                  else if String.eqb key "SCN"
                       then option_map PStr (UpdateTermInput.scope_note p)
                  else None).
Proof.
  intros Htok Hne. split.
  - intros p endpoint Hsome He Hbytes.
    exists (fst (update_folder_body p)).
    split; [|apply update_folder_body_keys].
    rewrite (update_folder_request env p endpoint token w); auto.
    + unfold update_folder_body, supplied.
      destruct (UpdateFolderInput.name p), (UpdateFolderInput.acl p),
        (UpdateFolderInput.attributes p); try discriminate. now elim Hsome.
    + unfold update_folder_body, supplied.
      destruct (UpdateFolderInput.name p), (UpdateFolderInput.acl p),
        (UpdateFolderInput.attributes p); cbn in *; rewrite ?Hbytes; reflexivity.
  - intros p Hsome.
    exists (fst (update_term_body p)).
    split; [|apply update_term_body_keys].
    pose proof (update_term_body_strings p) as Hbytes.
    unfold openprodoc_update_term. rewrite snd_catching_report.
    destruct (update_term_body p) as [body fields] eqn:Hb. cbn [fst] in *.
    destruct body as [|b body].
    + exfalso. apply Hsome. unfold update_term_body, supplied in Hb.
      destruct (UpdateTermInput.name p), (UpdateTermInput.description p),
        (UpdateTermInput.language p), (UpdateTermInput.scope_note p);
        try discriminate Hb. reflexivity.
    + cbv zeta.
      rewrite (one_request_world env _ "PUT"
                 (set_header "Content-Type" "application/json")
                 (Some (PDict (b :: body))) None _ w token Htok Hne).
      * reflexivity.
      * intros; keeps.
      * unfold serialisable. now rewrite Hbytes.
Qed.

Lemma partial_update_requests_witness :
  exists body,
    sent (snd (openprodoc_update_folder (sample_env granting_service)
                 (UpdateFolderInput.mk (Some "16cdeb939d9") None None (Some "") None MARKDOWN)
                 logged_in))
    = [mk_request "PUT" "http://localhost:8080/ProdocWeb2/APIRest/folders/ById/16cdeb939d9"
         [("Authorization", "Bearer abc123"); ("Accept", "application/json");
          ("Content-Type", "application/json")]
         (Some (PDict body)) None None None]
    /\ Py.lookup body "ACL" = Some (PStr "")
    /\ Py.lookup body "Name" = None.
Proof.
  destruct (proj1 (partial_update_requests (sample_env granting_service) logged_in "abc123"
                     eq_refl ltac:(discriminate))
              (UpdateFolderInput.mk (Some "16cdeb939d9") None None (Some "") None MARKDOWN)
              "folders/ById/16cdeb939d9" ltac:(discriminate) eq_refl eq_refl)
    as (body & Hsent & _ & Hkeys).
  exists body. split; [exact Hsent|]. split; apply Hkeys.
Defined.

Lemma one_request_unserialisable_answer (env : environment) (endpoint method : string)
    (amend : list (string * string) -> list (string * string))
    json_data params (tail : pyval -> M string) (w : world) (token : string) :
  _auth_token w = PStr token -> token <> "" ->
  serialisable json_data = false ->
  catching
    (bind (_get_auth_headers env)
       (fun headers =>
          bind (_make_api_request env endpoint method (Some (amend headers))
                  json_data params None None) tail))
    (report_error env) w
  = (not_serializable, w).
Proof.
  intros Htok Hne Hbody. unfold catching. unfold bind at 1.
  rewrite (get_auth_headers_ok env w token Htok Hne). unfold bind.
  now rewrite (make_api_request_unserialisable env _ _ _ _ _ _ _ w Hbody).
Qed.

(** Attributes that hold [bytes] stop a folder creation and a folder update
    before the request: the body cannot be serialised for the debug log of
    [_make_api_request], the tool answers the [TypeError] of [json.dumps] and
    nothing is sent, even with a token and a service that would accept. *)
Theorem attributes_with_bytes_are_not_sent (env : environment) (w : world) (token : string)
    (attributes : list pyval) :
  _auth_token w = PStr token -> token <> "" ->
  has_bytes (PList attributes) = true ->
  (forall name folder_type parent_id parent_path acl fmt,
      openprodoc_create_folder env
        (CreateFolderInput.mk name folder_type parent_id parent_path acl
                              (Some attributes) fmt) w
      = (not_serializable, w))
  /\ (forall id path name acl fmt,
         is_set id || is_set path = true ->
         openprodoc_update_folder env
           (UpdateFolderInput.mk id path name acl (Some attributes) fmt) w
         = (not_serializable, w)).
Proof.
  intros Htok Hne Hbytes. split; intros.
  - unfold openprodoc_create_folder. cbv zeta.
    apply one_request_unserialisable_answer with (token := token); auto.
    unfold serialisable. cbn [CreateFolderInput.attributes].
    destruct attributes as [|a rest]; [discriminate Hbytes|].
    destruct (is_set _); [|destruct (is_set _)]; cbn in *; now rewrite Hbytes.
  - unfold openprodoc_update_folder, update_folder_endpoint, update_folder_body, supplied.
    cbn [UpdateFolderInput.folder_id UpdateFolderInput.folder_path UpdateFolderInput.name
         UpdateFolderInput.acl UpdateFolderInput.attributes].
    assert (forall body, has_bytes (PDict (List.app body [("ListAttr", PList attributes)]))
                         = true) as Hlast.
    { intros body. cbn [has_bytes]. rewrite existsb_app. cbn [existsb snd orb].
      change (existsb has_bytes attributes) with (has_bytes (PList attributes)).
      rewrite Hbytes. now rewrite orb_true_r. }
    destruct name as [name|], acl as [acl|]; cbn [fst snd List.app];
      (destruct (is_set id); [|destruct (is_set path); [|discriminate]]);
      cbv zeta;
      (apply one_request_unserialisable_answer with (token := token); auto;
       unfold serialisable; cbn [Py.truthy];
       match goal with
       | |- context [has_bytes (PDict ?body)] =>
           assert (has_bytes (PDict body) = true) as ->
             by first [ exact (Hlast [("Name", PStr name); ("ACL", PStr acl)])
                      | exact (Hlast [("Name", PStr name)])
                      | exact (Hlast [("ACL", PStr acl)])
                      | exact (Hlast []) ]
       end; reflexivity).
Qed.

Lemma attributes_with_bytes_are_not_sent_witness :
  openprodoc_create_folder (sample_env granting_service) folder_with_bytes logged_in
  = (not_serializable, logged_in).
Proof.
  refine (proj1 (attributes_with_bytes_are_not_sent (sample_env granting_service) logged_in
                   "abc123"
                   [PDict [("Name", PStr "Logo"); ("Type", PStr "String");
                           ("Values", PList [PBytes "GIF89a"])]] _ _ _)
            "Projects" "PD_FOLDERS" None None "Public" MARKDOWN);
    first [reflexivity | discriminate].
Defined.

(** ** Truncation keeps a prefix *)

Lemma join_firstn_prefix (sep : string) (k : nat) (parts : list string) :
  exists rest,
    PyString.join sep parts = PyString.join sep (firstn k parts) ++ rest.
Proof.
  unfold PyString.join. revert k.
  induction parts as [|x xs IH]; intros k.
  - rewrite firstn_nil. now exists "".
  - destruct k as [|k]; [now eexists|].
    cbn [firstn]. destruct xs as [|y ys].
    + rewrite firstn_nil. exists "". cbn [String.concat].
      clear. induction x as [|a x IHx]; [reflexivity | cbn [append]; now rewrite <- IHx].
    + destruct (IH k) as [rest Hrest].
      destruct (firstn k (y :: ys)) as [|z kept] eqn:Hk.
      * eexists. cbn [String.concat]. reflexivity.
      * exists rest.
        change (String.concat sep (x :: y :: ys))
          with (x ++ sep ++ String.concat sep (y :: ys)).
        change (String.concat sep (x :: z :: kept))
          with (x ++ sep ++ String.concat sep (z :: kept)).
        rewrite Hrest, !append_assoc. reflexivity.
Qed.

(** What comes back for a report over the budget is a prefix of the report
    followed by the notice: nothing is reordered or rewritten, only a tail of
    the report is dropped. *)
Theorem check_truncation_keeps_prefix
    (result : string) (data : list pyval) (item_type : string) :
  (Z.of_nat (String.length result) > CHARACTER_LIMIT)%Z ->
  exists kept dropped,
    result = kept ++ dropped
    /\ _check_truncation result data item_type = kept ++ truncation_msg data item_type.
Proof.
  intros H. unfold _check_truncation.
  destruct (Z.gtb_spec (Z.of_nat (String.length result)) CHARACTER_LIMIT) as [_|Hle]; [|lia].
  destruct (join_firstn_prefix PyString.LF
              (List.length (PyString.split "010"%char result) / 2)
              (PyString.split "010"%char result)) as [rest Hrest].
  eexists. exists rest. split; [|reflexivity].
  rewrite <- Hrest. change PyString.LF with (String "010"%char EmptyString).
  now rewrite join_split.
Qed.

Lemma check_truncation_keeps_prefix_witness :
  exists kept dropped,
    long_report = kept ++ dropped
    /\ _check_truncation long_report two_folders "folders"
       = kept ++ truncation_msg two_folders "folders".
Proof.
  apply (check_truncation_keeps_prefix long_report two_folders "folders").
  vm_compute. reflexivity.
Defined.

(** ** Listings of well-formed records *)

Lemma extract_attr_value_ok (env : environment) (v : pyval) (f default : string) :
  is_record v = true -> exists x, _extract_attr_value env v f default = Ok x.
Proof.
  intros H. destruct v as [| | | | | |d]; try discriminate H.
  unfold is_record in H. apply andb_prop in H as [Hattrs _].
  unfold _extract_attr_value. cbn [Py.contains Py.get rbind].
  destruct (Py.has_key d f); [eexists; reflexivity|].
  destruct (Py.dict_get d "Attrs" (PList [])) as [| | | | |entries|]; try discriminate Hattrs.
  cbn [Py.iter rbind]. rewrite (scan_attrs_first_named entries f default Hattrs).
  eexists; reflexivity.
Qed.

Lemma list_attr_line_ok (v : pyval) :
  is_record v = true ->
  exists l, Py.get v "ListAttr" (PList []) = Ok (PList l).
Proof.
  intros H. destruct v as [| | | | | |d]; try discriminate H.
  unfold is_record in H. apply andb_prop in H as [_ Hlist]. cbn [Py.get].
  destruct (Py.dict_get d "ListAttr" (PList [])) as [| | | | |l|]; try discriminate Hlist.
  now exists l.
Qed.

Lemma mapM_ok {A B : Type} (f : A -> result B) (ok : A -> bool) (xs : list A) :
  (forall x, ok x = true -> exists y, f x = Ok y) ->
  forallb ok xs = true -> exists ys, mapM f xs = Ok ys.
Proof.
  intros Hf. induction xs as [|x xs IH]; intros H.
  - now exists [].
  - cbn [forallb] in H. apply andb_prop in H as [Hx Hxs].
    destruct (Hf x Hx) as [y Hy]. destruct (IH Hxs) as [ys Hys].
    exists (y :: ys). cbn [mapM]. now rewrite Hy, Hys.
Qed.

(** Rewrites the extractions of a well-formed record into their values. *)
Ltac extract_all env v H :=
  repeat match goal with
         | |- context [_extract_attr_value env v ?f ?dflt] =>
             let x := fresh "x" in
             let E := fresh "E" in
             destruct (extract_attr_value_ok env v f dflt H) as [x E];
             rewrite E; cbn [rbind]
         end.

Lemma folder_item_lines_ok (env : environment) (v : pyval) :
  is_record v = true -> exists ls, folder_item_lines env v = Ok ls.
Proof.
  intros H. unfold folder_item_lines. extract_all env v H.
  destruct (list_attr_line_ok v H) as [l ->]. cbn [rbind].
  destruct l; eexists; reflexivity.
Qed.

Lemma document_item_lines_ok (env : environment) (v : pyval) :
  is_record v = true -> exists ls, document_item_lines env v = Ok ls.
Proof.
  intros H. unfold document_item_lines. extract_all env v H.
  destruct (list_attr_line_ok v H) as [l ->]. cbn [rbind].
  destruct l; eexists; reflexivity.
Qed.

Lemma term_item_lines_ok (env : environment) (v : pyval) :
  is_record v = true -> exists ls, term_item_lines env v = Ok ls.
Proof.
  intros H. unfold term_item_lines. extract_all env v H.
  eexists; reflexivity.
Qed.

(** A listing of well-formed records always renders: none of the three list
    formatters raises on it. *)
Theorem listings_of_records_render (env : environment) (items : list pyval)
    (total : option Z) :
  forallb is_record items = true ->
  (exists report, _format_folders_list_markdown env items total = Ok report)
  /\ (exists report, _format_documents_list_markdown env items total = Ok report)
  /\ (exists report, _format_terms_list_markdown env items total = Ok report).
Proof.
  intros H.
  unfold _format_folders_list_markdown, _format_documents_list_markdown,
    _format_terms_list_markdown.
  destruct items as [|item items]; [repeat split; eexists; reflexivity|].
  destruct (mapM_ok (folder_item_lines env) is_record (item :: items)
              (folder_item_lines_ok env) H) as [fs ->].
  destruct (mapM_ok (document_item_lines env) is_record (item :: items)
              (document_item_lines_ok env) H) as [ds ->].
  destruct (mapM_ok (term_item_lines env) is_record (item :: items)
              (term_item_lines_ok env) H) as [ts ->].
  repeat split; eexists; reflexivity.
Qed.

Lemma listings_of_records_render_witness :
  exists report,
    _format_documents_list_markdown (sample_env granting_service)
      [PDict search_hit; PDict fetched_folder] None = Ok report.
Proof.
  apply (listings_of_records_render (sample_env granting_service)
           [PDict search_hit; PDict fetched_folder] None).
  reflexivity.
Defined.

(** ** Listings through the tools *)

Lemma has_bytes_as_list (v : pyval) :
  has_bytes v = false -> has_bytes (PList (as_list v)) = false.
Proof.
  destruct v; intros H; try reflexivity. exact H.
Qed.

(** In JSON format a listing comes back whole, however long it is and
    whether the folder is named by its id or by its path: the answer is the
    serialisation of the count, the window and all the items that the service
    returned, and the count is the number of those items. *)
Theorem json_listing_is_whole (env : environment) (w : world) (token : string)
    (r : http_response) (v : pyval)
    (folders : ListSubfoldersInput.t) (documents : ListDocumentsInput.t)
    (terms : ListSubtermsInput.t) :
  _auth_token w = PStr token -> token <> "" ->
  (forall req, remote env (sent w) req = Responded r) ->
  replies_json r v -> has_bytes v = false ->
  (is_set (ListSubfoldersInput.folder_id folders)
   || is_set (ListSubfoldersInput.folder_path folders) = true ->
   ListSubfoldersInput.response_format folders = JSON ->
   fst (openprodoc_list_subfolders env folders w)
   = json_dumps_indent2 env
       (PDict [("count", PInt (Z.of_nat (List.length (as_list v))));
               ("initial", PInt (ListSubfoldersInput.initial folders));
               ("final", PInt (ListSubfoldersInput.final folders));
               ("folders", PList (as_list v))]))
  /\ (is_set (ListDocumentsInput.folder_id documents)
      || is_set (ListDocumentsInput.folder_path documents) = true ->
      ListDocumentsInput.response_format documents = JSON ->
      fst (openprodoc_list_documents_in_folder env documents w)
      = json_dumps_indent2 env
          (PDict [("count", PInt (Z.of_nat (List.length (as_list v))));
                  ("initial", PInt (ListDocumentsInput.initial documents));
                  ("final", PInt (ListDocumentsInput.final documents));
                  ("documents", PList (as_list v))]))
  /\ (ListSubtermsInput.response_format terms = JSON ->
      fst (openprodoc_list_subterms env terms w)
      = json_dumps_indent2 env
          (PDict [("count", PInt (Z.of_nat (List.length (as_list v))));
                  ("parent_term_id", PStr (ListSubtermsInput.parent_term_id terms));
                  ("initial", PInt (ListSubtermsInput.initial terms));
                  ("final", PInt (ListSubtermsInput.final terms));
                  ("terms", PList (as_list v))])).
Proof.
  intros Htok Hne Hremote Hreply Hbytes.
  pose proof (has_bytes_as_list v Hbytes) as Hlist.
  split; [|split].
  - intros Hep Hfmt. unfold openprodoc_list_subfolders.
    destruct (list_subfolders_endpoint folders) as [endpoint|answer] eqn:He.
    + cbv zeta.
      rewrite (one_request_json env _ _ (fun h => h) _ _ _ w token r v
                 Htok Hne Hremote Hreply)
    by reflexivity.
      rewrite Hfmt. unfold catching, lift, dumps_indent2.
      simpl has_bytes in *. now rewrite Hlist.
    + exfalso. unfold list_subfolders_endpoint in He.
      destruct (is_set (ListSubfoldersInput.folder_id folders)); [discriminate|].
      destruct (is_set (ListSubfoldersInput.folder_path folders)); discriminate.
  - intros Hep Hfmt. unfold openprodoc_list_documents_in_folder.
    destruct (list_documents_endpoint documents) as [endpoint|answer] eqn:He.
    + cbv zeta.
      rewrite (one_request_json env _ _ (fun h => h) _ _ _ w token r v
                 Htok Hne Hremote Hreply)
    by reflexivity.
      rewrite Hfmt. unfold catching, lift, dumps_indent2.
      simpl has_bytes in *. now rewrite Hlist.
    + exfalso. unfold list_documents_endpoint in He.
      destruct (is_set (ListDocumentsInput.folder_id documents)); [discriminate|].
      destruct (is_set (ListDocumentsInput.folder_path documents)); discriminate.
  - intros Hfmt. unfold openprodoc_list_subterms. cbv zeta.
    rewrite (one_request_json env _ _ (fun h => h) _ _ _ w token r v
               Htok Hne Hremote Hreply)
    by reflexivity.
    rewrite Hfmt. unfold catching, lift, dumps_indent2.
    simpl has_bytes in *. now rewrite Hlist.
Qed.

Lemma json_listing_is_whole_witness :
  fst (openprodoc_list_subfolders
         (sample_env (always (json_answer 200 (PList [PDict search_hit]))))
         (ListSubfoldersInput.mk None (Some "/Projects") 0 200 JSON) logged_in)
  = "".
Proof.
  refine (proj1 (json_listing_is_whole
                   (sample_env (always (json_answer 200 (PList [PDict search_hit]))))
                   logged_in "abc123"
                   (mk_response 200 (Some "application/json")
                      (inl (PList [PDict search_hit])) "")
                   (PList [PDict search_hit])
                   (ListSubfoldersInput.mk None (Some "/Projects") 0 200 JSON)
                   (ListDocumentsInput.mk None (Some "/Projects") 0 200 JSON)
                   (ListSubtermsInput.mk "88888" 0 200 JSON) _ _ _ _ _) _ _);
    first [reflexivity | discriminate | (repeat split; reflexivity)].
Defined.

Lemma truncation_msg_names_total (data : list pyval) (item_type : string) :
  exists before after,
    truncation_msg data item_type
    = before ++ (" of " ++ PyString.of_nat (List.length data) ++ " " ++ item_type) ++ after.
Proof.
  unfold truncation_msg.
  exists (PyString.LF ++ PyString.LF ++ "---" ++ PyString.LF
          ++ "**TRUNCATED**: Response too large. "
          ++ "Showing approximately "
          ++ PyString.of_nat (Nat.max 1 (List.length data / 2))).
  eexists. rewrite !append_assoc. reflexivity.
Qed.

Lemma long_report_renders (env : environment) :
  _format_folders_list_markdown env two_folders None = Ok long_report.
Proof.
  assert (H : match _format_folders_list_markdown env two_folders None with
              | Ok report => String.eqb report long_report
              | Raise _ => false
              end = true) by (vm_compute; reflexivity).
  destruct (_format_folders_list_markdown env two_folders None) as [report|e];
    [|discriminate H].
  apply String.eqb_eq in H. now subst report.
Qed.

(** In markdown a listing of subfolders that renders over the budget comes
    back with the notice: it says [TRUNCATED] and names the number of folders
    that the service returned. *)
Theorem long_listing_carries_notice (env : environment)
    (params : ListSubfoldersInput.t) (w : world) (token : string)
    (r : http_response) (v : pyval) (report : string) :
  _auth_token w = PStr token -> token <> "" ->
  (forall req, remote env (sent w) req = Responded r) ->
  replies_json r v ->
  is_set (ListSubfoldersInput.folder_id params)
  || is_set (ListSubfoldersInput.folder_path params) = true ->
  ListSubfoldersInput.response_format params = MARKDOWN ->
  _format_folders_list_markdown env (as_list v) None = Ok report ->
  (Z.of_nat (String.length report) > CHARACTER_LIMIT)%Z ->
  occurs_in "TRUNCATED" (fst (openprodoc_list_subfolders env params w))
  /\ occurs_in (" of " ++ PyString.of_nat (List.length (as_list v)) ++ " folders")
       (fst (openprodoc_list_subfolders env params w)).
Proof.
  intros Htok Hne Hremote Hreply Hep Hfmt Hreport Hlong.
  assert (fst (openprodoc_list_subfolders env params w)
          = _check_truncation report (as_list v) "folders") as ->.
  { unfold openprodoc_list_subfolders.
    destruct (list_subfolders_endpoint params) as [endpoint|answer] eqn:He.
    - cbv zeta.
      rewrite (one_request_json env _ _ (fun h => h) _ _ _ w token r v
                 Htok Hne Hremote Hreply)
    by reflexivity.
      rewrite Hfmt. unfold catching, bind, lift, ret. now rewrite Hreport.
    - exfalso. unfold list_subfolders_endpoint in He.
      destruct (is_set (ListSubfoldersInput.folder_id params)); [discriminate|].
      destruct (is_set (ListSubfoldersInput.folder_path params)); discriminate. }
  unfold _check_truncation.
  destruct (Z.gtb_spec (Z.of_nat (String.length report)) CHARACTER_LIMIT) as [_|Hle]; [|lia].
  split.
  - destruct (truncation_msg_has_notice (as_list v) "folders") as [after Hmsg].
    rewrite Hmsg. unfold occurs_in. eexists. exists after.
    rewrite <- !append_assoc. reflexivity.
  - destruct (truncation_msg_names_total (as_list v) "folders") as (before & after & Hmsg).
    rewrite Hmsg. unfold occurs_in.
    match goal with
    | |- exists b a, ?kept ++ _ = _ => exists (kept ++ before)
    end.
    exists after. rewrite !append_assoc. reflexivity.
Qed.

Lemma long_listing_carries_notice_witness :
  occurs_in "TRUNCATED"
    (fst (openprodoc_list_subfolders
            (sample_env (always (json_answer 200 (PList two_folders))))
            (ListSubfoldersInput.mk (Some "16cdeb939d9") None 0 200 MARKDOWN) logged_in)).
Proof.
  refine (proj1 (long_listing_carries_notice
                   (sample_env (always (json_answer 200 (PList two_folders))))
                   (ListSubfoldersInput.mk (Some "16cdeb939d9") None 0 200 MARKDOWN)
                   logged_in "abc123"
                   (mk_response 200 (Some "application/json") (inl (PList two_folders)) "")
                   (PList two_folders) long_report _ _ _ _ _ _ _ _));
    first [reflexivity | discriminate | (repeat split; reflexivity)
          | (vm_compute; reflexivity) | apply long_report_renders].
Defined.

(** ** Paths *)

(** The normalisation of a path ends with the separator, is idempotent, and
    either leaves the path as it is or appends exactly the separator. *)
Theorem trailing_slash_normal_form (path : string) :
  PyString.endswith (with_trailing_slash path) "/" = true
  /\ with_trailing_slash (with_trailing_slash path) = with_trailing_slash path
  /\ (with_trailing_slash path = path \/ with_trailing_slash path = path ++ "/").
Proof.
  pose proof (with_trailing_slash_ends path) as H.
  repeat split.
  - exact H.
  - unfold with_trailing_slash at 1. now rewrite H.
  - unfold with_trailing_slash. destruct (PyString.endswith path "/"); auto.
Qed.

(** ** Errors of the transport *)

Lemma make_api_request_raises (env : environment) (endpoint method : string)
    headers json_data params files data (w : world) (o : http_outcome) (e : exn) :
  (forall req, remote env (sent w) req = o) ->
  transport_error o = Some e ->
  serialisable json_data = true ->
  _make_api_request env endpoint method headers json_data params files data w
  = (Raise e,
     record_request
       (mk_request method (_base_url w ++ "/" ++ endpoint) (request_headers_of headers)
                   json_data params files data) w).
Proof.
  intros Hremote He Hbody.
  unfold _make_api_request, bind, get_world, client_request, lift, request_headers_of.
  rewrite (debug_json_data_ok env json_data Hbody), Hremote.
  destruct o as [r|e']; cbn [transport_error] in He.
  - destruct (raise_for_status r) as [u|e']; [discriminate|]. now inversion He.
  - now inversion He.
Qed.

(** A tool that gets the headers and sends one request: when the transport
    raises, either nothing was sent (no headers, or a body that the debug log
    cannot serialise) or the answer is the message for what was raised. *)
Lemma one_request_raises (env : environment) (endpoint method : string)
    (amend : list (string * string) -> list (string * string))
    json_data params (tail : pyval -> M string) (w : world)
    (o : http_outcome) (e : exn) :
  (forall req, remote env (sent w) req = o) ->
  transport_error o = Some e ->
  sent (snd (catching
               (bind (_get_auth_headers env)
                  (fun headers =>
                     bind (_make_api_request env endpoint method (Some (amend headers))
                             json_data params None None) tail))
               (report_error env) w))
  = sent w
  \/ fst (catching
            (bind (_get_auth_headers env)
               (fun headers =>
                  bind (_make_api_request env endpoint method (Some (amend headers))
                          json_data params None None) tail))
            (report_error env) w)
     = _handle_api_error env e.
Proof.
  intros Hremote He.
  pose proof (get_auth_headers_world env w) as Hw.
  destruct (_get_auth_headers env w) as [[headers|e'] w1] eqn:Hh; cbn [snd] in Hw; subst w1.
  - destruct (serialisable json_data) eqn:Hbody.
    + right. unfold catching. unfold bind at 1. rewrite Hh. unfold bind at 1.
      rewrite (make_api_request_raises env endpoint method _ _ _ _ _ w o e Hremote He Hbody).
      reflexivity.
    + left. unfold catching. unfold bind at 1. rewrite Hh. unfold bind at 1.
      rewrite (make_api_request_unserialisable env endpoint method _ _ _ _ _ w Hbody).
      reflexivity.
  - left. unfold catching. unfold bind at 1. rewrite Hh. reflexivity.
Qed.

Lemma bind_lift_ok {A B : Type} (a : A) (k : A -> M B) (w : world) :
  bind (lift (Ok a)) k w = k a w.
Proof. reflexivity. Qed.

Lemma call_reports_transport_error (env : environment) (i : invocation) (w : world)
    (o : http_outcome) (e : exn) :
  is_update_document i = false ->
  (forall req, remote env (sent w) req = o) ->
  transport_error o = Some e -> is_file_not_found e = false ->
  sent (snd (call env i w)) = sent w
  \/ fst (call env i w) = _handle_api_error env e.
Proof.
  intros Hi Hremote He Hfile.
  destruct i as [p| |p|p|p|p|p|p|p|p|p|p|p|p|p|p|p|p|p|p];
    try discriminate Hi; clear Hi; cbn [call].
  - (* login *)
    unfold openprodoc_login, catching, bind, get_world, modify, client_request, lift, ret.
    destruct (negb _ || negb _); [left; reflexivity|]. right.
    cbn [sent set_base_url]. rewrite Hremote.
    destruct o as [r|e']; cbn [transport_error] in He.
    + unfold raise_for_status in *.
      destruct ((200 <=? status_code r)%Z && (status_code r <=? 299)%Z);
        [discriminate|]. now inversion He.
    + now inversion He.
  - (* logout *)
    pose proof (get_auth_headers_world env w) as Hw.
    destruct (negb (Py.truthy (_auth_token w))) eqn:Ht.
    { left. unfold openprodoc_logout, catching. unfold bind at 1. unfold get_world.
      now rewrite Ht. }
    destruct (_get_auth_headers env w) as [[headers|e'] w1] eqn:Hh; cbn [snd] in Hw; subst w1.
    + right. unfold openprodoc_logout, catching. unfold bind at 1. unfold get_world.
      rewrite Ht. unfold bind at 1. rewrite Hh. unfold bind at 1.
      rewrite (make_api_request_raises env "session" "DELETE" _ _ _ _ _ w o e Hremote He)
        by reflexivity.
      reflexivity.
    + left. unfold openprodoc_logout, catching. unfold bind at 1. unfold get_world.
      rewrite Ht. unfold bind at 1. now rewrite Hh.
  - unfold openprodoc_create_folder. cbv zeta.
    now apply one_request_raises with (o := o).
  - unfold openprodoc_get_folder, get_folder_endpoint.
    destruct (is_set (GetFolderInput.folder_id p));
      [|destruct (is_set (GetFolderInput.folder_path p)); [|left; reflexivity]];
      now apply (one_request_raises env _ _ (fun h => h)) with (o := o).
  - unfold openprodoc_update_folder, update_folder_endpoint.
    destruct (update_folder_body p) as [[|field body] updated_fields]; [left; reflexivity|].
    destruct (is_set (UpdateFolderInput.folder_id p));
      [|destruct (is_set (UpdateFolderInput.folder_path p)); [|left; reflexivity]];
      cbv zeta; now apply one_request_raises with (o := o).
  - unfold openprodoc_delete_folder, delete_folder_endpoint.
    destruct (is_set (DeleteFolderInput.folder_id p));
      [|destruct (is_set (DeleteFolderInput.folder_path p)); [|left; reflexivity]];
      now apply (one_request_raises env _ _ (fun h => h)) with (o := o).
  - unfold openprodoc_list_subfolders, list_subfolders_endpoint.
    destruct (is_set (ListSubfoldersInput.folder_id p));
      [|destruct (is_set (ListSubfoldersInput.folder_path p)); [|left; reflexivity]];
      cbv zeta;
      now apply (one_request_raises env _ _ (fun h => h)) with (o := o).
  - unfold openprodoc_list_documents_in_folder, list_documents_endpoint.
    destruct (is_set (ListDocumentsInput.folder_id p));
      [|destruct (is_set (ListDocumentsInput.folder_path p)); [|left; reflexivity]];
      cbv zeta;
      now apply (one_request_raises env _ _ (fun h => h)) with (o := o).
  - unfold openprodoc_search_folders. cbv zeta.
    now apply one_request_raises with (o := o).
  - unfold openprodoc_get_document_metadata.
    now apply (one_request_raises env _ _ (fun h => h)) with (o := o).
  - unfold openprodoc_delete_document.
    now apply (one_request_raises env _ _ (fun h => h)) with (o := o).
  - (* upload *)
    pose proof (get_auth_headers_world env w) as Hw.
    unfold openprodoc_upload_document, catching. cbv zeta.
    destruct (read_file env (UploadDocumentInput.file_path p)) as [file_content|e'];
      [|left; unfold bind, lift; destruct e'; reflexivity].
    rewrite !bind_lift_ok.
    destruct (dumps env _) as [metadata_json|e'];
      [|left; unfold bind, lift; destruct e'; reflexivity].
    rewrite !bind_lift_ok.
    destruct (_get_auth_headers env w) as [[headers|e'] w1] eqn:Hh; cbn [snd] in Hw; subst w1.
    + right. unfold bind at 1. rewrite Hh. unfold bind at 1.
      rewrite (make_api_request_raises env "documents" "POST" _ _ _ _ _ w o e Hremote He)
        by reflexivity.
      destruct e; try discriminate Hfile; reflexivity.
    + left. unfold bind at 1. rewrite Hh. destruct e'; reflexivity.
  - unfold openprodoc_search_documents. cbv zeta.
    now apply one_request_raises with (o := o).
  - unfold openprodoc_create_term. cbv zeta.
    now apply one_request_raises with (o := o).
  - unfold openprodoc_get_term.
    now apply (one_request_raises env _ _ (fun h => h)) with (o := o).
  - unfold openprodoc_update_term.
    destruct (update_term_body p) as [[|field body] updated_fields]; [left; reflexivity|].
    cbv zeta. now apply one_request_raises with (o := o).
  - unfold openprodoc_delete_term.
    now apply (one_request_raises env _ _ (fun h => h)) with (o := o).
  - unfold openprodoc_list_subterms. cbv zeta.
    now apply (one_request_raises env _ _ (fun h => h)) with (o := o).
  - unfold openprodoc_search_terms. cbv zeta.
    now apply one_request_raises with (o := o).
Qed.

(** When the request of a tool fails in the transport (a status outside 2xx,
    a timeout, any other exception of the client), every tool but the document
    update answers the message that [_handle_api_error] gives for that
    failure, whatever the session holds: this covers the first login as well
    as a call under a stored token. *)
Theorem transport_errors_are_reported (env : environment) (i : invocation) (w : world)
    (o : http_outcome) (e : exn) :
  is_update_document i = false ->
  (forall req, remote env (sent w) req = o) ->
  transport_error o = Some e -> is_file_not_found e = false ->
  sent (snd (call env i w)) <> sent w ->
  fst (call env i w) = _handle_api_error env e.
Proof.
  intros Hi Hremote He Hfile Hsent.
  destruct (call_reports_transport_error env i w o e Hi Hremote He Hfile)
    as [E|E]; [contradiction | exact E].
Qed.

Lemma transport_errors_are_reported_witness :
  fst (call (sample_env (always (Failed (TimeoutException "timed out"))))
         (Login (LoginInput.mk (Some "root") (Some "secret") None)) logged_out)
  = "Error: Request timed out. The server may be slow or unreachable. Please try again.".
Proof.
  refine (transport_errors_are_reported
            (sample_env (always (Failed (TimeoutException "timed out"))))
            (Login (LoginInput.mk (Some "root") (Some "secret") None)) logged_out
            (Failed (TimeoutException "timed out")) (TimeoutException "timed out")
            _ _ _ _ _);
    first [reflexivity | discriminate | (vm_compute; discriminate)].
Defined.

(** A document update hides a failure of its fetch: whatever the transport
    raises while the stored metadata is fetched (a 401, a 404, a timeout),
    and also when no token is stored, the answer is that the metadata could
    not be retrieved, and no [PUT] follows. *)
Theorem update_document_hides_fetch_failure (env : environment)
    (params : UpdateDocumentInput.t) (w : world) (o : http_outcome) (e : exn) :
  (forall req, remote env (sent w) req = o) ->
  transport_error o = Some e ->
  fst (openprodoc_update_document env params w)
  = "Error: Could not retrieve existing document metadata. Document may not exist."
  /\ List.length (sent (snd (openprodoc_update_document env params w)))
     <= S (List.length (sent w)).
Proof.
  intros Hremote He.
  assert (exists w', _get_document_metadata_raw env (UpdateDocumentInput.document_id params) w
                     = (Ok PNone, w')
                     /\ List.length (sent w') <= S (List.length (sent w))) as (w' & Hraw & Hlen).
  { unfold _get_document_metadata_raw, try_except. unfold bind at 1.
    destruct (_get_auth_headers env w) as [[headers|e'] w1] eqn:Hh.
    - assert (w1 = w) as ->.
      { pose proof (sends_get_auth_headers env w) as (_ & _ & _ & _ & H).
        rewrite Hh in H. unfold _get_auth_headers, bind, get_world, raise, lift, ret in Hh.
        destruct (negb (Py.truthy (_auth_token w))); [discriminate|].
        destruct (Py.len (_auth_token w)); now inversion Hh. }
      unfold bind at 1.
      rewrite (make_api_request_raises env _ "GET" _ _ _ _ _ w o e Hremote He)
        by reflexivity.
      eexists. split; [reflexivity|]. cbn [sent record_request].
      rewrite length_app. cbn [List.length]. lia.
    - assert (w1 = w) as ->.
      { unfold _get_auth_headers, bind, get_world, raise, lift, ret in Hh.
        destruct (negb (Py.truthy (_auth_token w))); [now inversion Hh|].
        destruct (Py.len (_auth_token w)); now inversion Hh. }
      eexists. split; [reflexivity|]. lia. }
  assert (openprodoc_update_document env params w
          = ("Error: Could not retrieve existing document metadata. Document may not exist.",
             w')) as ->.
  { unfold openprodoc_update_document, catching. unfold bind at 1. now rewrite Hraw. }
  split; [reflexivity | exact Hlen].
Qed.

Lemma update_document_hides_fetch_failure_witness :
  fst (openprodoc_update_document (sample_env (always (json_answer 401 PNone)))
         new_version logged_in)
  = "Error: Could not retrieve existing document metadata. Document may not exist.".
Proof.
  refine (proj1 (update_document_hides_fetch_failure
                   (sample_env (always (json_answer 401 PNone))) new_version logged_in
                   (json_answer 401 PNone)
                   (HTTPStatusError (mk_response 401 (Some "application/json") (inl PNone) ""))
                   _ _));
    reflexivity.
Defined.

(** ** A login answered with a token that has no length *)

(** The token of a granted login is stored before its length is logged.  When
    the service grants the login with a [Token] that has no length (a number,
    [null], a boolean), the stored token is replaced by that value and the
    answer is the error message for the exception of [len]. *)
Theorem login_with_unsized_token (env : environment) (params : LoginInput.t) (w : world)
    (user pass : string) (token : pyval) (e : exn) (r : http_response)
    (d : list (string * pyval)) :
  or_else (LoginInput.username params) (_default_username w) = Some user -> user <> "" ->
  or_else (LoginInput.password params) (_default_password w) = Some pass -> pass <> "" ->
  (forall req, remote env (sent w) req = Responded r) ->
  raise_for_status r = Ok tt ->
  response_json r = inl (PDict d) ->
  Py.lookup d "Res" = Some (PStr "OK") ->
  Py.lookup d "Token" = Some token ->
  Py.len token = Raise e ->
  fst (openprodoc_login env params w) = _handle_api_error env e
  /\ is_error (fst (openprodoc_login env params w)) = true
  /\ _auth_token (snd (openprodoc_login env params w)) = token.
Proof.
  intros Hu Hune Hp Hpne Hremote Hstatus Hjson Hres Htok Hlen.
  assert (openprodoc_login env params w
          = (_handle_api_error env e,
             mk_world token (login_base_url params w)
                      (_default_username w) (_default_password w)
                      (List.app (sent w)
                         [login_request (login_base_url params w) user pass]))) as ->.
  { unfold openprodoc_login, catching, bind, get_world, modify, client_request, lift, ret.
    rewrite Hu, Hp, (is_set_some user Hune), (is_set_some pass Hpne).
    cbn [negb orb sent set_base_url _base_url opt_str].
    rewrite Hremote, Hstatus. unfold json_of_response. rewrite Hjson.
    cbn [Py.get Py.contains]. unfold Py.dict_get, Py.has_key. rewrite Hres, Htok.
    cbn [Py.eq_str]. rewrite String.eqb_refl. cbn [andb]. rewrite Hlen.
    reflexivity. }
  cbn [fst snd _auth_token]. repeat split.
  apply handle_api_error_starts.
Qed.

Lemma login_with_unsized_token_witness :
  is_error
    (fst (openprodoc_login
            (sample_env (always (json_answer 200
               (PDict [("Res", PStr "OK"); ("Token", PInt 7)]))))
            (LoginInput.mk (Some "root") (Some "secret") None) logged_in)) = true
  /\ _auth_token
       (snd (openprodoc_login
               (sample_env (always (json_answer 200
                  (PDict [("Res", PStr "OK"); ("Token", PInt 7)]))))
               (LoginInput.mk (Some "root") (Some "secret") None) logged_in))
     = PInt 7.
Proof.
  refine (proj2 (login_with_unsized_token
            (sample_env (always (json_answer 200
               (PDict [("Res", PStr "OK"); ("Token", PInt 7)]))))
            (LoginInput.mk (Some "root") (Some "secret") None) logged_in
            "root" "secret" (PInt 7)
            (Py.TypeError "object of type 'int' has no len()")
            (mk_response 200 (Some "application/json")
               (inl (PDict [("Res", PStr "OK"); ("Token", PInt 7)])) "")
            [("Res", PStr "OK"); ("Token", PInt 7)] _ _ _ _ _ _ _ _ _ _));
    first [reflexivity | discriminate].
Defined.

(** ** Identifiers and endpoints *)

Lemma id_from_msg_plain_id_witness :
  id_from_msg (PStr "Creado=16cdeb939d9") "Unknown" = Ok "16cdeb939d9".
Proof.
  apply (id_from_msg_plain_id "Creado" "16cdeb939d9" "Unknown"); reflexivity.
Defined.

Lemma normalised_by_path_endpoints_witness :
  exists endpoint,
    fst (delete_folder_endpoint (DeleteFolderInput.mk None (Some "/Projects")))
    = Endpoint endpoint
    /\ PyString.endswith endpoint "/" = true.
Proof.
  refine (proj2 (proj2 (normalised_by_path_endpoints None "/Projects" _ _)));
    first [reflexivity | discriminate].
Defined.
